(** * Car rental booking: booking state machine, date validation and pricing

    A shallow embedding of the booking core of the car-rental service:

    - [JS]: the slice of the JavaScript runtime the front end relies on
      (truthiness and ordering of strings, [Date] parsing and local midnight,
      numbers);
    - [Backend]: the add-on catalogue served by [AddonService] (Java);
    - [Slice]: the Redux slice [bookingSlice.ts] (state, reducers, extra
      reducers of the two thunks);
    - [Selectors]: [selectRentalDays], [selectBookingSummary],
      [selectIsBookingValid];
    - [DateSelection]: the change handlers of [DateSelection.tsx], which are
      the SetPickupDate / SetDropoffDate transitions of the state machine;
    - [Machine]: the store together with the add-on fetches in flight, and the
      events that drive it. *)

From Stdlib Require Import ZArith List String Ascii Bool Lia Floats Uint63 Permutation.
Import ListNotations.

#[local] Set Warnings "-inexact-float".

Local Open Scope string_scope.
Local Open Scope Z_scope.

(* ================================================================== *)
(** ** The JavaScript runtime, as far as the program uses it *)
(* ================================================================== *)

Module JS.

(** What the program cannot see of its host: the offset of local time from
    UTC in milliseconds (taken constant: no daylight-saving change between
    the dates compared), the clock read by [new Date()], and the
    implementation-defined fallback of [Date.parse] for strings outside the
    ECMAScript date-time format. *)
Record Host := mkHost {
  LocalTZA : Z;
  clock : Z;
  legacy_parse : string -> option Z
}.

(** [!!s] for a string: the empty string is the only falsy one. *)
Definition truthy (s : string) : bool := negb (s =? "")%string.

(** [a <= b] on strings: code units compared left to right.  A string is kept
    as its sequence of bytes; for the ASCII text of dates the bytes are the
    code units. *)
Definition str_le (a b : string) : bool := String.leb a b.

(** *** Time values *)

Definition msPerDay : Z := 86400000.

Definition Day (t : Z) : Z := t / msPerDay.

Definition DaysInYear (y : Z) : Z :=
  if negb (y mod 4 =? 0) then 365
  else if negb (y mod 100 =? 0) then 366
  else if negb (y mod 400 =? 0) then 365
  else 366.

Definition InLeapYear (y : Z) : bool := DaysInYear y =? 366.

Definition DayFromYear (y : Z) : Z :=
  365 * (y - 1970) + (y - 1969) / 4 - (y - 1901) / 100 + (y - 1601) / 400.

(** Days in month [m] (1 to 12) of year [y]. *)
Definition DaysInMonth (y m : Z) : Z :=
  if m =? 2 then (if InLeapYear y then 29 else 28)
  else if (m =? 4) || (m =? 6) || (m =? 9) || (m =? 11) then 30
  else 31.

(** Day within the year on which month [m] (1 to 12) starts. *)
Definition MonthStart (leap : bool) (m : Z) : Z :=
  let l := if leap then 1 else 0 in
  if m =? 1 then 0
  else if m =? 2 then 31
  else if m =? 3 then 59 + l
  else if m =? 4 then 90 + l
  else if m =? 5 then 120 + l
  else if m =? 6 then 151 + l
  else if m =? 7 then 181 + l
  else if m =? 8 then 212 + l
  else if m =? 9 then 243 + l
  else if m =? 10 then 273 + l
  else if m =? 11 then 304 + l
  else 334 + l.

(** [MakeDay] for a month and day in range: the day number (days since
    1970-01-01) of the calendar date [y]-[m]-[d]. *)
Definition MakeDay (y m d : Z) : Z :=
  DayFromYear y + MonthStart (InLeapYear y) m + d - 1.

Definition MakeDate (day time : Z) : Z := day * msPerDay + time.

Definition LocalTime (h : Host) (t : Z) : Z := t + LocalTZA h.
Definition UTC (h : Host) (t : Z) : Z := t - LocalTZA h.

(** *** Parsing *)

Definition digit (c : ascii) : option Z :=
  let n := Z.of_N (N_of_ascii c) in
  if (48 <=? n) && (n <=? 57) then Some (n - 48) else None.

Definition is_dash (c : ascii) : bool := (c =? "-")%char.

(** Reads a prefix of the shape [\d{4}-\d{2}-\d{2}]; gives the three numbers
    and what follows. *)
Definition scan_ymd (s : string) : option (Z * Z * Z * string) :=
  match s with
  | String y1 (String y2 (String y3 (String y4 (String h1
      (String m1 (String m2 (String h2 (String d1 (String d2 rest))))))))) =>
      match digit y1, digit y2, digit y3, digit y4 with
      | Some a, Some b, Some c, Some d =>
          match digit m1, digit m2, digit d1, digit d2 with
          | Some e, Some f, Some g, Some i =>
              if is_dash h1 && is_dash h2
              then Some (1000 * a + 100 * b + 10 * c + d, 10 * e + f, 10 * g + i, rest)
              else None
          | _, _, _, _ => None
          end
      | _, _, _, _ => None
      end
  | _ => None
  end.

(** [/^\d{4}-\d{2}-\d{2}$/.test(s)] *)
Definition dateRegex_test (s : string) : bool :=
  match scan_ymd s with
  | Some (_, _, _, rest) => (rest =? "")%string
  | None => false
  end.

(** A month from 01 to 12 and a day that exists in it. *)
Definition valid_ymd (y m d : Z) : bool :=
  (1 <=? m) && (m <=? 12) && (1 <=? d) && (d <=? DaysInMonth y m).

(** The two forms of the date-time format the program builds: a date-only
    string is UTC midnight of that date, a date followed by [T00:00:00] is
    local midnight. *)
Definition iso_parse (h : Host) (s : string) : option Z :=
  match scan_ymd s with
  | Some (y, m, d, rest) =>
      if valid_ymd y m d then
        if (rest =? "")%string then Some (MakeDate (MakeDay y m d) 0)
        else if (rest =? "T00:00:00")%string then Some (UTC h (MakeDate (MakeDay y m d) 0))
        else None
      else None
  | None => None
  end.

(** A [Date] object is its time value; [None] is the Invalid Date (NaN). *)
Definition Date : Type := option Z.

(** [new Date(s)] *)
Definition Date_of_string (h : Host) (s : string) : Date :=
  match iso_parse h s with
  | Some t => Some t
  | None => legacy_parse h s
  end.

(** [new Date()] *)
Definition Date_now (h : Host) : Date := Some (clock h).

(** [d.setHours(0, 0, 0, 0)]: midnight of the local day of [d]. *)
Definition setHours0 (h : Host) (d : Date) : Date :=
  option_map (fun t => UTC h (MakeDate (Day (LocalTime h t)) 0)) d.

Definition getTime (d : Date) : option Z := d.

(** [!isNaN(d.getTime())] *)
Definition is_valid (d : Date) : bool :=
  match d with Some _ => true | None => false end.

(** Relational operators on numbers that may be NaN: any comparison with NaN
    is false. *)
Definition num_lt (a b : option Z) : bool :=
  match a, b with Some x, Some y => x <? y | _, _ => false end.
Definition num_le (a b : option Z) : bool :=
  match a, b with Some x, Some y => x <=? y | _, _ => false end.
Definition num_gt (a b : option Z) : bool := num_lt b a.
Definition num_ge (a b : option Z) : bool := num_le b a.

(** A day count as a binary64 number (exact from 0 to 2^53). *)
Definition of_Z (z : Z) : float := PrimFloat.of_uint63 (Uint63.of_Z z).

End JS.

(* ================================================================== *)
(** ** The add-on catalogue of the back end ([AddonService.java]) *)
(* ================================================================== *)

Module Addon.
Record t := mk { id : Z; name : string; costPerDay : float }.
End Addon.

Module Vehicle.
Record t := mk { id : Z; name : string; emoji : string; costPerDay : float }.
End Vehicle.

Module Backend.

Definition GPS_NAVIGATION := Addon.mk 1 "GPS Navigation" 200.
Definition CHILD_SEAT := Addon.mk 2 "Child Seat" 150.
Definition INSURANCE := Addon.mk 5 "Insurance" 500.
Definition ROADSIDE_ASSISTANCE := Addon.mk 6 "Roadside Assistance" 250.
Definition WIFI_HOTSPOT := Addon.mk 3 "WiFi Hotspot" 300.
Definition DRIVER_SERVICE := Addon.mk 4 "Driver Service" 1000.
Definition PREMIUM_INSURANCE := Addon.mk 7 "Premium Insurance" 800.
Definition CONCIERGE_SERVICE := Addon.mk 8 "Concierge Service" 1200.
Definition CHAUFFEUR_SERVICE := Addon.mk 9 "Chauffeur Service" 1500.
Definition PREMIUM_SOUND_SYSTEM := Addon.mk 10 "Premium Sound System" 400.

(** [Long.intValue()]: the low 32 bits, signed. *)
Definition intValue (z : Z) : Z := (z + 2147483648) mod 4294967296 - 2147483648.

Definition getAddonsByVehicleId (vehicleId : option Z) : list Addon.t :=
  let addons := [GPS_NAVIGATION; CHILD_SEAT; INSURANCE; ROADSIDE_ASSISTANCE] in
  match vehicleId with
  | None => addons
  | Some v =>
      let k := intValue v in
      if k =? 1 then addons
      else if (k =? 2) || (k =? 4) then addons ++ [WIFI_HOTSPOT]
      else if k =? 3 then
        addons ++ [WIFI_HOTSPOT; DRIVER_SERVICE; PREMIUM_INSURANCE;
                   CONCIERGE_SERVICE; CHAUFFEUR_SERVICE; PREMIUM_SOUND_SYSTEM]
      else addons
  end.

(** [VehicleService.getAllVehicles] *)
Definition getAllVehicles : list Vehicle.t :=
  [ Vehicle.mk 1 "Sedan" "🚗" 2500;
    Vehicle.mk 2 "SUV" "🚙" 3500;
    Vehicle.mk 3 "Luxury" "🏎️" 5000;
    Vehicle.mk 4 "Van" "🚐" 4000 ].

End Backend.

(* ================================================================== *)
(** ** The booking state ([types.ts] and [initialState]) *)
(* ================================================================== *)

Module BookingState.

Record t := mk {
  selectedVehicle : option Vehicle.t;
  pickupDate : string;
  dropoffDate : string;
  selectedAddons : list Z;
  vehicles : list Vehicle.t;
  addons : list Addon.t;
  loading : bool;
  error : option string;
  showConfirmation : bool
}.

Definition initialState : t :=
  {| selectedVehicle := None; pickupDate := ""; dropoffDate := "";
     selectedAddons := []; vehicles := []; addons := [];
     loading := false; error := None; showConfirmation := false |}.

End BookingState.

(** The actions the slice understands: its own and those of the two thunks. *)
Module Action.
Inductive t :=
| selectVehicle (payload : Vehicle.t)
| setPickupDate (payload : string)
| setDropoffDate (payload : string)
| toggleAddon (payload : Z)
| showConfirmation
| hideConfirmation
| resetBooking
| fetchVehicles_pending
| fetchVehicles_fulfilled (payload : list Vehicle.t)
| fetchVehicles_rejected (payload : string)
| fetchAddons_pending
| fetchAddons_fulfilled (payload : list Addon.t)
| fetchAddons_rejected (payload : string).
End Action.

(* ================================================================== *)
(** ** The Redux slice ([bookingSlice.ts]) *)
(* ================================================================== *)

Module Slice.

(** [xs.indexOf(x)]: position of the first occurrence, [-1] when absent. *)
Fixpoint indexOf (xs : list Z) (x : Z) : Z :=
  match xs with
  | [] => -1
  | y :: ys =>
      if y =? x then 0
      else let i := indexOf ys x in if i =? -1 then -1 else i + 1
  end.

(** [xs.splice(index, 1)] for an index in range. *)
Definition splice1 (xs : list Z) (index : Z) : list Z :=
  firstn (Z.to_nat index) xs ++ skipn (S (Z.to_nat index)) xs.

Definition selectVehicle (state : BookingState.t) (payload : Vehicle.t) : BookingState.t :=
  let changing :=
    match BookingState.selectedVehicle state with
    | Some old => negb (Vehicle.id old =? Vehicle.id payload)
    | None => false
    end in
  {| BookingState.selectedVehicle := Some payload;
     BookingState.pickupDate := if changing then "" else BookingState.pickupDate state;
     BookingState.dropoffDate := if changing then "" else BookingState.dropoffDate state;
     BookingState.selectedAddons := [];
     BookingState.vehicles := BookingState.vehicles state;
     BookingState.addons := [];
     BookingState.loading := BookingState.loading state;
     BookingState.error := BookingState.error state;
     BookingState.showConfirmation := BookingState.showConfirmation state |}.

Definition setPickupDate (state : BookingState.t) (payload : string) : BookingState.t :=
  {| BookingState.selectedVehicle := BookingState.selectedVehicle state;
     BookingState.pickupDate := payload;
     BookingState.dropoffDate :=
       if JS.truthy (BookingState.dropoffDate state) && JS.str_le (BookingState.dropoffDate state) payload
       then "" else BookingState.dropoffDate state;
     BookingState.selectedAddons := BookingState.selectedAddons state;
     BookingState.vehicles := BookingState.vehicles state;
     BookingState.addons := BookingState.addons state;
     BookingState.loading := BookingState.loading state;
     BookingState.error := BookingState.error state;
     BookingState.showConfirmation := BookingState.showConfirmation state |}.

Definition setDropoffDate (state : BookingState.t) (payload : string) : BookingState.t :=
  {| BookingState.selectedVehicle := BookingState.selectedVehicle state;
     BookingState.pickupDate := BookingState.pickupDate state;
     BookingState.dropoffDate := payload;
     BookingState.selectedAddons := BookingState.selectedAddons state;
     BookingState.vehicles := BookingState.vehicles state;
     BookingState.addons := BookingState.addons state;
     BookingState.loading := BookingState.loading state;
     BookingState.error := BookingState.error state;
     BookingState.showConfirmation := BookingState.showConfirmation state |}.

Definition with_selectedAddons (state : BookingState.t) (l : list Z) : BookingState.t :=
  {| BookingState.selectedVehicle := BookingState.selectedVehicle state;
     BookingState.pickupDate := BookingState.pickupDate state;
     BookingState.dropoffDate := BookingState.dropoffDate state;
     BookingState.selectedAddons := l;
     BookingState.vehicles := BookingState.vehicles state;
     BookingState.addons := BookingState.addons state;
     BookingState.loading := BookingState.loading state;
     BookingState.error := BookingState.error state;
     BookingState.showConfirmation := BookingState.showConfirmation state |}.

Definition toggleAddon (state : BookingState.t) (addonId : Z) : BookingState.t :=
  let index := indexOf (BookingState.selectedAddons state) addonId in
  if index =? -1
  then with_selectedAddons state (BookingState.selectedAddons state ++ [addonId])
  else with_selectedAddons state (splice1 (BookingState.selectedAddons state) index).

Definition with_showConfirmation (state : BookingState.t) (b : bool) : BookingState.t :=
  {| BookingState.selectedVehicle := BookingState.selectedVehicle state;
     BookingState.pickupDate := BookingState.pickupDate state;
     BookingState.dropoffDate := BookingState.dropoffDate state;
     BookingState.selectedAddons := BookingState.selectedAddons state;
     BookingState.vehicles := BookingState.vehicles state;
     BookingState.addons := BookingState.addons state;
     BookingState.loading := BookingState.loading state;
     BookingState.error := BookingState.error state;
     BookingState.showConfirmation := b |}.

Definition showConfirmation (state : BookingState.t) : BookingState.t :=
  with_showConfirmation state true.

Definition hideConfirmation (state : BookingState.t) : BookingState.t :=
  with_showConfirmation state false.

Definition resetBooking (state : BookingState.t) : BookingState.t :=
  {| BookingState.selectedVehicle := None;
     BookingState.pickupDate := "";
     BookingState.dropoffDate := "";
     BookingState.selectedAddons := [];
     BookingState.vehicles := BookingState.vehicles state;
     BookingState.addons := BookingState.addons state;
     BookingState.loading := BookingState.loading state;
     BookingState.error := BookingState.error state;
     BookingState.showConfirmation := false |}.

(** *** Extra reducers: the life cycle of the two thunks *)

Definition with_fetch (state : BookingState.t) (vs : list Vehicle.t)
    (l : bool) (e : option string) : BookingState.t :=
  {| BookingState.selectedVehicle := BookingState.selectedVehicle state;
     BookingState.pickupDate := BookingState.pickupDate state;
     BookingState.dropoffDate := BookingState.dropoffDate state;
     BookingState.selectedAddons := BookingState.selectedAddons state;
     BookingState.vehicles := vs;
     BookingState.addons := BookingState.addons state;
     BookingState.loading := l;
     BookingState.error := e;
     BookingState.showConfirmation := BookingState.showConfirmation state |}.

Definition with_addons (state : BookingState.t) (l : list Addon.t) : BookingState.t :=
  {| BookingState.selectedVehicle := BookingState.selectedVehicle state;
     BookingState.pickupDate := BookingState.pickupDate state;
     BookingState.dropoffDate := BookingState.dropoffDate state;
     BookingState.selectedAddons := BookingState.selectedAddons state;
     BookingState.vehicles := BookingState.vehicles state;
     BookingState.addons := l;
     BookingState.loading := BookingState.loading state;
     BookingState.error := BookingState.error state;
     BookingState.showConfirmation := BookingState.showConfirmation state |}.

Definition fetchVehicles_pending (state : BookingState.t) : BookingState.t :=
  with_fetch state (BookingState.vehicles state) true None.

Definition fetchVehicles_fulfilled (state : BookingState.t) (payload : list Vehicle.t) : BookingState.t :=
  with_fetch state payload false (BookingState.error state).

Definition fetchVehicles_rejected (state : BookingState.t) (payload : string) : BookingState.t :=
  with_fetch state (BookingState.vehicles state) false (Some payload).

Definition fetchAddons_pending (state : BookingState.t) : BookingState.t :=
  match BookingState.error state with
  | Some e => if JS.truthy e then with_fetch state (BookingState.vehicles state) (BookingState.loading state) None
              else state
  | None => state
  end.

(** The payload replaces the list, whatever vehicle is selected by now. *)
Definition fetchAddons_fulfilled (state : BookingState.t) (payload : list Addon.t) : BookingState.t :=
  with_addons state payload.

Definition fetchAddons_rejected (state : BookingState.t) (payload : string) : BookingState.t :=
  with_addons state [].

(** [bookingSlice.reducer]; [dispatch] applies it to the store. *)
Definition reducer (state : BookingState.t) (a : Action.t) : BookingState.t :=
  match a with
  | Action.selectVehicle v => selectVehicle state v
  | Action.setPickupDate d => setPickupDate state d
  | Action.setDropoffDate d => setDropoffDate state d
  | Action.toggleAddon i => toggleAddon state i
  | Action.showConfirmation => showConfirmation state
  | Action.hideConfirmation => hideConfirmation state
  | Action.resetBooking => resetBooking state
  | Action.fetchVehicles_pending => fetchVehicles_pending state
  | Action.fetchVehicles_fulfilled p => fetchVehicles_fulfilled state p
  | Action.fetchVehicles_rejected p => fetchVehicles_rejected state p
  | Action.fetchAddons_pending => fetchAddons_pending state
  | Action.fetchAddons_fulfilled p => fetchAddons_fulfilled state p
  | Action.fetchAddons_rejected p => fetchAddons_rejected state p
  end.

Definition dispatch := reducer.

End Slice.

(* ================================================================== *)
(** ** The selectors ([selectors.ts]) *)
(* ================================================================== *)

Module BookingSummary.
Record t := mk {
  vehicle : Vehicle.t;
  days : Z;
  baseCost : float;
  addonsCost : float;
  subtotal : float;
  gst : float;
  total : float;
  selectedAddons : list Addon.t
}.
End BookingSummary.

Module Selectors.

(** [Math.ceil(x / n)] for integers [x] and [n > 0]. *)
Definition ceil_div (x n : Z) : Z := - ((- x) / n).

(** [createSelector] caches the last result for the last state; the value is
    that of the function below.  Time values are integers; the difference of
    two of them and its quotient by the milliseconds of a day are computed
    here exactly.  The binary64 computation of the program agrees with it as
    long as the dates are less than 2^27 days apart (some 367,000 years),
    which holds for any two dates with a four-digit year: the difference is
    below 2^53, and a quotient that is not whole is at least 1/86400000 away
    from a whole number, more than half the spacing of binary64 numbers
    below 2^27. *)
Definition selectRentalDays (h : JS.Host) (booking : BookingState.t) : Z :=
  if negb (JS.truthy (BookingState.pickupDate booking))
     || negb (JS.truthy (BookingState.dropoffDate booking))
  then 0
  else
    let pickup := JS.Date_of_string h (BookingState.pickupDate booking) in
    let dropoff := JS.Date_of_string h (BookingState.dropoffDate booking) in
    match JS.getTime dropoff, JS.getTime pickup with
    | Some d, Some p =>
        let diffTime := Z.abs (d - p) in
        let diffDays := ceil_div diffTime (1000 * 60 * 60 * 24) in
        diffDays
    | _, _ => 0
    end.

(** [ids.includes(x)] *)
Definition includes (ids : list Z) (x : Z) : bool := existsb (Z.eqb x) ids.

Local Open Scope float_scope.

Definition selectBookingSummary (h : JS.Host) (booking : BookingState.t)
    : option BookingSummary.t :=
  let days := selectRentalDays h booking in
  match BookingState.selectedVehicle booking with
  | None => None
  | Some v =>
      if negb (JS.truthy (BookingState.pickupDate booking))
         || negb (JS.truthy (BookingState.dropoffDate booking))
         || (days =? 0)%Z
      then None
      else
        let baseCost := Vehicle.costPerDay v * JS.of_Z days in
        let selectedAddonObjects :=
          filter (fun addon => includes (BookingState.selectedAddons booking) (Addon.id addon))
                 (BookingState.addons booking) in
        let addonsCost :=
          fold_left (fun sum addon => sum + Addon.costPerDay addon * JS.of_Z days)
                    selectedAddonObjects 0 in
        let subtotal := baseCost + addonsCost in
        let gst := subtotal * 0.18 in
        let total := subtotal + gst in
        Some {| BookingSummary.vehicle := v;
                BookingSummary.days := days;
                BookingSummary.baseCost := baseCost;
                BookingSummary.addonsCost := addonsCost;
                BookingSummary.subtotal := subtotal;
                BookingSummary.gst := gst;
                BookingSummary.total := total;
                BookingSummary.selectedAddons := selectedAddonObjects |}
  end.

Definition selectIsBookingValid (h : JS.Host) (booking : BookingState.t) : bool :=
  let days := selectRentalDays h booking in
  match BookingState.selectedVehicle booking with Some _ => true | None => false end
  && negb (BookingState.pickupDate booking =? "")%string
  && negb (BookingState.dropoffDate booking =? "")%string
  && (0 <? days)%Z.

End Selectors.

(* ================================================================== *)
(** ** The date fields ([DateSelection.tsx]) *)
(* ================================================================== *)

Module DateSelection.

(** Keys of the messages shown under a field. *)
Inductive Message := invalidPickupDate | invalidDropoffDate | pastDate.

(** The component's own state: one error per field. *)
Record Errors := mkErrors {
  pickupError : option Message;
  dropoffError : option Message
}.

Definition noErrors : Errors := mkErrors None None.

Definition setPickupError (e : Errors) (m : option Message) : Errors :=
  mkErrors m (dropoffError e).
Definition setDropoffError (e : Errors) (m : option Message) : Errors :=
  mkErrors (pickupError e) m.

Definition isCompleteDate (h : JS.Host) (dateString : string) : bool :=
  if negb (JS.truthy dateString) then false
  else if negb (JS.dateRegex_test dateString) then false
  else JS.is_valid (JS.Date_of_string h dateString).

(** [new Date(s + 'T00:00:00')] followed by [setHours(0, 0, 0, 0)] *)
Definition localMidnight (h : JS.Host) (s : string) : JS.Date :=
  JS.setHours0 h (JS.Date_of_string h (s ++ "T00:00:00")).

(** [new Date()] followed by [setHours(0, 0, 0, 0)] *)
Definition todayLocal (h : JS.Host) : JS.Date := JS.setHours0 h (JS.Date_now h).

Definition isValidDate (h : JS.Host) (dateString : string) : bool :=
  if negb (JS.truthy dateString) then true
  else if negb (isCompleteDate h dateString) then true
  else JS.num_ge (localMidnight h dateString) (todayLocal h).

Definition isValidDropoffDate (h : JS.Host) (dropoffDateString pickupDateString : string) : bool :=
  if negb (JS.truthy dropoffDateString) || negb (JS.truthy pickupDateString) then true
  else if negb (isCompleteDate h dropoffDateString) || negb (isCompleteDate h pickupDateString)
  then true
  else JS.num_gt (localMidnight h dropoffDateString) (localMidnight h pickupDateString).

(** [handlePickupChange]: [pickupDate] and [dropoffDate] are the values the
    component read from the store when it last rendered, that is, those of
    [st]. *)
Definition handlePickupChange (h : JS.Host) (e : Errors) (st : BookingState.t)
    (value : string) : Errors * BookingState.t :=
  let dropoffDate := BookingState.dropoffDate st in
  if JS.truthy value && isCompleteDate h value
     && JS.num_lt (localMidnight h value) (todayLocal h)
  then (setPickupError e (Some invalidPickupDate), st)
  else
    let st1 := Slice.dispatch st (Action.setPickupDate value) in
    if JS.truthy value && isCompleteDate h value then
      let e1 := if negb (isValidDate h value)
                then setPickupError e (Some invalidPickupDate)
                else setPickupError e None in
      if JS.truthy dropoffDate && isCompleteDate h dropoffDate
         && negb (isValidDropoffDate h dropoffDate value)
      then (setDropoffError e1 (Some invalidDropoffDate),
            Slice.dispatch st1 (Action.setDropoffDate ""))
      else if JS.truthy dropoffDate && isCompleteDate h dropoffDate
      then (setDropoffError e1 None, st1)
      else (e1, st1)
    else (setPickupError e None, st1).

Definition handleDropoffChange (h : JS.Host) (e : Errors) (st : BookingState.t)
    (value : string) : Errors * BookingState.t :=
  let pickupDate := BookingState.pickupDate st in
  if JS.truthy value && isCompleteDate h value
     && JS.num_lt (localMidnight h value) (todayLocal h)
  then (setDropoffError e (Some pastDate), st)
  else if JS.truthy value && isCompleteDate h value
          && (JS.truthy pickupDate && isCompleteDate h pickupDate)
          && JS.num_le (localMidnight h value) (localMidnight h pickupDate)
  then (setDropoffError e (Some invalidDropoffDate), st)
  else
    let st1 := Slice.dispatch st (Action.setDropoffDate value) in
    if JS.truthy value && isCompleteDate h value then
      if negb (JS.truthy pickupDate)
      then (setDropoffError e (Some invalidDropoffDate), st1)
      else if negb (isValidDate h value) then (setDropoffError e (Some pastDate), st1)
      else if negb (isValidDropoffDate h value pickupDate)
      then (setDropoffError e (Some invalidDropoffDate), st1)
      else (setDropoffError e None, st1)
    else (setDropoffError e None, st1).

End DateSelection.

(* ================================================================== *)
(** ** The catalogue as the front end reaches it ([api.ts]) *)
(* ================================================================== *)

Module Api.

(** What a successful [apiService.getAddons(vehicleId)] answers: the request
    carries the vehicle id unless it is falsy (here [0]); the response cache
    only repeats earlier answers. *)
Definition getAddons (vehicleId : Z) : list Addon.t :=
  Backend.getAddonsByVehicleId (if vehicleId =? 0 then None else Some vehicleId).

End Api.

(* ================================================================== *)
(** ** The state machine: the store and the fetches in flight *)
(* ================================================================== *)

Module Machine.

(** [inflight] lists, oldest first, the argument of every [fetchAddons]
    thunk that has been started and has not settled yet. *)
Record t := mk {
  store : BookingState.t;
  errors : DateSelection.Errors;
  inflight : list Z
}.

Definition init : t :=
  mk BookingState.initialState DateSelection.noErrors [].

(** How a fetch settles: with the list of add-ons, or with an error
    message. *)
Inductive Outcome :=
| fulfilled (payload : list Addon.t)
| rejected (message : string).

Inductive Event :=
| SelectVehicle (v : Vehicle.t)
| SetPickupDate (d : string)
| SetDropoffDate (d : string)
| ToggleAddon (id : Z)
| ShowConfirmation
| HideConfirmation
| Reset
| FetchVehicles
| VehiclesSettled (r : list Vehicle.t + string)
| AddonsSettled (k : nat) (r : Outcome).

(** [VehicleSelection.handleSelect]: the reducer runs, then the thunk starts
    (its [pending] action is dispatched at once, its request is in flight). *)
Definition handleSelect (m : t) (vehicle : Vehicle.t) : t :=
  let s1 := Slice.dispatch (store m) (Action.selectVehicle vehicle) in
  let s2 := Slice.dispatch s1 Action.fetchAddons_pending in
  mk s2 (errors m) (inflight m ++ [Vehicle.id vehicle]).

(** [App.handleBookNow] *)
Definition handleBookNow (h : JS.Host) (s : BookingState.t) : BookingState.t :=
  if Selectors.selectIsBookingValid h s
  then Slice.dispatch s Action.showConfirmation
  else s.

(** Removes position [k] of the list. *)
Definition remove_nth {A} (k : nat) (l : list A) : list A :=
  firstn k l ++ skipn (S k) l.

(** The [k]-th request in flight settles: its [fulfilled] or [rejected]
    action reaches the reducer.  The action carries the payload; the
    reducer does not look at the vehicle the request was made for. *)
Definition settle (m : t) (k : nat) (r : Outcome) : t :=
  match nth_error (inflight m) k with
  | None => m
  | Some _ =>
      let a := match r with
               | fulfilled payload => Action.fetchAddons_fulfilled payload
               | rejected message => Action.fetchAddons_rejected message
               end in
      mk (Slice.dispatch (store m) a) (errors m) (remove_nth k (inflight m))
  end.

Definition step (h : JS.Host) (m : t) (ev : Event) : t :=
  match ev with
  | SelectVehicle v => handleSelect m v
  | SetPickupDate d =>
      let '(e, s) := DateSelection.handlePickupChange h (errors m) (store m) d in
      mk s e (inflight m)
  | SetDropoffDate d =>
      let '(e, s) := DateSelection.handleDropoffChange h (errors m) (store m) d in
      mk s e (inflight m)
  | ToggleAddon id =>
      mk (Slice.dispatch (store m) (Action.toggleAddon id)) (errors m) (inflight m)
  | ShowConfirmation => mk (handleBookNow h (store m)) (errors m) (inflight m)
  | HideConfirmation =>
      mk (Slice.dispatch (store m) Action.hideConfirmation) (errors m) (inflight m)
  | Reset => mk (Slice.dispatch (store m) Action.resetBooking) (errors m) (inflight m)
  | FetchVehicles =>
      mk (Slice.dispatch (store m) Action.fetchVehicles_pending) (errors m) (inflight m)
  | VehiclesSettled (inl vs) =>
      mk (Slice.dispatch (store m) (Action.fetchVehicles_fulfilled vs)) (errors m) (inflight m)
  | VehiclesSettled (inr msg) =>
      mk (Slice.dispatch (store m) (Action.fetchVehicles_rejected msg)) (errors m) (inflight m)
  | AddonsSettled k r => settle m k r
  end.

Definition run (h : JS.Host) (m : t) (evs : list Event) : t :=
  fold_left (step h) evs m.

(** The states the machine can be in. *)
Inductive reachable (h : JS.Host) : t -> Prop :=
| reach_init : reachable h init
| reach_step m ev : reachable h m -> reachable h (step h m ev).

(** The identity of the selected vehicle, if any. *)
Definition selectedId (s : BookingState.t) : option Z :=
  option_map Vehicle.id (BookingState.selectedVehicle s).

End Machine.

(* ================================================================== *)
(** ** Calendar vocabulary used to state the properties *)
(* ================================================================== *)

Module Calendar.

(** A calendar date written [YYYY-MM-DD]: its year, month and day. *)
Definition calendar_date (s : string) : option (Z * Z * Z) :=
  match JS.scan_ymd s with
  | Some (y, m, d, rest) =>
      if (rest =? "")%string && JS.valid_ymd y m d then Some (y, m, d) else None
  | None => None
  end.

(** Its day number. *)
Definition calendar_day (s : string) : option Z :=
  match calendar_date s with
  | Some (y, m, d) => Some (JS.MakeDay y m d)
  | None => None
  end.

(** The local calendar day on which the instant [t] falls. *)
Definition local_day (h : JS.Host) (t : Z) : Z := JS.Day (JS.LocalTime h t).

(** The evaluation day. *)
Definition today (h : JS.Host) : Z := local_day h (JS.clock h).

(** The local day a date string stands for, as the host reads it. *)
Definition day_of (h : JS.Host) (s : string) : option Z :=
  option_map (local_day h) (JS.Date_of_string h (s ++ "T00:00:00")).

(** Strictly earlier than the evaluation day. *)
Definition in_the_past (h : JS.Host) (s : string) : bool :=
  match day_of h s with
  | Some k => k <? today h
  | None => false
  end.

(** [a] is the same day as [b] or an earlier one. *)
Definition not_after (h : JS.Host) (a b : string) : bool :=
  match day_of h a, day_of h b with
  | Some x, Some y => x <=? y
  | _, _ => false
  end.

(** The order of two date strings by year, then month, then day. *)
Definition key (y m d : Z) : Z := y * 10000 + m * 100 + d.

End Calendar.

(* ================================================================== *)
(** ** Pricing vocabulary used to state the properties *)
(* ================================================================== *)

Module Pricing.

(** The add-on an id stands for in a catalogue, if there is one. *)
Definition resolve (catalog : list Addon.t) (id : Z) : option Addon.t :=
  find (fun a => Addon.id a =? id) catalog.

(** The selected ids that resolve against the catalogue, in the order in
    which they were selected; an id that does not resolve gives nothing. *)
Definition resolved (catalog : list Addon.t) (ids : list Z) : list Addon.t :=
  flat_map (fun id => match resolve catalog id with Some a => [a] | None => [] end) ids.

End Pricing.

(* ================================================================== *)
(** ** Statements about the machine, as the specification words them *)
(* ================================================================== *)

Module Stated.

(** The list without the first occurrence of [x]. *)
Fixpoint remove_first (x : Z) (l : list Z) : list Z :=
  match l with
  | [] => []
  | y :: ys => if y =? x then ys else y :: remove_first x ys
  end.

(** The identities of the add-ons currently available. *)
Definition available_ids (s : BookingState.t) : list Z :=
  map Addon.id (BookingState.addons s).

(** "A resolved add-on fetch result is applied only when its originating
    vehicle identity equals the currently selected vehicle identity at
    resolution time, and is discarded otherwise." *)
Definition stale_results_discarded (h : JS.Host) : Prop :=
  forall (m : Machine.t) (k : nat) (origin : Z) (payload : list Addon.t),
    Machine.reachable h m ->
    nth_error (Machine.inflight m) k = Some origin ->
    Machine.selectedId (Machine.store m) <> Some origin ->
    Machine.store (Machine.step h m (Machine.AddonsSettled k (Machine.fulfilled payload)))
    = Machine.store m.

(** "The set of selected add-on identities is a subset of the identities in
    the currently available add-ons set." *)
Definition selected_within_available (h : JS.Host) : Prop :=
  forall m : Machine.t,
    Machine.reachable h m ->
    incl (BookingState.selectedAddons (Machine.store m)) (available_ids (Machine.store m)).

(** "ToggleAddon(id) for an id not among the currently available add-ons is a
    no-op on the state." *)
Definition ineligible_toggle_ignored (h : JS.Host) : Prop :=
  forall (m : Machine.t) (id : Z),
    Machine.reachable h m ->
    ~ In id (available_ids (Machine.store m)) ->
    Machine.store (Machine.step h m (Machine.ToggleAddon id)) = Machine.store m.

(** SetPickupDate turns [p] down when it is a non-empty, complete date of
    the past, and accepts it otherwise. *)
Definition rejected (h : JS.Host) (p : string) : bool :=
  negb (p =? "")%string && DateSelection.isCompleteDate h p && Calendar.in_the_past h p.

(** "For every booking state in which ... the computed day count is 0
    (including malformed dates), the booking-summary derivation returns no
    summary available": a state with a date that fails the program's test
    of a well-formed date, [isCompleteDate], has a day count of zero and no
    summary. *)
Definition malformed_dates_give_no_summary (h : JS.Host) : Prop :=
  forall s : BookingState.t,
    DateSelection.isCompleteDate h (BookingState.pickupDate s) = false
    \/ DateSelection.isCompleteDate h (BookingState.dropoffDate s) = false ->
    Selectors.selectRentalDays h s = 0
    /\ Selectors.selectBookingSummary h s = None.

End Stated.

(* ================================================================== *)
(** ** Sample hosts, catalogue entries and runs *)
(* ================================================================== *)

Module Samples.

(** A host five and a half hours ahead of UTC, read at 2025-06-01T00:00Z
    (05:30 local time on the first of June), whose parser knows nothing beyond
    the date-time format. *)
Definition host : JS.Host :=
  JS.mkHost 19800000 (20240 * JS.msPerDay) (fun _ => None).

Definition sedan : Vehicle.t := Vehicle.mk 1 "Sedan" "🚗" 2500.
Definition luxury : Vehicle.t := Vehicle.mk 3 "Luxury" "🏎️" 5000.

(** A sedan from the tenth to the thirteenth of June, no add-on chosen. *)
Definition sedan_booking : BookingState.t :=
  {| BookingState.selectedVehicle := Some sedan;
     BookingState.pickupDate := "2025-06-10";
     BookingState.dropoffDate := "2025-06-13";
     BookingState.selectedAddons := [];
     BookingState.vehicles := Backend.getAllVehicles;
     BookingState.addons := Api.getAddons 1;
     BookingState.loading := false;
     BookingState.error := None;
     BookingState.showConfirmation := false |}.

(** The luxury car for two days with GPS navigation and insurance. *)
Definition luxury_booking : BookingState.t :=
  {| BookingState.selectedVehicle := Some luxury;
     BookingState.pickupDate := "2025-06-10";
     BookingState.dropoffDate := "2025-06-12";
     BookingState.selectedAddons := [1; 5];
     BookingState.vehicles := Backend.getAllVehicles;
     BookingState.addons := Api.getAddons 3;
     BookingState.loading := false;
     BookingState.error := None;
     BookingState.showConfirmation := false |}.

(** The sedan is chosen, then the luxury car before the sedan's add-ons have
    arrived: two requests are in flight. *)
Definition two_in_flight : Machine.t :=
  Machine.run host Machine.init
    [Machine.SelectVehicle sedan; Machine.SelectVehicle luxury].

(** The sedan with both dates entered. *)
Definition sedan_dated : Machine.t :=
  Machine.run host Machine.init
    [Machine.SelectVehicle sedan; Machine.SetPickupDate "2025-06-10";
     Machine.SetDropoffDate "2025-06-13"].

(** The sedan is chosen, its add-ons arrive, the booking is reset. *)
Definition after_reset : Machine.t :=
  Machine.run host Machine.init
    [Machine.SelectVehicle sedan;
     Machine.AddonsSettled 0 (Machine.fulfilled (Api.getAddons 1));
     Machine.Reset].

(** Both requests are in flight; the luxury car's add-ons arrive first, the
    driver service is ticked, then the sedan's add-ons arrive. *)
Definition overwritten : Machine.t :=
  Machine.run host two_in_flight
    [Machine.AddonsSettled 1 (Machine.fulfilled (Api.getAddons 3));
     Machine.ToggleAddon 4;
     Machine.AddonsSettled 0 (Machine.fulfilled (Api.getAddons 1))].

End Samples.

(* ================================================================== *)
(** ** More of the JavaScript runtime: the fields of a date, numbers as text *)
(* ================================================================== *)

Module JSFormat.

(** [YearFromTime] on day numbers: the year in which day [d] falls, that is
    the largest [y] with [DayFromYear y <= d].  The quotient is at most one
    year off. *)
Definition YearFromDay (d : Z) : Z :=
  let y0 := 1970 + (400 * d) / 146097 in
  if d <? JS.DayFromYear y0 then y0 - 1
  else if JS.DayFromYear (y0 + 1) <=? d then y0 + 1
  else y0.

Definition DayWithinYear (d : Z) : Z := d - JS.DayFromYear (YearFromDay d).

(** [MonthFromTime]: 0 for January to 11 for December. *)
Definition MonthFromDay (d : Z) : Z :=
  let dw := DayWithinYear d in
  let l := if JS.InLeapYear (YearFromDay d) then 1 else 0 in
  if dw <? 31 then 0
  else if dw <? 59 + l then 1
  else if dw <? 90 + l then 2
  else if dw <? 120 + l then 3
  else if dw <? 151 + l then 4
  else if dw <? 181 + l then 5
  else if dw <? 212 + l then 6
  else if dw <? 243 + l then 7
  else if dw <? 273 + l then 8
  else if dw <? 304 + l then 9
  else if dw <? 334 + l then 10
  else 11.

(** [DateFromTime]: the day of the month, from 1. *)
Definition DateFromDay (d : Z) : Z :=
  let dw := DayWithinYear d in
  let l := if JS.InLeapYear (YearFromDay d) then 1 else 0 in
  let m := MonthFromDay d in
  if m =? 0 then dw + 1
  else if m =? 1 then dw - 30
  else if m =? 2 then dw - 58 - l
  else if m =? 3 then dw - 89 - l
  else if m =? 4 then dw - 119 - l
  else if m =? 5 then dw - 150 - l
  else if m =? 6 then dw - 180 - l
  else if m =? 7 then dw - 211 - l
  else if m =? 8 then dw - 242 - l
  else if m =? 9 then dw - 272 - l
  else if m =? 10 then dw - 303 - l
  else dw - 333 - l.

(** [d.getFullYear()], [d.getMonth()], [d.getDate()]: the fields of the local
    time; NaN for the Invalid Date. *)
Definition getFullYear (h : JS.Host) (d : JS.Date) : option Z :=
  option_map (fun t => YearFromDay (JS.Day (JS.LocalTime h t))) d.
Definition getMonth (h : JS.Host) (d : JS.Date) : option Z :=
  option_map (fun t => MonthFromDay (JS.Day (JS.LocalTime h t))) d.
Definition getDate (h : JS.Host) (d : JS.Date) : option Z :=
  option_map (fun t => DateFromDay (JS.Day (JS.LocalTime h t))) d.

(** [d.setDate(dt)]: the day [dt] of the month of [d], counted on from the
    first of that month when [dt] is beyond its end, at the same time of
    day. *)
Definition setDate (h : JS.Host) (d : JS.Date) (dt : option Z) : JS.Date :=
  match d, dt with
  | Some t, Some n =>
      let lt := JS.LocalTime h t in
      let first := JS.Day lt - (DateFromDay (JS.Day lt) - 1) in
      Some (JS.UTC h (JS.MakeDate (first + n - 1) (lt mod JS.msPerDay)))
  | _, _ => None
  end.

(** [x + 1] on a number that may be NaN. *)
Definition succ (x : option Z) : option Z := option_map (fun n => n + 1) x.

Definition digit_char (n : Z) : ascii := ascii_of_N (Z.to_N (48 + n)).

(** The decimal digits of [n >= 0] in front of [acc]. *)
Fixpoint digits (fuel : nat) (n : Z) (acc : string) : string :=
  match fuel with
  | O => acc
  | S fuel' =>
      let acc' := String (digit_char (n mod 10)) acc in
      if n / 10 =? 0 then acc' else digits fuel' (n / 10) acc'
  end.

(** [String(x)] and [`${x}`] for an integer below 1e21, or NaN. *)
Definition Number_toString (x : option Z) : string :=
  match x with
  | None => "NaN"
  | Some n =>
      if n <? 0 then String "-" (digits (S (Z.to_nat (Z.log2 (- n)))) (- n) "")
      else digits (S (Z.to_nat (Z.log2 n))) n ""
  end.

Fixpoint repeat_char (c : ascii) (n : nat) : string :=
  match n with O => "" | S n' => String c (repeat_char c n') end.

(** [s.padStart(target, c)] for a one-character filler. *)
Definition padStart (target : nat) (c : ascii) (s : string) : string :=
  repeat_char c (target - String.length s) ++ s.

End JSFormat.

(** The two dates [DateSelection.tsx] hands to the date pickers as [min]. *)
Module DateLimits.

(** [`${year}-${month}-${day}`] from the fields of a date. *)
Definition format (h : JS.Host) (d : JS.Date) : string :=
  let year := JSFormat.getFullYear h d in
  let month :=
    JSFormat.padStart 2 "0" (JSFormat.Number_toString (JSFormat.succ (JSFormat.getMonth h d))) in
  let day := JSFormat.padStart 2 "0" (JSFormat.Number_toString (JSFormat.getDate h d)) in
  JSFormat.Number_toString year ++ "-" ++ month ++ "-" ++ day.

Definition todayString (h : JS.Host) : string :=
  format h (JS.setHours0 h (JS.Date_now h)).

Definition getMinDropoffDate (h : JS.Host) (pickupDate : string) : string :=
  if negb (JS.truthy pickupDate) then todayString h
  else
    let pickup := JS.Date_of_string h (pickupDate ++ "T00:00:00") in
    let pickup := JSFormat.setDate h pickup (JSFormat.succ (JSFormat.getDate h pickup)) in
    format h pickup.

(** The fields are disabled until the field before them is filled. *)
Definition isPickupDisabled (s : BookingState.t) : bool :=
  match BookingState.selectedVehicle s with Some _ => false | None => true end.
Definition isDropoffDisabled (s : BookingState.t) : bool :=
  match BookingState.selectedVehicle s with Some _ => false | None => true end
  || negb (JS.truthy (BookingState.pickupDate s)).

End DateLimits.

(* ================================================================== *)
(** ** The rest of the components *)
(* ================================================================== *)

(** The blur handlers of [DateSelection.tsx]. *)
Module DateBlur.

Definition handlePickupBlur (h : JS.Host) (e : DateSelection.Errors)
    (st : BookingState.t) (value : string) : DateSelection.Errors * BookingState.t :=
  if JS.truthy value && DateSelection.isCompleteDate h value then
    if negb (DateSelection.isValidDate h value)
    then (DateSelection.setPickupError e (Some DateSelection.invalidPickupDate),
          Slice.dispatch st (Action.setPickupDate ""))
    else (DateSelection.setPickupError e None, st)
  else if JS.truthy value
  then (DateSelection.setPickupError e (Some DateSelection.invalidPickupDate),
        Slice.dispatch st (Action.setPickupDate ""))
  else (DateSelection.setPickupError e None, st).

Definition handleDropoffBlur (h : JS.Host) (e : DateSelection.Errors)
    (st : BookingState.t) (value : string) : DateSelection.Errors * BookingState.t :=
  let pickupDate := BookingState.pickupDate st in
  if negb (JS.truthy value) then (DateSelection.setDropoffError e None, st)
  else if DateSelection.isCompleteDate h value then
    if negb (DateSelection.isValidDate h value)
    then (DateSelection.setDropoffError e (Some DateSelection.pastDate),
          Slice.dispatch st (Action.setDropoffDate ""))
    else if JS.truthy pickupDate
            && negb (DateSelection.isValidDropoffDate h value pickupDate)
    then (DateSelection.setDropoffError e (Some DateSelection.invalidDropoffDate),
          Slice.dispatch st (Action.setDropoffDate ""))
    else (DateSelection.setDropoffError e None, st)
  else (DateSelection.setDropoffError e (Some DateSelection.invalidDropoffDate),
        Slice.dispatch st (Action.setDropoffDate "")).

End DateBlur.

(** [BookingConfirmation.tsx] *)
Module BookingConfirmation.

(** The dialog is drawn unless the flag is down or there is no summary. *)
Definition renders (h : JS.Host) (s : BookingState.t) : bool :=
  if negb (BookingState.showConfirmation s)
     || match Selectors.selectBookingSummary h s with Some _ => false | None => true end
  then false else true.

Definition handleClose (s : BookingState.t) : BookingState.t :=
  Slice.dispatch (Slice.dispatch s Action.hideConfirmation) Action.resetBooking.

End BookingConfirmation.

(** [AddonsSelection.tsx] *)
Module AddonsSelection.

(** The ids that have a checkbox: none while no vehicle is selected, none
    while the list of add-ons is empty (the loading message is shown), one
    per available add-on otherwise. *)
Definition checkboxes (s : BookingState.t) : list Z :=
  match BookingState.selectedVehicle s with
  | None => []
  | Some _ => map Addon.id (BookingState.addons s)
  end.

Definition handleToggle (s : BookingState.t) (addonId : Z) : BookingState.t :=
  Slice.dispatch s (Action.toggleAddon addonId).

End AddonsSelection.

(** [AddonService.getAllAddons] and [AddonController.getAddons] *)
Module AddonController.

Definition getAllAddons : list Addon.t := Backend.getAddonsByVehicleId (Some 3).

Definition getAddons (vehicleId : option Z) : list Addon.t :=
  match vehicleId with
  | Some v => Backend.getAddonsByVehicleId (Some v)
  | None => Backend.getAddonsByVehicleId None
  end.

End AddonController.

(* ================================================================== *)
(** ** A session: every handler of the page *)
(* ================================================================== *)

Module Session.

(** The events of the machine, and besides them the two fields losing focus
    and the confirmation dialog being closed. *)
Inductive Event :=
| Core (ev : Machine.Event)
| PickupBlur (value : string)
| DropoffBlur (value : string)
| CloseConfirmation.

Definition step (h : JS.Host) (m : Machine.t) (ev : Event) : Machine.t :=
  match ev with
  | Core ev => Machine.step h m ev
  | PickupBlur value =>
      let '(e, s) := DateBlur.handlePickupBlur h (Machine.errors m) (Machine.store m) value in
      Machine.mk s e (Machine.inflight m)
  | DropoffBlur value =>
      let '(e, s) := DateBlur.handleDropoffBlur h (Machine.errors m) (Machine.store m) value in
      Machine.mk s e (Machine.inflight m)
  | CloseConfirmation =>
      Machine.mk (BookingConfirmation.handleClose (Machine.store m))
                 (Machine.errors m) (Machine.inflight m)
  end.

Definition run (h : JS.Host) (m : Machine.t) (evs : list Event) : Machine.t :=
  fold_left (step h) evs m.

(** The host at another reading of its clock: every handler calls
    [new Date()] for itself. *)
Definition at_time (h : JS.Host) (now : Z) : JS.Host :=
  JS.mkHost (JS.LocalTZA h) now (JS.legacy_parse h).

(** A session whose events each come with the reading of the clock at
    which their handler runs. *)
Definition run_at (h : JS.Host) (m : Machine.t) (evs : list (Z * Event)) : Machine.t :=
  fold_left (fun m' timed => step (at_time h (fst timed)) m' (snd timed)) evs m.

(** The states of a session.  [h] is the host when the page is opened; the
    handler of each event reads the clock afresh, at [now], which is not
    before the page was opened. *)
Inductive reachable (h : JS.Host) : Machine.t -> Prop :=
| reach_init : reachable h Machine.init
| reach_step m ev now :
    reachable h m -> JS.clock h <= now -> reachable h (step (at_time h now) m ev).

(** Both dates, read as calendar dates, are in order and not before the
    day of [h], the day on which the page was opened. *)
Definition dates_consistent (h : JS.Host) (s : BookingState.t) : Prop :=
  (forall j, Calendar.calendar_day (BookingState.pickupDate s) = Some j ->
     Calendar.today h <= j)
  /\ (forall k, Calendar.calendar_day (BookingState.dropoffDate s) = Some k ->
        Calendar.today h <= k)
  /\ (forall j k, Calendar.calendar_day (BookingState.pickupDate s) = Some j ->
        Calendar.calendar_day (BookingState.dropoffDate s) = Some k -> j < k).

(** An orderly session: a box is ticked only if it is on the page, a vehicle
    is chosen only while no add-on request is in flight, and a request is
    fulfilled with what the catalogue holds for its vehicle. *)
Definition orderly (m : Machine.t) (ev : Event) : Prop :=
  match ev with
  | Core (Machine.ToggleAddon id) => In id (AddonsSelection.checkboxes (Machine.store m))
  | Core (Machine.SelectVehicle _) => Machine.inflight m = []
  | Core (Machine.AddonsSettled k (Machine.fulfilled payload)) =>
      forall origin, nth_error (Machine.inflight m) k = Some origin ->
                     payload = Api.getAddons origin
  | _ => True
  end.

Inductive reachable_orderly (h : JS.Host) : Machine.t -> Prop :=
| orderly_init : reachable_orderly h Machine.init
| orderly_step m ev now :
    reachable_orderly h m -> JS.clock h <= now -> orderly m ev ->
    reachable_orderly h (step (at_time h now) m ev).

End Session.

(* ================================================================== *)
(** ** The error handling of the back end (Java) *)
(* ================================================================== *)

(** The profiles of the Spring environment, as both classes read them. *)
Module Environment.
Record t := mk { getActiveProfiles : list string; getDefaultProfiles : list string }.
End Environment.

(** [Arrays.asList(a).contains(x)] *)
Definition asList_contains (a : list string) (x : string) : bool :=
  existsb (String.eqb x) a.

(** [SecurityConfig.java] *)
Module SecurityConfig.

Definition isProduction (environment : Environment.t) : bool :=
  asList_contains (Environment.getActiveProfiles environment) "prod".

End SecurityConfig.

(** A [Map] of Java with strings as keys, known by what [get] answers for
    a key: its entries have no order. *)
Module JavaMap.

Definition t (V : Type) : Type := string -> option V.

Definition empty {V : Type} : t V := fun _ => None.

Definition get {V : Type} (m : t V) (key : string) : option V := m key.

Definition put {V : Type} (m : t V) (key : string) (value : V) : t V :=
  fun k => if (k =? key)%string then Some value else m k.

Definition containsKey {V : Type} (m : t V) (key : string) : bool :=
  match m key with Some _ => true | None => false end.

End JavaMap.

(** [GlobalExceptionHandler.java].  [toLowerCase], which follows the default
    locale of the virtual machine, is an argument of the functions that use
    it. *)
Module GlobalExceptionHandler.

Definition SENSITIVE_PARAM_NAMES : list string :=
  ["password"; "passwd"; "pwd"; "secret"; "token"; "key"; "apiKey";
   "apikey"; "auth"; "authorization"; "credential"; "creditCard";
   "cardNumber"; "cvv"; "ssn"; "socialSecurityNumber"].

Definition isProduction (environment : Environment.t) : bool :=
  asList_contains (Environment.getActiveProfiles environment) "prod"
  || ((Nat.eqb (List.length (Environment.getActiveProfiles environment)) 0)
      && negb (asList_contains (Environment.getDefaultProfiles environment) "dev")).

(** [s.contains(sub)]: [sub] occurs somewhere in [s]. *)
Fixpoint contains (s sub : string) : bool :=
  String.prefix sub s
  || match s with
     | EmptyString => false
     | String _ rest => contains rest sub
     end.

Definition isSensitive (toLowerCase : string -> string) (name : string) : bool :=
  let key := toLowerCase name in
  existsb (fun sensitive => contains key (toLowerCase sensitive)) SENSITIVE_PARAM_NAMES.

(** [sanitizeParameters].  [None] is [null].  The map that comes in is
    given by its entries in the order in which [entrySet()] yields them, an
    order the method does not choose; the map that goes out is a new
    [HashMap], filled by [put]. *)
Definition sanitizeParameters (toLowerCase : string -> string)
    (parameters : option (list (string * list string)))
    : option (JavaMap.t (list string)) :=
  match parameters with
  | None => None
  | Some [] => Some JavaMap.empty
  | Some entries =>
      Some (fold_left
              (fun sanitized entry =>
                 if isSensitive toLowerCase (fst entry)
                 then JavaMap.put sanitized (fst entry) ["[REDACTED]"]
                 else JavaMap.put sanitized (fst entry) (snd entry))
              entries JavaMap.empty)
  end.

Definition generic : string := "An unexpected error occurred. Please try again later.".

(** [message] is the exception's message, [None] for [null]. *)
Definition sanitizeErrorMessage (environment : Environment.t) (message : option string)
    : string :=
  if isProduction environment then generic
  else match message with
       | Some m => if negb (m =? "")%string then m else generic
       | None => generic
       end.

(** The body of an error response; the time stamp is the clock's reading
    when it is built. *)
Record ErrorResponse := mkResponse {
  timestamp : Z;
  status : Z;
  error : string;
  message : string;
  path : string
}.

Definition handleException (environment : Environment.t) (exMessage : option string)
    (now : Z) (requestUri : string) : ErrorResponse :=
  mkResponse now 500 "Internal Server Error"
             (sanitizeErrorMessage environment exMessage) requestUri.

Definition handleIllegalArgumentException (exMessage : option string)
    (now : Z) (requestUri : string) : ErrorResponse :=
  mkResponse now 400 "Bad Request"
             (match exMessage with Some m => m | None => "Invalid request parameters" end)
             requestUri.

Definition handleNullPointerException (now : Z) (requestUri : string) : ErrorResponse :=
  mkResponse now 500 "Internal Server Error" generic requestUri.

(** Lower case for the letters A to Z, every other byte as it is. *)
Definition lower_ascii_char (c : ascii) : ascii :=
  let n := N_of_ascii c in
  if (65 <=? n)%N && (n <=? 90)%N then ascii_of_N (n + 32) else c.

Fixpoint lower_ascii (s : string) : string :=
  match s with
  | EmptyString => EmptyString
  | String c rest => String (lower_ascii_char c) (lower_ascii rest)
  end.

End GlobalExceptionHandler.

(* ================================================================== *)
(** ** The response cache of the front end ([api.ts]) *)
(* ================================================================== *)

Module ApiService.

Definition CACHE_DURATION : Z := 5 * 60 * 1000.

(** What a response carries: the body of one of the two endpoints. *)
Inductive Data :=
| Vehicles (l : list Vehicle.t)
| Addons (l : list Addon.t).

Record CacheEntry := mkEntry { data : Data; timestamp : Z }.

(** The [Map] from keys to entries: at most one entry per key. *)
Definition Cache : Type := list (string * CacheEntry).

Fixpoint get (c : Cache) (key : string) : option CacheEntry :=
  match c with
  | [] => None
  | (k, e) :: rest => if (k =? key)%string then Some e else get rest key
  end.

Fixpoint delete (c : Cache) (key : string) : Cache :=
  match c with
  | [] => []
  | (k, e) :: rest => if (k =? key)%string then delete rest key else (k, e) :: delete rest key
  end.

Definition set (c : Cache) (key : string) (e : CacheEntry) : Cache :=
  (key, e) :: delete c key.

(** [getCached(key)] at the time [now]: the data and the cache after it. *)
Definition getCached (c : Cache) (now : Z) (key : string) : option Data * Cache :=
  match get c key with
  | Some entry =>
      if now - timestamp entry <? CACHE_DURATION then (Some (data entry), c)
      else (None, delete c key)
  | None => (None, delete c key)
  end.

(** The response interceptor: a successful response is stored under the
    method and the url of its request.  [method] is what the HTTP client
    reports as [response.config.method]. *)
Definition onResponse (method url : string) (c : Cache) (d : Data) (now : Z) : Cache :=
  set c (method ++ "_" ++ url) (mkEntry d now).

(** [!!vehicleId] for a number or [undefined]. *)
Definition given (vehicleId : option Z) : bool :=
  match vehicleId with Some n => negb (n =? 0) | None => false end.

Definition addonsKey (vehicleId : option Z) : string :=
  if given vehicleId
  then "GET_/addons?vehicleId=" ++ JSFormat.Number_toString vehicleId
  else "GET_/addons".

Definition addonsUrl (vehicleId : option Z) : string :=
  if given vehicleId
  then "/addons?vehicleId=" ++ JSFormat.Number_toString vehicleId
  else "/addons".

(** What comes of a request: a response with its body, received at some
    time, or a failure with its message. *)
Inductive Reply :=
| Response (d : Data) (receivedAt : Z)
| Failure (message : string).

(** The two requests of the service. *)
Inductive Request :=
| ForVehicles
| ForAddons (vehicleId : option Z).

Definition cacheKey (q : Request) : string :=
  match q with
  | ForVehicles => "GET_/vehicles"
  | ForAddons vehicleId => addonsKey vehicleId
  end.

Definition url (q : Request) : string :=
  match q with
  | ForVehicles => "/vehicles"
  | ForAddons vehicleId => addonsUrl vehicleId
  end.

(** One call from the look-up to its result, with nothing in between: the
    cached data if there is any, the reply of the network otherwise. *)
Definition call (method : string) (c : Cache) (now : Z) (q : Request)
    (reply : Reply) : (Data + string) * Cache :=
  match getCached c now (cacheKey q) with
  | (Some cached, c') => (inl cached, c')
  | (None, c') =>
      match reply with
      | Response d receivedAt => (inl d, onResponse method (url q) c' d receivedAt)
      | Failure message => (inr message, c')
      end
  end.

Definition getVehicles (method : string) (c : Cache) (now : Z) (reply : Reply) :=
  call method c now ForVehicles reply.

Definition getAddons (method : string) (c : Cache) (now : Z) (vehicleId : option Z)
    (reply : Reply) :=
  call method c now (ForAddons vehicleId) reply.

Definition clearCache (c : Cache) : Cache := [].

(** What the network gives a call that asked it. *)
Definition replied (reply : Reply) : Data + string :=
  match reply with
  | Response d _ => inl d
  | Failure message => inr message
  end.

(** What touches the cache, one at a time, when calls overlap: the look-up
    of a call, the arrival of a response, a clearing. *)
Inductive Event :=
| Looked (now : Z) (q : Request)
| Answered (q : Request) (d : Data) (receivedAt : Z)
| Cleared.

Definition after (method : string) (c : Cache) (ev : Event) : Cache :=
  match ev with
  | Looked now q => snd (getCached c now (cacheKey q))
  | Answered q d receivedAt => onResponse method (url q) c d receivedAt
  | Cleared => clearCache c
  end.

(** The caches the service can hold: it starts empty. *)
Inductive reachable (method : string) : Cache -> Prop :=
| reach_empty : reachable method []
| reach_event c ev : reachable method c -> reachable method (after method c ev).

(** The text has no underscore. *)
Fixpoint no_underscore (s : string) : bool :=
  match s with
  | EmptyString => true
  | String c rest => negb (c =? "_")%char && no_underscore rest
  end.

End ApiService.

(* ================================================================== *)
(** ** Sample sessions *)
(* ================================================================== *)

Module Sessions.

(** The page is opened on the first of June.  The sedan is booked from that
    day to the second; the dropoff field is left the next day. *)
Definition overnight : Machine.t :=
  Session.run_at Samples.host Machine.init
    [(JS.clock Samples.host, Session.Core (Machine.SelectVehicle Samples.sedan));
     (JS.clock Samples.host, Session.Core (Machine.SetPickupDate "2025-06-01"));
     (JS.clock Samples.host, Session.Core (Machine.SetDropoffDate "2025-06-02"));
     (JS.clock Samples.host + JS.msPerDay, Session.DropoffBlur "2025-06-02")].

(** The sedan with GPS navigation and insurance ticked, booked and the
    confirmation closed. *)
Definition booked_and_closed : Machine.t :=
  Session.run Samples.host Machine.init
    [Session.Core (Machine.SelectVehicle Samples.sedan);
     Session.Core (Machine.AddonsSettled 0 (Machine.fulfilled (Api.getAddons 1)));
     Session.Core (Machine.ToggleAddon 1);
     Session.Core (Machine.ToggleAddon 5);
     Session.Core (Machine.SetPickupDate "2025-06-10");
     Session.Core (Machine.SetDropoffDate "2025-06-13");
     Session.Core Machine.ShowConfirmation;
     Session.CloseConfirmation].

(** The sedan is chosen, its add-ons arrive, two boxes are ticked. *)
Definition ticked : Machine.t :=
  Session.run Samples.host Machine.init
    [Session.Core (Machine.SelectVehicle Samples.sedan);
     Session.Core (Machine.AddonsSettled 0 (Machine.fulfilled (Api.getAddons 1)));
     Session.Core (Machine.ToggleAddon 1);
     Session.Core (Machine.ToggleAddon 5)].

End Sessions.

(* ================================================================== *)
(** ** Further vocabulary *)
(* ================================================================== *)

Module Vocabulary.

(** The actions of the two thunks. *)
Definition thunk_action (a : Action.t) : bool :=
  match a with
  | Action.fetchVehicles_pending | Action.fetchVehicles_fulfilled _
  | Action.fetchVehicles_rejected _ | Action.fetchAddons_pending
  | Action.fetchAddons_fulfilled _ | Action.fetchAddons_rejected _ => true
  | _ => false
  end.

(** What the user has chosen: everything but the catalogue and its flags. *)
Definition same_selection (s s' : BookingState.t) : Prop :=
  BookingState.selectedVehicle s' = BookingState.selectedVehicle s
  /\ BookingState.pickupDate s' = BookingState.pickupDate s
  /\ BookingState.dropoffDate s' = BookingState.dropoffDate s
  /\ BookingState.selectedAddons s' = BookingState.selectedAddons s
  /\ BookingState.showConfirmation s' = BookingState.showConfirmation s.

(** The catalogue and its flags. *)
Definition same_catalogue (s s' : BookingState.t) : Prop :=
  BookingState.vehicles s' = BookingState.vehicles s
  /\ BookingState.addons s' = BookingState.addons s
  /\ BookingState.loading s' = BookingState.loading s
  /\ BookingState.error s' = BookingState.error s.

(** SetDropoffDate turns [d] down when it is a complete date that lies in
    the past or, a complete pickup being set, is not after the pickup. *)
Definition dropoff_rejected (h : JS.Host) (s : BookingState.t) (d : string) : bool :=
  DateSelection.isCompleteDate h d
  && (Calendar.in_the_past h d
      || (DateSelection.isCompleteDate h (BookingState.pickupDate s)
          && Calendar.not_after h d (BookingState.pickupDate s))).

(** [App.tsx] draws the booking form when nothing is loading and no error is
    recorded. *)
Definition formVisible (s : BookingState.t) : bool :=
  negb (BookingState.loading s)
  && negb (match BookingState.error s with Some e => JS.truthy e | None => false end).

End Vocabulary.

(* ================================================================== *)
(** ** Facts about dates *)
(* ================================================================== *)

Module DateFacts.
Import JS Calendar.

Lemma DayFromYear_next y : DayFromYear (y + 1) = DayFromYear y + DaysInYear y.
Proof.
  unfold DayFromYear, DaysInYear.
  destruct (Z.eqb_spec (y mod 4) 0) as [H4|H4];
    destruct (Z.eqb_spec (y mod 100) 0) as [H100|H100];
    destruct (Z.eqb_spec (y mod 400) 0) as [H400|H400];
    cbn [negb]; Z.div_mod_to_equations; lia.
Qed.

Lemma DayFromYear_mono y y' : y <= y' -> DayFromYear y <= DayFromYear y'.
Proof.
  intros H. unfold DayFromYear. Z.div_mod_to_equations. lia.
Qed.

Lemma DaysInYear_cases y :
  (InLeapYear y = true /\ DaysInYear y = 366) \/ (InLeapYear y = false /\ DaysInYear y = 365).
Proof.
  unfold InLeapYear, DaysInYear.
  destruct (negb (y mod 4 =? 0)); [right; split; reflexivity|].
  destruct (negb (y mod 100 =? 0)); [left; split; reflexivity|].
  destruct (negb (y mod 400 =? 0)); [right|left]; split; reflexivity.
Qed.

Lemma month_cases m : 1 <= m <= 12 ->
  m = 1 \/ m = 2 \/ m = 3 \/ m = 4 \/ m = 5 \/ m = 6 \/
  m = 7 \/ m = 8 \/ m = 9 \/ m = 10 \/ m = 11 \/ m = 12.
Proof. lia. Qed.

Lemma valid_ymd_bounds y m d : valid_ymd y m d = true ->
  1 <= m <= 12 /\ 1 <= d <= DaysInMonth y m.
Proof. unfold valid_ymd. intros H. rewrite !andb_true_iff in H. lia. Qed.

Ltac months m H :=
  destruct (month_cases m H) as [->|[->|[->|[->|[->|[->|[->|[->|[->|[->|[->| ->]]]]]]]]]]].

(** The day within the year stays inside the year. *)
Lemma day_in_year y m d : valid_ymd y m d = true ->
  0 <= MonthStart (InLeapYear y) m + d - 1 < DaysInYear y.
Proof.
  intros H. apply valid_ymd_bounds in H. destruct H as [Hm Hd].
  unfold DaysInMonth in Hd.
  destruct (DaysInYear_cases y) as [[E1 E2]|[E1 E2]]; rewrite E1 in *; rewrite E2;
    months m Hm; cbv [MonthStart Z.eqb Pos.eqb orb] in *; lia.
Qed.

(** Within a year, an earlier month ends before a later one starts. *)
Lemma month_order y m d m' d' :
  valid_ymd y m d = true -> valid_ymd y m' d' = true -> m < m' ->
  MonthStart (InLeapYear y) m + d < MonthStart (InLeapYear y) m' + d'.
Proof.
  intros H H' Hlt. apply valid_ymd_bounds in H, H'.
  destruct H as [Hm Hd], H' as [Hm' Hd'].
  unfold DaysInMonth in Hd, Hd'.
  destruct (InLeapYear y); months m Hm; months m' Hm';
    cbv [MonthStart Z.eqb Pos.eqb orb] in *; lia.
Qed.

(** [MakeDay] respects the order by year, month and day. *)
Lemma MakeDay_mono y m d y' m' d' :
  valid_ymd y m d = true -> valid_ymd y' m' d' = true ->
  key y m d <= key y' m' d' -> MakeDay y m d <= MakeDay y' m' d'.
Proof.
  intros H H' Hk.
  pose proof (valid_ymd_bounds _ _ _ H) as [Hm Hd].
  pose proof (valid_ymd_bounds _ _ _ H') as [Hm' Hd'].
  assert (Hd31 : d <= 31 /\ d' <= 31).
  { unfold DaysInMonth in Hd, Hd'.
    destruct (m =? 2), (InLeapYear y), ((m =? 4) || (m =? 6) || (m =? 9) || (m =? 11))%bool,
      (m' =? 2), (InLeapYear y'), ((m' =? 4) || (m' =? 6) || (m' =? 9) || (m' =? 11))%bool; lia. }
  unfold key in Hk. unfold MakeDay.
  destruct (Z_lt_le_dec y y') as [Hy|Hy].
  - pose proof (day_in_year _ _ _ H). pose proof (day_in_year _ _ _ H').
    pose proof (DayFromYear_next y). pose proof (DayFromYear_mono (y + 1) y' ltac:(lia)).
    lia.
  - assert (y = y') by lia. subst y'.
    destruct (Z_lt_le_dec m m') as [Hmm|Hmm].
    + pose proof (month_order _ _ _ _ _ H H' Hmm). lia.
    + assert (m = m') by lia. subst m'. lia.
Qed.

(** *** Scanning *)

Lemma digit_bounds c v : digit c = Some v -> 0 <= v <= 9.
Proof.
  unfold digit. destruct ((48 <=? _) && (_ <=? 57))%bool eqn:E; [|discriminate].
  intros [= <-]. apply andb_true_iff in E. lia.
Qed.

Lemma digit_compare c c' v v' :
  digit c = Some v -> digit c' = Some v' -> (c ?= c')%char = (v ?= v').
Proof.
  unfold digit, Ascii.compare.
  destruct ((48 <=? _) && (_ <=? 57))%bool; [|discriminate].
  destruct ((48 <=? _) && (_ <=? 57))%bool; [|discriminate].
  intros [= <-] [= <-]. rewrite <- N2Z.inj_compare.
  destruct (Z.compare_spec (Z.of_N (N_of_ascii c)) (Z.of_N (N_of_ascii c')));
    symmetry; [apply Z.compare_eq_iff | apply Z.compare_lt_iff | apply Z.compare_gt_iff]; lia.
Qed.

Lemma is_dash_eq c : is_dash c = true -> c = "-"%char.
Proof. unfold is_dash. apply Ascii.eqb_eq. Qed.

(** The shape of a string that [scan_ymd] accepts. *)
Lemma scan_ymd_inv s y m d rest : scan_ymd s = Some (y, m, d, rest) ->
  exists y1 y2 y3 y4 m1 m2 d1 d2 a b c e f g i k,
    s = String y1 (String y2 (String y3 (String y4 (String "-"
          (String m1 (String m2 (String "-" (String d1 (String d2 rest)))))))))
    /\ (digit y1 = Some a /\ digit y2 = Some b /\ digit y3 = Some c /\ digit y4 = Some e)
    /\ (digit m1 = Some f /\ digit m2 = Some g /\ digit d1 = Some i /\ digit d2 = Some k)
    /\ y = 1000 * a + 100 * b + 10 * c + e /\ m = 10 * f + g /\ d = 10 * i + k.
Proof.
  destruct s as [|y1 [|y2 [|y3 [|y4 [|h1 [|m1 [|m2 [|h2 [|d1 [|d2 r]]]]]]]]]];
    try discriminate.
  unfold scan_ymd.
  destruct (digit y1) as [a|] eqn:Ea; [|discriminate].
  destruct (digit y2) as [b|] eqn:Eb; [|discriminate].
  destruct (digit y3) as [c|] eqn:Ec; [|discriminate].
  destruct (digit y4) as [e|] eqn:Ee; [|discriminate].
  destruct (digit m1) as [f|] eqn:Ef; [|discriminate].
  destruct (digit m2) as [g|] eqn:Eg; [|discriminate].
  destruct (digit d1) as [i|] eqn:Ei; [|discriminate].
  destruct (digit d2) as [k|] eqn:Ek; [|discriminate].
  destruct (is_dash h1) eqn:E1; [|discriminate].
  destruct (is_dash h2) eqn:E2; [|discriminate].
  cbn [andb]. intros [= <- <- <- <-].
  apply is_dash_eq in E1, E2. subst h1 h2.
  exists y1, y2, y3, y4, m1, m2, d1, d2, a, b, c, e, f, g, i, k.
  repeat split; assumption.
Qed.

(** What follows the date is handed on untouched. *)
Lemma scan_ymd_app s t y m d :
  scan_ymd s = Some (y, m, d, "") -> scan_ymd (s ++ t) = Some (y, m, d, t).
Proof.
  intros H. destruct (scan_ymd_inv _ _ _ _ _ H)
    as (y1 & y2 & y3 & y4 & m1 & m2 & d1 & d2 & a & b & c & e & f & g & i & k
        & -> & (Ea & Eb & Ec & Ee) & (Ef & Eg & Ei & Ek) & -> & -> & ->).
  cbn [append]. unfold scan_ymd.
  rewrite Ea, Eb, Ec, Ee, Ef, Eg, Ei, Ek. reflexivity.
Qed.

(** Two date strings in code-unit order are in calendar order. *)
Lemma leb_key s s' y m d y' m' d' :
  scan_ymd s = Some (y, m, d, "") -> scan_ymd s' = Some (y', m', d', "") ->
  String.leb s s' = true -> key y m d <= key y' m' d'.
Proof.
  intros H H'.
  destruct (scan_ymd_inv _ _ _ _ _ H)
    as (y1 & y2 & y3 & y4 & m1 & m2 & d1 & d2 & a & b & c & e & f & g & i & k
        & -> & (Ea & Eb & Ec & Ee) & (Ef & Eg & Ei & Ek) & -> & -> & ->).
  destruct (scan_ymd_inv _ _ _ _ _ H')
    as (y1' & y2' & y3' & y4' & m1' & m2' & d1' & d2' & a' & b' & c' & e' & f' & g' & i' & k'
        & -> & (Ea' & Eb' & Ec' & Ee') & (Ef' & Eg' & Ei' & Ek') & -> & -> & ->).
  pose proof (digit_bounds _ _ Ea). pose proof (digit_bounds _ _ Eb).
  pose proof (digit_bounds _ _ Ec). pose proof (digit_bounds _ _ Ee).
  pose proof (digit_bounds _ _ Ef). pose proof (digit_bounds _ _ Eg).
  pose proof (digit_bounds _ _ Ei). pose proof (digit_bounds _ _ Ek).
  pose proof (digit_bounds _ _ Ea'). pose proof (digit_bounds _ _ Eb').
  pose proof (digit_bounds _ _ Ec'). pose proof (digit_bounds _ _ Ee').
  pose proof (digit_bounds _ _ Ef'). pose proof (digit_bounds _ _ Eg').
  pose proof (digit_bounds _ _ Ei'). pose proof (digit_bounds _ _ Ek').
  unfold String.leb, key. cbn [String.compare].
  rewrite (digit_compare _ _ _ _ Ea Ea'), (digit_compare _ _ _ _ Eb Eb'),
    (digit_compare _ _ _ _ Ec Ec'), (digit_compare _ _ _ _ Ee Ee'),
    (digit_compare _ _ _ _ Ef Ef'), (digit_compare _ _ _ _ Eg Eg'),
    (digit_compare _ _ _ _ Ei Ei'), (digit_compare _ _ _ _ Ek Ek').
  change ("-" ?= "-")%char with Eq. cbv beta iota.
  destruct (Z.compare_spec a a'); cbv beta iota; [|intros; lia|discriminate].
  destruct (Z.compare_spec b b'); cbv beta iota; [|intros; lia|discriminate].
  destruct (Z.compare_spec c c'); cbv beta iota; [|intros; lia|discriminate].
  destruct (Z.compare_spec e e'); cbv beta iota; [|intros; lia|discriminate].
  destruct (Z.compare_spec f f'); cbv beta iota; [|intros; lia|discriminate].
  destruct (Z.compare_spec g g'); cbv beta iota; [|intros; lia|discriminate].
  destruct (Z.compare_spec i i'); cbv beta iota; [|intros; lia|discriminate].
  destruct (Z.compare_spec k k'); cbv beta iota; [|intros; lia|discriminate].
  intros; lia.
Qed.

(** *** Calendar dates and the host's parser *)

Lemma calendar_date_scan s y m d : calendar_date s = Some (y, m, d) ->
  scan_ymd s = Some (y, m, d, "") /\ valid_ymd y m d = true.
Proof.
  unfold calendar_date. destruct (scan_ymd s) as [[[[y0 m0] d0] rest]|]; [|discriminate].
  destruct (String.eqb_spec rest ""); [|discriminate]. subst rest. cbn [andb].
  destruct (valid_ymd y0 m0 d0) eqn:V; [|discriminate].
  intros [= <- <- <-]. split; [reflexivity|assumption].
Qed.

Lemma calendar_day_date s k : calendar_day s = Some k ->
  exists y m d, calendar_date s = Some (y, m, d) /\ k = MakeDay y m d.
Proof.
  unfold calendar_day. destruct (calendar_date s) as [[[y m] d]|]; [|discriminate].
  intros [= <-]. exists y, m, d. split; reflexivity.
Qed.

Lemma calendar_nonempty s k : calendar_day s = Some k -> truthy s = true.
Proof.
  intros H. destruct s; [discriminate H | reflexivity].
Qed.

(** A date-only string is UTC midnight of its day, on every host. *)
Lemma calendar_parse_utc h s y m d : calendar_date s = Some (y, m, d) ->
  Date_of_string h s = Some (MakeDay y m d * msPerDay).
Proof.
  intros H. apply calendar_date_scan in H. destruct H as [Hs Hv].
  unfold Date_of_string, iso_parse. rewrite Hs, Hv. cbn [String.eqb].
  unfold MakeDate. f_equal. lia.
Qed.

(** Followed by [T00:00:00] it is local midnight of that day. *)
Lemma calendar_parse_local h s y m d : calendar_date s = Some (y, m, d) ->
  Date_of_string h (s ++ "T00:00:00") = Some (MakeDay y m d * msPerDay - LocalTZA h).
Proof.
  intros H. apply calendar_date_scan in H. destruct H as [Hs Hv].
  unfold Date_of_string, iso_parse. rewrite (scan_ymd_app _ "T00:00:00" _ _ _ Hs), Hv.
  change ("T00:00:00" =? "")%string with false.
  change ("T00:00:00" =? "T00:00:00")%string with true.
  unfold UTC, MakeDate. f_equal. lia.
Qed.

Lemma calendar_regex s y m d : calendar_date s = Some (y, m, d) ->
  dateRegex_test s = true.
Proof.
  intros H. apply calendar_date_scan in H. destruct H as [Hs _].
  unfold dateRegex_test. rewrite Hs. reflexivity.
Qed.

Lemma local_day_midnight h k : local_day h (k * msPerDay - LocalTZA h) = k.
Proof.
  unfold local_day, LocalTime, Day.
  replace (k * msPerDay - LocalTZA h + LocalTZA h) with (k * msPerDay) by lia.
  apply Z.div_mul. discriminate.
Qed.

(** The host reads a calendar date as the day it names. *)
Lemma calendar_day_of h s k : calendar_day s = Some k -> day_of h s = Some k.
Proof.
  intros H. apply calendar_day_date in H. destruct H as (y & m & d & H & ->).
  unfold day_of. rewrite (calendar_parse_local h _ _ _ _ H). cbn [option_map].
  f_equal. apply local_day_midnight.
Qed.

(** *** The comparisons made by the component *)

Lemma localMidnight_spec h s :
  DateSelection.localMidnight h s =
  option_map (fun k => k * msPerDay - LocalTZA h) (day_of h s).
Proof.
  unfold DateSelection.localMidnight, day_of, setHours0.
  destruct (Date_of_string h (s ++ "T00:00:00")); cbn [option_map]; [|reflexivity].
  unfold UTC, MakeDate, local_day. f_equal. lia.
Qed.

Lemma todayLocal_spec h :
  DateSelection.todayLocal h = Some (today h * msPerDay - LocalTZA h).
Proof.
  unfold DateSelection.todayLocal, setHours0, Date_now, today, local_day, UTC, MakeDate.
  cbn [option_map]. f_equal. lia.
Qed.

Lemma midnight_ltb h a b :
  (a * msPerDay - LocalTZA h <? b * msPerDay - LocalTZA h) = (a <? b).
Proof.
  unfold msPerDay.
  destruct (Z.ltb_spec a b); [apply Z.ltb_lt | apply Z.ltb_ge]; lia.
Qed.

Lemma midnight_leb h a b :
  (a * msPerDay - LocalTZA h <=? b * msPerDay - LocalTZA h) = (a <=? b).
Proof.
  unfold msPerDay.
  destruct (Z.leb_spec a b); [apply Z.leb_le | apply Z.leb_gt]; lia.
Qed.

(** [selectedDate < todayLocal] *)
Lemma past_check h s :
  num_lt (DateSelection.localMidnight h s) (DateSelection.todayLocal h) = in_the_past h s.
Proof.
  rewrite localMidnight_spec, todayLocal_spec. unfold in_the_past.
  destruct (day_of h s); cbn [option_map num_lt]; [apply midnight_ltb|reflexivity].
Qed.

(** [selectedDate >= todayLocal] *)
Lemma not_past_check h s :
  num_ge (DateSelection.localMidnight h s) (DateSelection.todayLocal h) =
  match day_of h s with Some k => today h <=? k | None => false end.
Proof.
  rewrite localMidnight_spec, todayLocal_spec. unfold num_ge.
  destruct (day_of h s); cbn [option_map num_le]; [apply midnight_leb|reflexivity].
Qed.

(** [selectedDate <= pickup] *)
Lemma order_check h a b :
  num_le (DateSelection.localMidnight h a) (DateSelection.localMidnight h b) = not_after h a b.
Proof.
  rewrite !localMidnight_spec. unfold not_after.
  destruct (day_of h a), (day_of h b); cbn [option_map num_le];
    [apply midnight_leb|reflexivity..].
Qed.

(** [dropoff > pickup] *)
Lemma after_check h a b :
  num_gt (DateSelection.localMidnight h a) (DateSelection.localMidnight h b) =
  match day_of h a, day_of h b with Some x, Some y => y <? x | _, _ => false end.
Proof.
  rewrite !localMidnight_spec. unfold num_gt.
  destruct (day_of h a), (day_of h b); cbn [option_map num_lt];
    [apply midnight_ltb|reflexivity..].
Qed.

Lemma calendar_complete h s k :
  calendar_day s = Some k -> DateSelection.isCompleteDate h s = true.
Proof.
  intros H. pose proof (calendar_nonempty _ _ H) as Ht.
  apply calendar_day_date in H. destruct H as (y & m & d & H & _).
  unfold DateSelection.isCompleteDate.
  rewrite Ht, (calendar_regex _ _ _ _ H), (calendar_parse_utc h _ _ _ _ H). reflexivity.
Qed.

Lemma complete_truthy h s : DateSelection.isCompleteDate h s = true -> truthy s = true.
Proof.
  unfold DateSelection.isCompleteDate. destruct (truthy s); [reflexivity|discriminate].
Qed.

(** Code-unit order of two calendar dates implies calendar order. *)
Lemma calendar_leb s s' k k' :
  calendar_day s = Some k -> calendar_day s' = Some k' ->
  str_le s s' = true -> k <= k'.
Proof.
  intros H H' L.
  apply calendar_day_date in H, H'.
  destruct H as (y & m & d & H & ->), H' as (y' & m' & d' & H' & ->).
  apply calendar_date_scan in H, H'. destruct H as [Hs Hv], H' as [Hs' Hv'].
  apply MakeDay_mono; try assumption.
  eapply leb_key; eassumption.
Qed.

End DateFacts.

(* ================================================================== *)
(** ** Facts about the slice and the selectors *)
(* ================================================================== *)

Module SliceFacts.

(** Starting the add-on thunk touches the error field only. *)
Lemma fetchAddons_pending_frame s :
  let s' := Slice.fetchAddons_pending s in
  BookingState.selectedVehicle s' = BookingState.selectedVehicle s
  /\ BookingState.pickupDate s' = BookingState.pickupDate s
  /\ BookingState.dropoffDate s' = BookingState.dropoffDate s
  /\ BookingState.selectedAddons s' = BookingState.selectedAddons s
  /\ BookingState.addons s' = BookingState.addons s
  /\ BookingState.vehicles s' = BookingState.vehicles s
  /\ BookingState.showConfirmation s' = BookingState.showConfirmation s.
Proof.
  unfold Slice.fetchAddons_pending.
  destruct (BookingState.error s) as [e|]; [destruct (JS.truthy e)|]; cbn; repeat split.
Qed.

Lemma ceil_div_nonneg x : 0 <= Selectors.ceil_div (Z.abs x) (1000 * 60 * 60 * 24).
Proof.
  unfold Selectors.ceil_div. change (1000 * 60 * 60 * 24) with 86400000.
  pose proof (Z.abs_nonneg x). Z.div_mod_to_equations. lia.
Qed.

(** The day count is never negative. *)
Lemma selectRentalDays_nonneg h s : 0 <= Selectors.selectRentalDays h s.
Proof.
  unfold Selectors.selectRentalDays.
  destruct (negb _ || negb _)%bool; [lia|].
  unfold JS.getTime.
  destruct (JS.Date_of_string h (BookingState.dropoffDate s)); [|lia].
  destruct (JS.Date_of_string h (BookingState.pickupDate s)); [|lia].
  apply ceil_div_nonneg.
Qed.

(** The day count reads the two dates and nothing else. *)
Lemma selectRentalDays_dates h s s' :
  BookingState.pickupDate s' = BookingState.pickupDate s ->
  BookingState.dropoffDate s' = BookingState.dropoffDate s ->
  Selectors.selectRentalDays h s' = Selectors.selectRentalDays h s.
Proof. unfold Selectors.selectRentalDays. intros -> ->. reflexivity. Qed.

Lemma truthy_false_iff s : JS.truthy s = false <-> s = "".
Proof.
  unfold JS.truthy. destruct (String.eqb_spec s ""); cbn; split; congruence.
Qed.

Lemma truthy_true_iff s : JS.truthy s = true <-> s <> "".
Proof.
  unfold JS.truthy. destruct (String.eqb_spec s ""); cbn; split; congruence.
Qed.

(** A malformed date gives a day count of zero. *)
Lemma selectRentalDays_malformed h s :
  JS.Date_of_string h (BookingState.pickupDate s) = None
  \/ JS.Date_of_string h (BookingState.dropoffDate s) = None ->
  Selectors.selectRentalDays h s = 0.
Proof.
  unfold Selectors.selectRentalDays, JS.getTime.
  destruct (negb _ || negb _)%bool; [reflexivity|].
  intros [-> | ->]; [destruct (JS.Date_of_string h _)|]; reflexivity.
Qed.

(** When the gate of the summary is open. *)
Lemma summary_gate h s :
  (exists sm, Selectors.selectBookingSummary h s = Some sm) <->
  BookingState.selectedVehicle s <> None /\ BookingState.pickupDate s <> ""
  /\ BookingState.dropoffDate s <> "" /\ 0 < Selectors.selectRentalDays h s.
Proof.
  pose proof (selectRentalDays_nonneg h s) as Hn.
  unfold Selectors.selectBookingSummary.
  destruct (BookingState.selectedVehicle s) as [v|].
  - destruct (JS.truthy (BookingState.pickupDate s)) eqn:Ep;
      destruct (JS.truthy (BookingState.dropoffDate s)) eqn:Ed;
      destruct (Z.eqb_spec (Selectors.selectRentalDays h s) 0) as [E0|E0]; cbn [negb orb];
      try apply truthy_true_iff in Ep; try apply truthy_false_iff in Ep;
      try apply truthy_true_iff in Ed; try apply truthy_false_iff in Ed;
      split; try (intros [sm [=]]; fail);
      try (intros (_ & H1 & H2 & H3); first [congruence | lia]).
    + intros _. repeat split; try assumption; [discriminate | lia].
    + intros _. eexists. reflexivity.
  - split; [intros [sm [=]] | intros ([] & _); reflexivity].
Qed.

End SliceFacts.

(* ================================================================== *)
(** ** Facts about resolving add-ons *)
(* ================================================================== *)

Module PricingFacts.

Lemma includes_In ids x : Selectors.includes ids x = true <-> In x ids.
Proof.
  unfold Selectors.includes. rewrite existsb_exists. split.
  - intros (y & Hy & E). apply Z.eqb_eq in E. subst y. exact Hy.
  - intros H. exists x. split; [exact H | apply Z.eqb_refl].
Qed.

(** An id that is not selected stays unselected when another id is added. *)
Lemma includes_snoc ids id x : x <> id ->
  Selectors.includes (ids ++ [id]) x = Selectors.includes ids x.
Proof.
  intros Hne. unfold Selectors.includes. rewrite existsb_app. cbn.
  apply Z.eqb_neq in Hne. rewrite Hne. rewrite !orb_false_r. reflexivity.
Qed.

Lemma resolve_some catalog id a : Pricing.resolve catalog id = Some a ->
  In a catalog /\ Addon.id a = id.
Proof.
  unfold Pricing.resolve. intros H. apply find_some in H.
  destruct H as [Hin E]. apply Z.eqb_eq in E. split; assumption.
Qed.

(** In a catalogue without repeated ids, an id determines its add-on. *)
Lemma same_id_same_addon (catalog : list Addon.t) a b :
  NoDup (map Addon.id catalog) -> In a catalog -> In b catalog ->
  Addon.id a = Addon.id b -> a = b.
Proof.
  induction catalog as [|c rest IH]; intros Hnd Ha Hb E; [contradiction|].
  cbn in Hnd. inversion Hnd as [|? ? Hnotin Hnd']; subst.
  destruct Ha as [-> | Ha], Hb as [-> | Hb].
  - reflexivity.
  - exfalso. apply Hnotin. rewrite E. apply in_map. exact Hb.
  - exfalso. apply Hnotin. rewrite <- E. apply in_map. exact Ha.
  - apply IH; assumption.
Qed.

Lemma resolve_own (catalog : list Addon.t) a :
  NoDup (map Addon.id catalog) -> In a catalog ->
  Pricing.resolve catalog (Addon.id a) = Some a.
Proof.
  intros Hnd Hin. unfold Pricing.resolve.
  destruct (find (fun x => Addon.id x =? Addon.id a) catalog) as [b|] eqn:E.
  - apply find_some in E. destruct E as [Hb E]. apply Z.eqb_eq in E.
    f_equal. apply (same_id_same_addon catalog); assumption.
  - exfalso. pose proof (find_none _ _ E a Hin) as H. cbn in H.
    rewrite Z.eqb_refl in H. discriminate.
Qed.

Lemma resolved_In catalog ids a :
  In a (Pricing.resolved catalog ids) <->
  exists id, In id ids /\ Pricing.resolve catalog id = Some a.
Proof.
  unfold Pricing.resolved. rewrite in_flat_map. split.
  - intros (id & Hid & Ha). exists id. split; [exact Hid|].
    destruct (Pricing.resolve catalog id) as [b|]; [|contradiction].
    destruct Ha as [-> | []]. reflexivity.
  - intros (id & Hid & E). exists id. split; [exact Hid|]. rewrite E. left. reflexivity.
Qed.

Lemma resolved_NoDup catalog ids : NoDup ids -> NoDup (Pricing.resolved catalog ids).
Proof.
  induction ids as [|id rest IH]; intros Hnd; [constructor|].
  inversion Hnd as [|? ? Hnotin Hnd']; subst.
  change (Pricing.resolved catalog (id :: rest))
    with ((match Pricing.resolve catalog id with Some a => [a] | None => [] end)
          ++ Pricing.resolved catalog rest)%list.
  destruct (Pricing.resolve catalog id) as [a|] eqn:E; [|apply IH; exact Hnd'].
  cbn. constructor; [|apply IH; exact Hnd'].
  intros Hin. apply resolved_In in Hin. destruct Hin as (id' & Hid' & E').
  apply resolve_some in E, E'. destruct E as [_ E], E' as [_ E'].
  apply Hnotin. congruence.
Qed.

(** The add-ons the selector keeps are the selected ids that resolve. *)
Lemma filter_resolved (catalog : list Addon.t) (ids : list Z) :
  NoDup (map Addon.id catalog) -> NoDup ids ->
  Permutation
    (filter (fun addon => Selectors.includes ids (Addon.id addon)) catalog)
    (Pricing.resolved catalog ids).
Proof.
  intros Hc Hi. apply NoDup_Permutation.
  - apply NoDup_filter. apply NoDup_map_inv with (f := Addon.id). exact Hc.
  - apply resolved_NoDup. exact Hi.
  - intros a. rewrite filter_In, includes_In, resolved_In. split.
    + intros [Ha Hid]. exists (Addon.id a). split; [exact Hid|].
      apply resolve_own; assumption.
    + intros (id & Hid & E). apply resolve_some in E. destruct E as [Ha <-].
      split; assumption.
Qed.

(** Selecting an id the catalogue does not have changes no summary. *)
Lemma summary_unresolvable h s id :
  ~ In id (map Addon.id (BookingState.addons s)) ->
  Selectors.selectBookingSummary h
    (Slice.with_selectedAddons s (BookingState.selectedAddons s ++ [id]))
  = Selectors.selectBookingSummary h s.
Proof.
  intros Hnot. unfold Selectors.selectBookingSummary.
  rewrite (SliceFacts.selectRentalDays_dates h s
             (Slice.with_selectedAddons s (BookingState.selectedAddons s ++ [id])))
    by reflexivity.
  cbn [Slice.with_selectedAddons BookingState.selectedVehicle BookingState.pickupDate
       BookingState.dropoffDate BookingState.addons BookingState.selectedAddons].
  assert (E : filter (fun addon => Selectors.includes (BookingState.selectedAddons s ++ [id])
                                     (Addon.id addon)) (BookingState.addons s)
              = filter (fun addon => Selectors.includes (BookingState.selectedAddons s)
                                       (Addon.id addon)) (BookingState.addons s)).
  { apply filter_ext_in. intros a Ha. apply includes_snoc.
    intros Heq. apply Hnot. rewrite <- Heq. apply in_map. exact Ha. }
  rewrite E. reflexivity.
Qed.

End PricingFacts.

(* ================================================================== *)
(** ** Facts about the machine *)
(* ================================================================== *)

Module MachineFacts.

Lemma reachable_run h evs : forall m,
  Machine.reachable h m -> Machine.reachable h (Machine.run h m evs).
Proof.
  induction evs as [|ev evs IH]; intros m Hm; [exact Hm|].
  cbn. apply IH. apply Machine.reach_step. exact Hm.
Qed.

(** *** Toggling *)

Lemma indexOf_lower l x : -1 <= Slice.indexOf l x.
Proof.
  induction l as [|y ys IH]; cbn; [lia|].
  destruct (y =? x); [lia|]. destruct (Slice.indexOf ys x =? -1); lia.
Qed.

Lemma indexOf_absent l x : Slice.indexOf l x = -1 <-> ~ In x l.
Proof.
  induction l as [|y ys IH]; cbn; [tauto|].
  pose proof (indexOf_lower ys x) as Hlow.
  destruct (Z.eqb_spec y x) as [E|E].
  - split; [lia|]. intros H. exfalso. apply H. left. exact E.
  - destruct (Z.eqb_spec (Slice.indexOf ys x) (-1)) as [E1|E1].
    + split; [|reflexivity]. intros _ [H|H]; [contradiction|]. apply IH in E1. contradiction.
    + split; [lia|]. intros H. exfalso. apply E1. apply IH. tauto.
Qed.

(** [splice] at the position [indexOf] found takes out the first occurrence. *)
Lemma splice1_indexOf l x : In x l ->
  Slice.splice1 l (Slice.indexOf l x) = Stated.remove_first x l.
Proof.
  induction l as [|y ys IH]; [contradiction|]. intros Hin. cbn.
  pose proof (indexOf_lower ys x) as Hlow.
  destruct (Z.eqb_spec y x) as [E|E]; [reflexivity|].
  destruct Hin as [Hin|Hin]; [contradiction|].
  destruct (Z.eqb_spec (Slice.indexOf ys x) (-1)) as [E1|E1].
  - apply indexOf_absent in E1. contradiction.
  - specialize (IH Hin). unfold Slice.splice1 in *.
    replace (Z.to_nat (Slice.indexOf ys x + 1)) with (S (Z.to_nat (Slice.indexOf ys x)))
      by lia.
    cbn [firstn skipn app]. cbn [skipn] in IH. rewrite IH. reflexivity.
Qed.

Lemma remove_first_In x l y : In y (Stated.remove_first x l) -> In y l.
Proof.
  induction l as [|z zs IH]; cbn; [tauto|].
  destruct (z =? x); cbn; [tauto|]. intros [H|H]; [left; exact H | right; apply IH; exact H].
Qed.

Lemma remove_first_NoDup x l : NoDup l ->
  NoDup (Stated.remove_first x l) /\ ~ In x (Stated.remove_first x l).
Proof.
  induction l as [|z zs IH]; intros Hnd; cbn; [split; [constructor | tauto]|].
  inversion Hnd as [|? ? Hnotin Hnd']; subst.
  destruct (Z.eqb_spec z x) as [E|E].
  - subst z. split; assumption.
  - destruct (IH Hnd') as [IH1 IH2]. split.
    + constructor; [|exact IH1]. intros H. apply Hnotin. eapply remove_first_In. exact H.
    + intros [H|H]; [contradiction | apply IH2; exact H].
Qed.

(** What [toggleAddon] does to the selected ids, available or not. *)
Lemma toggleAddon_selected s id :
  BookingState.selectedAddons (Slice.toggleAddon s id)
  = if Selectors.includes (BookingState.selectedAddons s) id
    then Stated.remove_first id (BookingState.selectedAddons s)
    else (BookingState.selectedAddons s ++ [id])%list.
Proof.
  unfold Slice.toggleAddon.
  destruct (Z.eqb_spec (Slice.indexOf (BookingState.selectedAddons s) id) (-1)) as [E|E].
  - apply indexOf_absent in E.
    destruct (Selectors.includes (BookingState.selectedAddons s) id) eqn:I.
    + apply PricingFacts.includes_In in I. contradiction.
    + reflexivity.
  - assert (Hin : In id (BookingState.selectedAddons s)).
    { destruct (in_dec Z.eq_dec id (BookingState.selectedAddons s)) as [H|H]; [exact H|].
      apply indexOf_absent in H. contradiction. }
    pose proof Hin as I. apply PricingFacts.includes_In in I. rewrite I.
    cbn. apply splice1_indexOf. exact Hin.
Qed.

Lemma toggleAddon_frame s id :
  let s' := Slice.toggleAddon s id in
  BookingState.selectedVehicle s' = BookingState.selectedVehicle s
  /\ BookingState.pickupDate s' = BookingState.pickupDate s
  /\ BookingState.dropoffDate s' = BookingState.dropoffDate s
  /\ BookingState.addons s' = BookingState.addons s
  /\ BookingState.showConfirmation s' = BookingState.showConfirmation s.
Proof.
  unfold Slice.toggleAddon. destruct (_ =? -1); cbn; repeat split.
Qed.

Lemma toggleAddon_NoDup s id :
  NoDup (BookingState.selectedAddons s) ->
  NoDup (BookingState.selectedAddons (Slice.toggleAddon s id)).
Proof.
  intros Hnd. rewrite toggleAddon_selected.
  destruct (Selectors.includes (BookingState.selectedAddons s) id) eqn:I.
  - apply remove_first_NoDup. exact Hnd.
  - apply NoDup_app; [exact Hnd | constructor; [intros [] | constructor] |].
    intros a Ha [<- | []]. apply PricingFacts.includes_In in Ha. congruence.
Qed.

(** *** The date fields leave the add-ons alone *)

Lemma handlePickupChange_selected h e s d :
  BookingState.selectedAddons (snd (DateSelection.handlePickupChange h e s d))
  = BookingState.selectedAddons s.
Proof.
  unfold DateSelection.handlePickupChange.
  repeat match goal with
         | |- context [if ?b then _ else _] => destruct b
         end; reflexivity.
Qed.

Lemma handleDropoffChange_selected h e s d :
  BookingState.selectedAddons (snd (DateSelection.handleDropoffChange h e s d))
  = BookingState.selectedAddons s.
Proof.
  unfold DateSelection.handleDropoffChange.
  repeat match goal with
         | |- context [if ?b then _ else _] => destruct b
         end; reflexivity.
Qed.

(** One step keeps the selected ids free of repetition. *)
Lemma step_NoDup h m ev :
  NoDup (BookingState.selectedAddons (Machine.store m)) ->
  NoDup (BookingState.selectedAddons (Machine.store (Machine.step h m ev))).
Proof.
  intros Hnd. destruct ev as [v|d|d|id| | | | |r|k r]; cbn [Machine.step].
  - destruct (SliceFacts.fetchAddons_pending_frame
                (Slice.selectVehicle (Machine.store m) v)) as (_ & _ & _ & Es & _).
    unfold Machine.handleSelect, Slice.dispatch. cbn [Machine.store Slice.reducer].
    cbv zeta in Es. rewrite Es. cbn. constructor.
  - pose proof (handlePickupChange_selected h (Machine.errors m) (Machine.store m) d) as E.
    destruct (DateSelection.handlePickupChange h (Machine.errors m) (Machine.store m) d).
    cbn in *. rewrite E. exact Hnd.
  - pose proof (handleDropoffChange_selected h (Machine.errors m) (Machine.store m) d) as E.
    destruct (DateSelection.handleDropoffChange h (Machine.errors m) (Machine.store m) d).
    cbn in *. rewrite E. exact Hnd.
  - cbn. apply toggleAddon_NoDup. exact Hnd.
  - cbn. unfold Machine.handleBookNow.
    destruct (Selectors.selectIsBookingValid h (Machine.store m)); exact Hnd.
  - exact Hnd.
  - cbn. constructor.
  - exact Hnd.
  - destruct r; exact Hnd.
  - unfold Machine.settle. destruct (nth_error (Machine.inflight m) k); [|exact Hnd].
    destruct r; exact Hnd.
Qed.

Lemma reachable_NoDup h m :
  Machine.reachable h m -> NoDup (BookingState.selectedAddons (Machine.store m)).
Proof.
  induction 1 as [|m ev Hm IH]; [constructor | apply step_NoDup; exact IH].
Qed.

(** *** Settling a request *)

Lemma settle_fulfilled m k origin payload :
  nth_error (Machine.inflight m) k = Some origin ->
  Machine.settle m k (Machine.fulfilled payload)
  = Machine.mk (Slice.fetchAddons_fulfilled (Machine.store m) payload)
               (Machine.errors m) (Machine.remove_nth k (Machine.inflight m)).
Proof. unfold Machine.settle. intros ->. reflexivity. Qed.

End MachineFacts.

(* ================================================================== *)
(** ** The properties of the booking core *)
(* ================================================================== *)

(** C4. SelectVehicle(v) makes [v] the selected vehicle and always empties
    both the selected add-on ids and the available add-ons.  The two dates are
    cleared when a vehicle with another id was selected before; when none was
    selected, or the same id is selected again, the dates stay as they were. *)
Theorem C4_select_vehicle : forall (m : Machine.t) (v : Vehicle.t),
  let s := Machine.store m in
  let s' := Machine.store (Machine.handleSelect m v) in
  BookingState.selectedVehicle s' = Some v
  /\ BookingState.selectedAddons s' = []
  /\ BookingState.addons s' = []
  /\ (forall old, BookingState.selectedVehicle s = Some old ->
        Vehicle.id old <> Vehicle.id v ->
        BookingState.pickupDate s' = "" /\ BookingState.dropoffDate s' = "")
  /\ (BookingState.selectedVehicle s = None
      \/ Machine.selectedId s = Some (Vehicle.id v) ->
        BookingState.pickupDate s' = BookingState.pickupDate s
        /\ BookingState.dropoffDate s' = BookingState.dropoffDate s).
Proof.
  intros m v s s'. subst s'. unfold Machine.handleSelect. cbn [Machine.store].
  unfold Slice.dispatch. cbn [Slice.reducer].
  destruct (SliceFacts.fetchAddons_pending_frame (Slice.selectVehicle s v))
    as (Ev & Ep & Ed & Es & Ea & _).
  cbv zeta in Ev, Ep, Ed, Es, Ea. fold s. rewrite Ev, Ep, Ed, Es, Ea.
  unfold Slice.selectVehicle. cbn.
  split; [reflexivity|]. split; [reflexivity|]. split; [reflexivity|]. split.
  - intros old -> Hne. apply Z.eqb_neq in Hne. rewrite Hne. split; reflexivity.
  - intros [-> | H]; [split; reflexivity|]. unfold Machine.selectedId in H.
    destruct (BookingState.selectedVehicle s) as [old|]; [|split; reflexivity].
    cbn in H. injection H as ->. rewrite Z.eqb_refl. split; reflexivity.
Qed.

(** An instance of C4: with the sedan and both dates chosen, selecting the
    luxury car empties the dates. *)
Lemma C4_select_vehicle_witness :
  BookingState.pickupDate (Machine.store Samples.sedan_dated) = "2025-06-10"
  /\ BookingState.pickupDate
       (Machine.store (Machine.handleSelect Samples.sedan_dated Samples.luxury)) = ""
  /\ BookingState.dropoffDate
       (Machine.store (Machine.handleSelect Samples.sedan_dated Samples.luxury)) = "".
Proof.
  split; [reflexivity|].
  destruct (C4_select_vehicle Samples.sedan_dated Samples.luxury) as (_ & _ & _ & H & _).
  apply (H Samples.sedan); [reflexivity | cbn; lia].
Defined.

(** C10. Reset unselects the vehicle, empties both dates and the selected
    add-on ids and lowers the confirmation flag; the vehicle catalogue, the
    available add-ons, the loading flag and the error stay as they were.  So
    the add-ons fetched for the vehicle that was selected are still there
    after the reset, with no vehicle selected. *)
Theorem C10_reset_frame : forall (h : JS.Host) (m : Machine.t),
  let s := Machine.store m in
  let s' := Machine.store (Machine.step h m Machine.Reset) in
  (BookingState.selectedVehicle s' = None
   /\ BookingState.pickupDate s' = ""
   /\ BookingState.dropoffDate s' = ""
   /\ BookingState.selectedAddons s' = []
   /\ BookingState.showConfirmation s' = false)
  /\ (BookingState.vehicles s' = BookingState.vehicles s
      /\ BookingState.addons s' = BookingState.addons s
      /\ BookingState.loading s' = BookingState.loading s
      /\ BookingState.error s' = BookingState.error s)
  /\ (BookingState.selectedVehicle (Machine.store Samples.after_reset) = None
      /\ BookingState.addons (Machine.store Samples.after_reset)
         = [Backend.GPS_NAVIGATION; Backend.CHILD_SEAT; Backend.INSURANCE;
            Backend.ROADSIDE_ASSISTANCE]).
Proof.
  intros h m s s'. subst s s'. cbn. repeat split.
Qed.

(** C7. The validity gate answers true exactly when a vehicle is selected,
    both dates are set and the day count is positive; whatever add-on ids are
    selected, the answer is the same. *)
Theorem C7_validity_gate : forall (h : JS.Host) (s : BookingState.t),
  (Selectors.selectIsBookingValid h s = true <->
     BookingState.selectedVehicle s <> None
     /\ BookingState.pickupDate s <> ""
     /\ BookingState.dropoffDate s <> ""
     /\ 0 < Selectors.selectRentalDays h s)
  /\ (forall ids : list Z,
        Selectors.selectIsBookingValid h (Slice.with_selectedAddons s ids)
        = Selectors.selectIsBookingValid h s).
Proof.
  intros h s. split.
  - unfold Selectors.selectIsBookingValid.
    rewrite !andb_true_iff, !negb_true_iff, !String.eqb_neq, Z.ltb_lt.
    destruct (BookingState.selectedVehicle s); intuition (try discriminate; try congruence).
  - intros ids. unfold Selectors.selectIsBookingValid.
    rewrite (SliceFacts.selectRentalDays_dates h s (Slice.with_selectedAddons s ids));
      reflexivity.
Qed.

(** C8, as stated, fails.  The sedan is booked with the dropoff 2025-06-13
    and a pickup written with a time, 2025-06-10T00:00:00.  On every host
    that text fails the program's test of a well-formed date, yet the
    selector reads it as local midnight of the tenth: five and a half hours
    east of UTC the span is three days and five and a half hours, which
    counts four days, and the summary is priced at 4 times 2500 plus the
    tax.  The selector tests its dates for being empty and for being
    unreadable, not for their format. *)
Lemma C8_malformed_date_is_priced :
  let s := Slice.setPickupDate Samples.sedan_booking "2025-06-10T00:00:00" in
  (BookingState.pickupDate s = "2025-06-10T00:00:00"
   /\ BookingState.dropoffDate s = "2025-06-13")
  /\ (forall h : JS.Host,
        DateSelection.isCompleteDate h (BookingState.pickupDate s) = false)
  /\ Selectors.selectRentalDays Samples.host s = 4
  /\ (exists sm,
        Selectors.selectBookingSummary Samples.host s = Some sm
        /\ BookingSummary.days sm = 4
        /\ BookingSummary.baseCost sm = 10000%float
        /\ BookingSummary.gst sm = 1800%float
        /\ BookingSummary.total sm = 11800%float)
  /\ ~ Stated.malformed_dates_give_no_summary Samples.host.
Proof.
  cbv zeta. split; [split; reflexivity|]. split; [intros h; reflexivity|].
  split; [vm_compute; reflexivity|]. split.
  - eexists. split; [vm_compute; reflexivity|]. repeat split.
  - intros claim.
    destruct (claim (Slice.setPickupDate Samples.sedan_booking "2025-06-10T00:00:00")
                (or_introl eq_refl)) as [days _].
    vm_compute in days. discriminate days.
Qed.

(** C8, amended.  The summary is absent (null) exactly when no vehicle is
    selected, a date is empty or the day count is zero, which covers every
    date the host cannot read; a summary that is present has a positive day
    count; and one is present exactly when the vehicle and both dates are set
    and the day count is positive. *)
Theorem C8_no_summary : forall (h : JS.Host) (s : BookingState.t),
  (Selectors.selectBookingSummary h s = None <->
     BookingState.selectedVehicle s = None
     \/ BookingState.pickupDate s = ""
     \/ BookingState.dropoffDate s = ""
     \/ Selectors.selectRentalDays h s = 0)
  /\ (JS.Date_of_string h (BookingState.pickupDate s) = None
      \/ JS.Date_of_string h (BookingState.dropoffDate s) = None ->
      Selectors.selectRentalDays h s = 0 /\ Selectors.selectBookingSummary h s = None)
  /\ (forall sm, Selectors.selectBookingSummary h s = Some sm ->
        0 < BookingSummary.days sm)
  /\ ((exists sm, Selectors.selectBookingSummary h s = Some sm) <->
        BookingState.selectedVehicle s <> None
        /\ BookingState.pickupDate s <> ""
        /\ BookingState.dropoffDate s <> ""
        /\ 0 < Selectors.selectRentalDays h s).
Proof.
  intros h s.
  assert (Hnone : Selectors.selectBookingSummary h s = None <->
     BookingState.selectedVehicle s = None
     \/ BookingState.pickupDate s = ""
     \/ BookingState.dropoffDate s = ""
     \/ Selectors.selectRentalDays h s = 0).
  { pose proof (SliceFacts.summary_gate h s) as G.
    pose proof (SliceFacts.selectRentalDays_nonneg h s) as Hn.
    destruct (Selectors.selectBookingSummary h s) as [sm|] eqn:E.
    - assert (Hex : exists sm0, Some sm = Some sm0) by (eexists; reflexivity).
      apply G in Hex. destruct Hex as (Hv & Hp & Hd & Hdays).
      split; [discriminate|]. intros [H | [H | [H | H]]]; [congruence .. | lia].
    - split; [intros _ | reflexivity].
      destruct (BookingState.selectedVehicle s) as [v|] eqn:Ev; [|left; reflexivity].
      destruct (String.eqb_spec (BookingState.pickupDate s) ""); [right; left; assumption|].
      destruct (String.eqb_spec (BookingState.dropoffDate s) "");
        [right; right; left; assumption|].
      destruct (Z.eq_dec (Selectors.selectRentalDays h s) 0);
        [right; right; right; assumption|].
      exfalso. assert (Hex : exists sm0 : BookingSummary.t, None = Some sm0).
      { apply G. repeat split; try assumption; [discriminate | lia]. }
      destruct Hex as [sm0 [=]]. }
  split; [exact Hnone|]. split; [|split].
  - intros Hbad. pose proof (SliceFacts.selectRentalDays_malformed h s Hbad) as H0.
    split; [exact H0|]. apply Hnone. right; right; right. exact H0.
  - intros sm E.
    assert (Hex : exists sm0, Selectors.selectBookingSummary h s = Some sm0)
      by (exists sm; exact E).
    apply SliceFacts.summary_gate in Hex. destruct Hex as (_ & _ & _ & Hdays).
    unfold Selectors.selectBookingSummary in E.
    destruct (BookingState.selectedVehicle s); [|discriminate].
    destruct (negb _ || negb _ || _)%bool; [discriminate|].
    injection E as <-. exact Hdays.
  - apply SliceFacts.summary_gate.
Qed.

(** An instance of C8: a dropoff value the host cannot parse gives a day
    count of zero and no summary. *)
Lemma C8_no_summary_witness :
  Selectors.selectRentalDays Samples.host
    (Slice.setDropoffDate Samples.sedan_booking "soon") = 0
  /\ Selectors.selectBookingSummary Samples.host
       (Slice.setDropoffDate Samples.sedan_booking "soon") = None.
Proof.
  destruct (C8_no_summary Samples.host (Slice.setDropoffDate Samples.sedan_booking "soon"))
    as (_ & H & _).
  apply H. right. reflexivity.
Defined.

(** C6. For a completed selection (vehicle set, both dates set, positive day
    count) the summary exists and holds: the base cost, the vehicle's daily
    cost times the days; the add-ons of the catalogue whose id is selected,
    which are the selected ids that resolve against a catalogue without
    repeated ids, an id that does not resolve adding nothing; the add-ons
    cost, their daily costs times the days summed up from zero; the subtotal,
    base plus add-ons; the tax, the subtotal times 0.18; the total, subtotal
    plus tax.  Products and sums are those of binary64 numbers.  A sedan at
    2500 a day for 3 days with no add-on costs 7500 + 0 = 7500, tax 1350,
    total 8850. *)
Theorem C6_pricing :
  (forall (h : JS.Host) (s : BookingState.t) (v : Vehicle.t),
     BookingState.selectedVehicle s = Some v ->
     BookingState.pickupDate s <> "" ->
     BookingState.dropoffDate s <> "" ->
     0 < Selectors.selectRentalDays h s ->
     exists sm,
       Selectors.selectBookingSummary h s = Some sm
       /\ BookingSummary.vehicle sm = v
       /\ BookingSummary.days sm = Selectors.selectRentalDays h s
       /\ BookingSummary.baseCost sm
          = (Vehicle.costPerDay v * JS.of_Z (BookingSummary.days sm))%float
       /\ (forall a, In a (BookingSummary.selectedAddons sm) <->
             In a (BookingState.addons s)
             /\ In (Addon.id a) (BookingState.selectedAddons s))
       /\ (NoDup (map Addon.id (BookingState.addons s)) ->
           NoDup (BookingState.selectedAddons s) ->
           Permutation (BookingSummary.selectedAddons sm)
             (Pricing.resolved (BookingState.addons s) (BookingState.selectedAddons s)))
       /\ (forall id, ~ In id (map Addon.id (BookingState.addons s)) ->
             Selectors.selectBookingSummary h
               (Slice.with_selectedAddons s (BookingState.selectedAddons s ++ [id]))
             = Some sm)
       /\ BookingSummary.addonsCost sm
          = fold_left
              (fun sum a => (sum + Addon.costPerDay a * JS.of_Z (BookingSummary.days sm))%float)
              (BookingSummary.selectedAddons sm) 0%float
       /\ BookingSummary.subtotal sm
          = (BookingSummary.baseCost sm + BookingSummary.addonsCost sm)%float
       /\ BookingSummary.gst sm = (BookingSummary.subtotal sm * 0.18)%float
       /\ BookingSummary.total sm
          = (BookingSummary.subtotal sm + BookingSummary.gst sm)%float)
  /\ (forall h : JS.Host,
        Selectors.selectBookingSummary h Samples.sedan_booking
        = Some {| BookingSummary.vehicle := Samples.sedan;
                  BookingSummary.days := 3;
                  BookingSummary.baseCost := 7500;
                  BookingSummary.addonsCost := 0;
                  BookingSummary.subtotal := 7500;
                  BookingSummary.gst := 1350;
                  BookingSummary.total := 8850;
                  BookingSummary.selectedAddons := [] |}).
Proof.
  split.
  - intros h s v Hv Hp Hd Hdays.
    assert (E : Selectors.selectBookingSummary h s = Selectors.selectBookingSummary h s)
      by reflexivity.
    unfold Selectors.selectBookingSummary at 2 in E. rewrite Hv in E.
    apply SliceFacts.truthy_true_iff in Hp, Hd. rewrite Hp, Hd in E.
    assert (H0 : (Selectors.selectRentalDays h s =? 0) = false) by (apply Z.eqb_neq; lia).
    rewrite H0 in E. cbn [negb orb] in E.
    eexists. split; [exact E|]. cbn [BookingSummary.vehicle BookingSummary.days
      BookingSummary.baseCost BookingSummary.addonsCost BookingSummary.subtotal
      BookingSummary.gst BookingSummary.total BookingSummary.selectedAddons].
    split; [reflexivity|]. split; [reflexivity|]. split; [reflexivity|].
    split; [|split; [|split]].
    + intros a. rewrite filter_In, PricingFacts.includes_In. reflexivity.
    + intros Hc Hi. apply PricingFacts.filter_resolved; assumption.
    + intros id Hnot. rewrite (PricingFacts.summary_unresolvable h s id Hnot). exact E.
    + repeat split.
  - intros h. vm_compute. reflexivity.
Qed.

(** An instance of C6: the luxury car at 5000 a day for 2 days with GPS
    navigation (200 a day) and insurance (500 a day). *)
Lemma C6_pricing_witness :
  exists sm,
    Selectors.selectBookingSummary Samples.host Samples.luxury_booking = Some sm
    /\ BookingSummary.days sm = 2
    /\ BookingSummary.baseCost sm = 10000%float
    /\ BookingSummary.addonsCost sm = 1400%float
    /\ BookingSummary.subtotal sm = 11400%float
    /\ BookingSummary.gst sm = 2052%float
    /\ BookingSummary.total sm = 13452%float
    /\ BookingSummary.selectedAddons sm = [Backend.GPS_NAVIGATION; Backend.INSURANCE].
Proof.
  destruct C6_pricing as [general _].
  destruct (general Samples.host Samples.luxury_booking Samples.luxury)
    as (sm & E & _); [reflexivity | discriminate | discriminate | reflexivity |].
  exists sm. split; [exact E|].
  vm_compute in E. injection E as <-. repeat split.
Defined.

(** C1, as stated, fails.  The sedan (id 1) is selected, then the luxury car
    (id 3) before the sedan's add-ons have arrived.  When the sedan's request
    resolves, its four add-ons become the available add-ons although the
    luxury car is the selected vehicle: the reducer of the fulfilled action
    stores the payload without looking at the vehicle it was fetched for. *)
Lemma C1_stale_result_is_applied :
  let m := Samples.two_in_flight in
  let m' := Machine.step Samples.host m
              (Machine.AddonsSettled 0 (Machine.fulfilled (Api.getAddons 1))) in
  (Machine.inflight m = [1; 3]
   /\ Machine.selectedId (Machine.store m) = Some 3
   /\ BookingState.addons (Machine.store m) = [])
  /\ (Machine.selectedId (Machine.store m') = Some 3
      /\ BookingState.addons (Machine.store m')
         = [Backend.GPS_NAVIGATION; Backend.CHILD_SEAT; Backend.INSURANCE;
            Backend.ROADSIDE_ASSISTANCE])
  /\ ~ Stated.stale_results_discarded Samples.host.
Proof.
  cbv zeta. split; [|split].
  - repeat split.
  - repeat split.
  - intros claim.
    specialize (claim Samples.two_in_flight 0%nat 1 (Api.getAddons 1)).
    assert (R : Machine.reachable Samples.host Samples.two_in_flight).
    { apply MachineFacts.reachable_run. constructor. }
    specialize (claim R eq_refl).
    assert (N : Machine.selectedId (Machine.store Samples.two_in_flight) <> Some 1)
      by (cbn; discriminate).
    specialize (claim N).
    apply (f_equal BookingState.addons) in claim. cbn in claim. discriminate claim.
Qed.

(** C1, amended.  The fulfilled result of any add-on request in flight is
    applied when it resolves, whatever vehicle is selected at that time: it
    replaces the available add-ons, the rest of the booking state stays as it
    was, and the request is no longer in flight. *)
Theorem C1_fetch_result_is_applied :
  forall (h : JS.Host) (m : Machine.t) (k : nat) (origin : Z) (payload : list Addon.t),
    nth_error (Machine.inflight m) k = Some origin ->
    let s := Machine.store m in
    let m' := Machine.step h m (Machine.AddonsSettled k (Machine.fulfilled payload)) in
    let s' := Machine.store m' in
    BookingState.addons s' = payload
    /\ (BookingState.selectedVehicle s' = BookingState.selectedVehicle s
        /\ BookingState.pickupDate s' = BookingState.pickupDate s
        /\ BookingState.dropoffDate s' = BookingState.dropoffDate s
        /\ BookingState.selectedAddons s' = BookingState.selectedAddons s
        /\ BookingState.vehicles s' = BookingState.vehicles s
        /\ BookingState.loading s' = BookingState.loading s
        /\ BookingState.error s' = BookingState.error s
        /\ BookingState.showConfirmation s' = BookingState.showConfirmation s)
    /\ Machine.inflight m' = Machine.remove_nth k (Machine.inflight m).
Proof.
  intros h m k origin payload Hk s m' s'. subst s s' m'.
  cbn [Machine.step]. rewrite (MachineFacts.settle_fulfilled m k origin payload Hk).
  cbn. repeat split.
Qed.

(** An instance of the amended C1: the run of the counterexample. *)
Lemma C1_fetch_result_is_applied_witness :
  nth_error (Machine.inflight Samples.two_in_flight) 0 = Some 1
  /\ BookingState.addons
       (Machine.store
          (Machine.step Samples.host Samples.two_in_flight
             (Machine.AddonsSettled 0 (Machine.fulfilled (Api.getAddons 1)))))
     = Api.getAddons 1
  /\ Machine.inflight
       (Machine.step Samples.host Samples.two_in_flight
          (Machine.AddonsSettled 0 (Machine.fulfilled (Api.getAddons 1))))
     = [3].
Proof.
  split; [reflexivity|].
  destruct (C1_fetch_result_is_applied Samples.host Samples.two_in_flight 0%nat 1
              (Api.getAddons 1) eq_refl) as (Ha & _ & Hi).
  split; [exact Ha | exact Hi].
Defined.

(** C5, as stated, fails.  From the initial state, where no add-on is
    available, toggling the id 99 selects it: the reducer never compares the
    id with the available add-ons.  The subset property also breaks when only
    offered add-ons are toggled: with the luxury car selected and its add-ons
    shown, the driver service (id 4) is selected; then the older request for
    the sedan resolves and its four add-ons, which have no id 4, replace the
    list. *)
Lemma C5_ineligible_toggle_accepted :
  let m := Machine.step Samples.host Machine.init (Machine.ToggleAddon 99) in
  (Stated.available_ids (Machine.store Machine.init) = []
   /\ BookingState.selectedAddons (Machine.store Machine.init) = [])
  /\ (BookingState.selectedAddons (Machine.store m) = [99]
      /\ Stated.available_ids (Machine.store m) = [])
  /\ (BookingState.selectedAddons (Machine.store Samples.overwritten) = [4]
      /\ Stated.available_ids (Machine.store Samples.overwritten) = [1; 2; 5; 6])
  /\ ~ Stated.selected_within_available Samples.host
  /\ ~ Stated.ineligible_toggle_ignored Samples.host.
Proof.
  cbv zeta. split; [|split; [|split; [|split]]].
  - split; reflexivity.
  - split; reflexivity.
  - split; reflexivity.
  - intros claim.
    specialize (claim (Machine.step Samples.host Machine.init (Machine.ToggleAddon 99))).
    assert (R : Machine.reachable Samples.host
                  (Machine.step Samples.host Machine.init (Machine.ToggleAddon 99)))
      by (repeat constructor).
    specialize (claim R 99). cbn in claim. apply claim. left. reflexivity.
  - intros claim.
    specialize (claim Machine.init 99 (Machine.reach_init Samples.host)).
    assert (N : ~ In 99 (Stated.available_ids (Machine.store Machine.init)))
      by (cbn; tauto).
    specialize (claim N).
    apply (f_equal BookingState.selectedAddons) in claim. cbn in claim. discriminate claim.
Qed.

(** C5, amended.  In every reachable state the selected add-on ids are free
    of repetition.  ToggleAddon(id) takes the id out when it is selected and
    appends it when it is not, whether or not the id is among the available
    add-ons, and changes nothing else of the selection.  The add-ons a
    summary lists are available ones whose id is selected, so an id that is
    not available takes no part in the price. *)
Theorem C5_selected_ids :
  forall (h : JS.Host) (m : Machine.t),
    Machine.reachable h m ->
    let s := Machine.store m in
    NoDup (BookingState.selectedAddons s)
    /\ (forall id : Z,
          let s' := Machine.store (Machine.step h m (Machine.ToggleAddon id)) in
          (In id (BookingState.selectedAddons s) ->
             BookingState.selectedAddons s' = Stated.remove_first id (BookingState.selectedAddons s)
             /\ ~ In id (BookingState.selectedAddons s'))
          /\ (~ In id (BookingState.selectedAddons s) ->
                BookingState.selectedAddons s'
                = (BookingState.selectedAddons s ++ [id])%list)
          /\ BookingState.addons s' = BookingState.addons s
          /\ BookingState.selectedVehicle s' = BookingState.selectedVehicle s
          /\ BookingState.pickupDate s' = BookingState.pickupDate s
          /\ BookingState.dropoffDate s' = BookingState.dropoffDate s)
    /\ (forall sm a,
          Selectors.selectBookingSummary h s = Some sm ->
          In a (BookingSummary.selectedAddons sm) ->
          In a (BookingState.addons s) /\ In (Addon.id a) (BookingState.selectedAddons s)).
Proof.
  intros h m R s. subst s.
  pose proof (MachineFacts.reachable_NoDup h m R) as Hnd.
  split; [exact Hnd|]. split.
  - intros id. cbn [Machine.step Machine.store]. unfold Slice.dispatch. cbn [Slice.reducer].
    pose proof (MachineFacts.toggleAddon_selected (Machine.store m) id) as E.
    destruct (MachineFacts.toggleAddon_frame (Machine.store m) id) as (Ev & Ep & Ed & Ea & _).
    cbv zeta in Ev, Ep, Ed, Ea.
    split; [|split; [|repeat split; assumption]].
    + intros Hin. apply PricingFacts.includes_In in Hin. rewrite Hin in E.
      rewrite E. split; [reflexivity|].
      apply MachineFacts.remove_first_NoDup. exact Hnd.
    + intros Hnot.
      destruct (Selectors.includes (BookingState.selectedAddons (Machine.store m)) id) eqn:I.
      * apply PricingFacts.includes_In in I. contradiction.
      * exact E.
  - intros sm a E Ha. unfold Selectors.selectBookingSummary in E.
    destruct (BookingState.selectedVehicle (Machine.store m)); [|discriminate].
    destruct (negb _ || negb _ || _)%bool; [discriminate|].
    injection E as <-. cbn in Ha. apply filter_In in Ha.
    destruct Ha as [Hin Hid]. apply PricingFacts.includes_In in Hid. split; assumption.
Qed.

(** An instance of the amended C5: with no add-on available yet, the id 7 is
    toggled and becomes the selection. *)
Lemma C5_selected_ids_witness :
  NoDup (BookingState.selectedAddons (Machine.store Samples.two_in_flight))
  /\ BookingState.selectedAddons
       (Machine.store (Machine.step Samples.host Samples.two_in_flight (Machine.ToggleAddon 7)))
     = [7].
Proof.
  assert (R : Machine.reachable Samples.host Samples.two_in_flight).
  { unfold Samples.two_in_flight, Machine.run. cbn [fold_left]. repeat constructor. }
  destruct (C5_selected_ids Samples.host Samples.two_in_flight R) as (Hnd & Ht & _).
  split; [exact Hnd|].
  destruct (Ht 7) as (_ & Happ & _). apply Happ. cbn. tauto.
Defined.

(** C2. SetPickupDate(d) with a non-empty, complete date [d] that lies before
    the evaluation day leaves the whole booking state as it was and puts the
    message under the pickup field; with any other [d] the pickup date
    becomes [d].  For a calendar date the host has no say: it is turned down
    exactly when its day number is below today's. *)
Theorem C2_set_pickup_date :
  forall (h : JS.Host) (e : DateSelection.Errors) (st : BookingState.t) (d : string),
    let r := DateSelection.handlePickupChange h e st d in
    (if negb (d =? "")%string && DateSelection.isCompleteDate h d && Calendar.in_the_past h d
     then snd r = st
          /\ fst r = DateSelection.setPickupError e (Some DateSelection.invalidPickupDate)
     else BookingState.pickupDate (snd r) = d)
    /\ (forall k, Calendar.calendar_day d = Some k ->
          negb (d =? "")%string && DateSelection.isCompleteDate h d && Calendar.in_the_past h d
          = (k <? Calendar.today h)).
Proof.
  intros h e st d r. subst r. split.
  - unfold DateSelection.handlePickupChange.
    rewrite DateFacts.past_check. fold (JS.truthy d).
    destruct (JS.truthy d && DateSelection.isCompleteDate h d && Calendar.in_the_past h d)%bool.
    + split; reflexivity.
    + repeat match goal with
             | |- context [if ?b then _ else _] => destruct b
             end; reflexivity.
  - intros k Hk. fold (JS.truthy d).
    rewrite (DateFacts.calendar_nonempty _ _ Hk), (DateFacts.calendar_complete h _ _ Hk).
    unfold Calendar.in_the_past. rewrite (DateFacts.calendar_day_of h _ _ Hk). reflexivity.
Qed.

(** An instance of C2 on the first of June 2025: the day before is turned
    down, the day itself is taken. *)
Lemma C2_set_pickup_date_witness :
  Calendar.today Samples.host = 20240
  /\ snd (DateSelection.handlePickupChange Samples.host DateSelection.noErrors
            Samples.sedan_booking "2025-05-31") = Samples.sedan_booking
  /\ BookingState.pickupDate
       (snd (DateSelection.handlePickupChange Samples.host DateSelection.noErrors
               Samples.sedan_booking "2025-06-01")) = "2025-06-01".
Proof.
  split; [reflexivity|]. split.
  - pose proof (C2_set_pickup_date Samples.host DateSelection.noErrors
                  Samples.sedan_booking "2025-05-31") as [H _].
    cbv zeta in H.
    change (negb ("2025-05-31" =? "")%string
            && DateSelection.isCompleteDate Samples.host "2025-05-31"
            && Calendar.in_the_past Samples.host "2025-05-31")%bool with true in H.
    apply H.
  - pose proof (C2_set_pickup_date Samples.host DateSelection.noErrors
                  Samples.sedan_booking "2025-06-01") as [H _].
    cbv zeta in H.
    change (negb ("2025-06-01" =? "")%string
            && DateSelection.isCompleteDate Samples.host "2025-06-01"
            && Calendar.in_the_past Samples.host "2025-06-01")%bool with false in H.
    exact H.
Defined.

(** C3. SetDropoffDate(d) is turned down, the booking state staying as it
    was, when [d] is a complete date that lies before the evaluation day or,
    a complete pickup date being set, is not after it; with any other [d] the
    dropoff date becomes [d].  In particular, when the two are calendar dates
    and the dropoff would not be after the pickup, the dropoff date keeps its
    value. *)
Theorem C3_set_dropoff_date :
  forall (h : JS.Host) (e : DateSelection.Errors) (st : BookingState.t) (d : string),
    let r := DateSelection.handleDropoffChange h e st d in
    let pickup := BookingState.pickupDate st in
    (if DateSelection.isCompleteDate h d
        && (Calendar.in_the_past h d
            || (DateSelection.isCompleteDate h pickup && Calendar.not_after h d pickup))
     then snd r = st
     else BookingState.dropoffDate (snd r) = d)
    /\ (forall k j, Calendar.calendar_day d = Some k ->
          Calendar.calendar_day pickup = Some j -> k <= j ->
          BookingState.dropoffDate (snd r) = BookingState.dropoffDate st).
Proof.
  intros h e st d r pickup. subst r pickup.
  assert (Main :
    if DateSelection.isCompleteDate h d
       && (Calendar.in_the_past h d
           || (DateSelection.isCompleteDate h (BookingState.pickupDate st)
               && Calendar.not_after h d (BookingState.pickupDate st)))
    then snd (DateSelection.handleDropoffChange h e st d) = st
    else BookingState.dropoffDate (snd (DateSelection.handleDropoffChange h e st d)) = d).
  { unfold DateSelection.handleDropoffChange.
    rewrite DateFacts.past_check, DateFacts.order_check.
    destruct (DateSelection.isCompleteDate h d) eqn:Ed.
    - rewrite (DateFacts.complete_truthy h d Ed). cbn [andb].
      destruct (Calendar.in_the_past h d); [reflexivity|]. cbn [orb].
      destruct (DateSelection.isCompleteDate h (BookingState.pickupDate st)) eqn:Ep.
      + rewrite (DateFacts.complete_truthy h _ Ep). cbn [andb].
        destruct (Calendar.not_after h d (BookingState.pickupDate st)); [reflexivity|].
        repeat match goal with
               | |- context [if ?b then _ else _] => destruct b
               end; reflexivity.
      + rewrite andb_false_r. cbn [andb].
        repeat match goal with
               | |- context [if ?b then _ else _] => destruct b
               end; reflexivity.
    - rewrite !andb_false_r. cbn [andb]. reflexivity. }
  split; [exact Main|].
  intros k j Hk Hj Hle.
  rewrite (DateFacts.calendar_complete h _ _ Hk), (DateFacts.calendar_complete h _ _ Hj) in Main.
  unfold Calendar.not_after in Main.
  rewrite (DateFacts.calendar_day_of h _ _ Hk), (DateFacts.calendar_day_of h _ _ Hj) in Main.
  apply Z.leb_le in Hle. rewrite Hle, orb_true_r in Main. cbn [andb] in Main.
  rewrite Main. reflexivity.
Qed.

(** An instance of C3 with the pickup on the tenth of June: the tenth is
    turned down as a dropoff, the eleventh is taken. *)
Lemma C3_set_dropoff_date_witness :
  BookingState.dropoffDate
    (snd (DateSelection.handleDropoffChange Samples.host DateSelection.noErrors
            Samples.sedan_booking "2025-06-10")) = "2025-06-13"
  /\ BookingState.dropoffDate
       (snd (DateSelection.handleDropoffChange Samples.host DateSelection.noErrors
               Samples.sedan_booking "2025-06-11")) = "2025-06-11".
Proof.
  split.
  - pose proof (C3_set_dropoff_date Samples.host DateSelection.noErrors
                  Samples.sedan_booking "2025-06-10") as [_ H].
    apply (H 20249 20249); [reflexivity | reflexivity | lia].
  - pose proof (C3_set_dropoff_date Samples.host DateSelection.noErrors
                  Samples.sedan_booking "2025-06-11") as [H _].
    cbv zeta in H.
    change (DateSelection.isCompleteDate Samples.host "2025-06-11"
            && (Calendar.in_the_past Samples.host "2025-06-11"
                || (DateSelection.isCompleteDate Samples.host
                      (BookingState.pickupDate Samples.sedan_booking)
                    && Calendar.not_after Samples.host "2025-06-11"
                         (BookingState.pickupDate Samples.sedan_booking))))%bool
      with false in H.
    exact H.
Defined.



(* ================================================================== *)
(** ** Further facts about the slice and the selectors *)
(* ================================================================== *)

Module MoreSliceFacts.

Lemma toggleAddon_shape s id :
  Slice.toggleAddon s id
  = Slice.with_selectedAddons s (BookingState.selectedAddons (Slice.toggleAddon s id)).
Proof.
  unfold Slice.toggleAddon. destruct (_ =? -1); reflexivity.
Qed.

Lemma with_selectedAddons_twice s l l' :
  Slice.with_selectedAddons (Slice.with_selectedAddons s l) l'
  = Slice.with_selectedAddons s l'.
Proof. reflexivity. Qed.

Lemma with_selectedAddons_same s :
  Slice.with_selectedAddons s (BookingState.selectedAddons s) = s.
Proof. destruct s. reflexivity. Qed.

Lemma remove_first_snoc x l : ~ In x l -> Stated.remove_first x (l ++ [x]) = l.
Proof.
  induction l as [|y ys IH]; intros Hnot; cbn.
  - rewrite Z.eqb_refl. reflexivity.
  - destruct (Z.eqb_spec y x) as [E|E].
    + exfalso. apply Hnot. left. exact E.
    + f_equal. apply IH. intros H. apply Hnot. right. exact H.
Qed.

Lemma remove_first_perm x l : In x l -> Permutation (Stated.remove_first x l ++ [x]) l.
Proof.
  induction l as [|y ys IH]; intros Hin; [contradiction|]. cbn.
  destruct (Z.eqb_spec y x) as [E|E].
  - subst y. symmetry. apply Permutation_cons_append.
  - destruct Hin as [Hin|Hin]; [contradiction|]. cbn. constructor. apply IH. exact Hin.
Qed.

(** The gate of the Book button, spelled out. *)
Lemma valid_iff h s :
  Selectors.selectIsBookingValid h s = true <->
  BookingState.selectedVehicle s <> None /\ BookingState.pickupDate s <> ""
  /\ BookingState.dropoffDate s <> "" /\ 0 < Selectors.selectRentalDays h s.
Proof.
  unfold Selectors.selectIsBookingValid.
  rewrite !andb_true_iff, !negb_true_iff, !String.eqb_neq, Z.ltb_lt.
  destruct (BookingState.selectedVehicle s); intuition (try discriminate; try congruence).
Qed.

Lemma valid_iff_summary h s :
  Selectors.selectIsBookingValid h s = true <->
  exists sm, Selectors.selectBookingSummary h s = Some sm.
Proof. rewrite valid_iff. symmetry. apply SliceFacts.summary_gate. Qed.

(** The confirmation flag plays no part in the summary. *)
Lemma summary_flag h s b :
  Selectors.selectBookingSummary h (Slice.with_showConfirmation s b)
  = Selectors.selectBookingSummary h s.
Proof. reflexivity. Qed.

Lemma ceil_div_mul n : 0 <= n ->
  Selectors.ceil_div (n * JS.msPerDay) (1000 * 60 * 60 * 24) = n.
Proof.
  intros Hn. unfold Selectors.ceil_div, JS.msPerDay.
  change (1000 * 60 * 60 * 24) with 86400000.
  replace (- (n * 86400000)) with ((- n) * 86400000) by lia.
  rewrite Z.div_mul by discriminate. lia.
Qed.

End MoreSliceFacts.

(* ================================================================== *)
(** ** Further properties: the slice, the selectors and their callers *)
(* ================================================================== *)

(** X1. Toggling the same add-on id twice leaves the same ids selected.  When
    the id was not selected the state is exactly as before; when it was, the
    id has moved to the end of the list.  Nothing but the list of selected
    ids is touched. *)
Theorem X1_toggle_twice : forall (s : BookingState.t) (id : Z),
  NoDup (BookingState.selectedAddons s) ->
  let s2 := AddonsSelection.handleToggle (AddonsSelection.handleToggle s id) id in
  (~ In id (BookingState.selectedAddons s) -> s2 = s)
  /\ (In id (BookingState.selectedAddons s) ->
        BookingState.selectedAddons s2
        = (Stated.remove_first id (BookingState.selectedAddons s) ++ [id])%list)
  /\ Permutation (BookingState.selectedAddons s2) (BookingState.selectedAddons s)
  /\ s2 = Slice.with_selectedAddons s (BookingState.selectedAddons s2).
Proof.
  intros s id Hnd s2. subst s2. unfold AddonsSelection.handleToggle, Slice.dispatch.
  cbn [Slice.reducer].
  assert (Shape : Slice.toggleAddon (Slice.toggleAddon s id) id
                  = Slice.with_selectedAddons s
                      (BookingState.selectedAddons (Slice.toggleAddon (Slice.toggleAddon s id) id))).
  { rewrite (MoreSliceFacts.toggleAddon_shape (Slice.toggleAddon s id) id) at 1.
    rewrite (MoreSliceFacts.toggleAddon_shape s id) at 1.
    apply MoreSliceFacts.with_selectedAddons_twice. }
  pose proof (MachineFacts.toggleAddon_selected (Slice.toggleAddon s id) id) as E2.
  pose proof (MachineFacts.toggleAddon_selected s id) as E1.
  destruct (Selectors.includes (BookingState.selectedAddons s) id) eqn:I.
  - pose proof I as Hin. apply PricingFacts.includes_In in Hin.
    destruct (MachineFacts.remove_first_NoDup id _ Hnd) as [_ Hgone].
    rewrite E1 in E2.
    destruct (Selectors.includes (Stated.remove_first id (BookingState.selectedAddons s)) id)
      eqn:I2; [apply PricingFacts.includes_In in I2; contradiction|].
    split; [intros Hnot; contradiction|]. split; [intros _; exact E2|].
    split; [|exact Shape]. rewrite E2. apply MoreSliceFacts.remove_first_perm. exact Hin.
  - assert (Hnot : ~ In id (BookingState.selectedAddons s)).
    { intros Hin. apply PricingFacts.includes_In in Hin. congruence. }
    rewrite E1 in E2.
    assert (I2 : Selectors.includes (BookingState.selectedAddons s ++ [id]) id = true).
    { apply PricingFacts.includes_In. apply in_or_app. right. left. reflexivity. }
    rewrite I2, (MoreSliceFacts.remove_first_snoc _ _ Hnot) in E2.
    split; [|split; [intros Hin; contradiction|split; [rewrite E2; reflexivity|exact Shape]]].
    intros _. rewrite Shape, E2. apply MoreSliceFacts.with_selectedAddons_same.
Qed.

(** An instance of X1: with GPS navigation and insurance selected, ticking
    and unticking the child seat changes nothing. *)
Lemma X1_toggle_twice_witness :
  AddonsSelection.handleToggle (AddonsSelection.handleToggle Samples.luxury_booking 2) 2
  = Samples.luxury_booking.
Proof.
  destruct (X1_toggle_twice Samples.luxury_booking 2) as (H & _).
  - cbn. repeat constructor; cbn; lia.
  - apply H. cbn. lia.
Defined.

(** X2. When both dates are calendar dates the day count is the distance
    between their day numbers, on every host and in either order: a dropoff
    before the pickup counts as many days as the same range the right way
    round, and equal dates count zero. *)
Theorem X2_days_between_calendar_dates :
  forall (h : JS.Host) (s : BookingState.t) (j k : Z),
    Calendar.calendar_day (BookingState.pickupDate s) = Some j ->
    Calendar.calendar_day (BookingState.dropoffDate s) = Some k ->
    Selectors.selectRentalDays h s = Z.abs (k - j).
Proof.
  intros h s j k Hj Hk. unfold Selectors.selectRentalDays.
  rewrite (DateFacts.calendar_nonempty _ _ Hj), (DateFacts.calendar_nonempty _ _ Hk).
  cbn [negb orb].
  apply DateFacts.calendar_day_date in Hj, Hk.
  destruct Hj as (y & m & d & Hj & ->), Hk as (y' & m' & d' & Hk & ->).
  rewrite (DateFacts.calendar_parse_utc h _ _ _ _ Hj), (DateFacts.calendar_parse_utc h _ _ _ _ Hk).
  cbn [JS.getTime].
  replace (JS.MakeDay y' m' d' * JS.msPerDay - JS.MakeDay y m d * JS.msPerDay)
    with ((JS.MakeDay y' m' d' - JS.MakeDay y m d) * JS.msPerDay) by lia.
  rewrite Z.abs_mul. change (Z.abs JS.msPerDay) with JS.msPerDay.
  apply MoreSliceFacts.ceil_div_mul. apply Z.abs_nonneg.
Qed.

(** An instance of X2: the sedan's three days, and the same dates swapped. *)
Lemma X2_days_between_calendar_dates_witness :
  Selectors.selectRentalDays Samples.host Samples.sedan_booking = 3
  /\ Selectors.selectRentalDays Samples.host
       (Slice.setDropoffDate (Slice.setPickupDate Samples.sedan_booking "2025-06-13")
          "2025-06-10") = 3.
Proof.
  split.
  - apply (X2_days_between_calendar_dates Samples.host Samples.sedan_booking 20249 20252);
      reflexivity.
  - apply (X2_days_between_calendar_dates Samples.host _ 20252 20249); reflexivity.
Defined.

(** X3. The Book button's gate is open exactly when there is a summary to
    show.  With the dialog closed, pressing the button draws the
    confirmation dialog exactly when the booking is valid, and pressing it on
    an invalid booking changes nothing. *)
Theorem X3_book_now : forall (h : JS.Host) (s : BookingState.t),
  (Selectors.selectIsBookingValid h s = true <->
     exists sm, Selectors.selectBookingSummary h s = Some sm)
  /\ (BookingState.showConfirmation s = false ->
        BookingConfirmation.renders h (Machine.handleBookNow h s)
        = Selectors.selectIsBookingValid h s)
  /\ (Selectors.selectIsBookingValid h s = false -> Machine.handleBookNow h s = s).
Proof.
  intros h s. split; [apply MoreSliceFacts.valid_iff_summary|]. split.
  - intros Hclosed. unfold Machine.handleBookNow, BookingConfirmation.renders.
    pose proof (MoreSliceFacts.valid_iff_summary h s) as V.
    destruct (Selectors.selectIsBookingValid h s).
    + destruct V as [V _]. destruct (V eq_refl) as [sm E].
      unfold Slice.dispatch. cbn [Slice.reducer]. unfold Slice.showConfirmation.
      rewrite MoreSliceFacts.summary_flag, E. reflexivity.
    + rewrite Hclosed. reflexivity.
  - intros Hinv. unfold Machine.handleBookNow. rewrite Hinv. reflexivity.
Qed.

(** An instance of X3: the sedan booking is valid, and pressing the button
    draws the dialog. *)
Lemma X3_book_now_witness :
  BookingConfirmation.renders Samples.host
    (Machine.handleBookNow Samples.host Samples.sedan_booking) = true.
Proof.
  destruct (X3_book_now Samples.host Samples.sedan_booking) as (_ & H & _).
  rewrite H; reflexivity.
Defined.

(** X4. The actions of the two catalogue thunks never touch the selection
    (vehicle, dates, selected add-on ids, confirmation flag).  A vehicle
    fetch that is fulfilled ends with the list stored, nothing loading and no
    error, so the form is drawn; one that is rejected keeps the old list and
    records the message.  A fulfilment does not erase an error: when a second
    request was started before the first was rejected, its later success
    stores the vehicles but the recorded error keeps the form hidden. *)
Theorem X4_catalogue_fetches :
  (forall (s : BookingState.t) (a : Action.t),
     Vocabulary.thunk_action a = true ->
     Vocabulary.same_selection s (Slice.reducer s a))
  /\ (forall (s : BookingState.t) (vs : list Vehicle.t),
        let s' := Slice.reducer (Slice.reducer s Action.fetchVehicles_pending)
                    (Action.fetchVehicles_fulfilled vs) in
        BookingState.vehicles s' = vs /\ BookingState.loading s' = false
        /\ BookingState.error s' = None /\ Vocabulary.formVisible s' = true)
  /\ (forall (s : BookingState.t) (msg : string),
        let s' := Slice.reducer (Slice.reducer s Action.fetchVehicles_pending)
                    (Action.fetchVehicles_rejected msg) in
        BookingState.vehicles s' = BookingState.vehicles s
        /\ BookingState.loading s' = false /\ BookingState.error s' = Some msg)
  /\ (forall (s : BookingState.t) (msg : string) (vs : list Vehicle.t),
        msg <> "" ->
        let s' := fold_left Slice.reducer
                    [Action.fetchVehicles_pending; Action.fetchVehicles_pending;
                     Action.fetchVehicles_rejected msg; Action.fetchVehicles_fulfilled vs] s in
        BookingState.vehicles s' = vs /\ BookingState.error s' = Some msg
        /\ Vocabulary.formVisible s' = false).
Proof.
  split; [|split; [|split]].
  - intros s a Ha. destruct a; try discriminate Ha; cbn [Slice.reducer];
      unfold Vocabulary.same_selection; try (cbn; repeat split; fail).
    + destruct (SliceFacts.fetchAddons_pending_frame s) as (Hv & Hp & Hd & Hs & _ & _ & Hc).
      cbv zeta in *. repeat split; assumption.
  - intros s vs. cbn. repeat split.
  - intros s msg. cbn. repeat split.
  - intros s msg vs Hmsg. cbn. unfold Vocabulary.formVisible. cbn.
    apply SliceFacts.truthy_true_iff in Hmsg. rewrite Hmsg. repeat split.
Qed.

(** An instance of X4: a rejected add-on fetch leaves the luxury booking's
    selection alone, and the late success after a failure hides the form. *)
Lemma X4_catalogue_fetches_witness :
  Vocabulary.same_selection Samples.luxury_booking
    (Slice.reducer Samples.luxury_booking (Action.fetchAddons_rejected "Network error"))
  /\ Vocabulary.formVisible
       (fold_left Slice.reducer
          [Action.fetchVehicles_pending; Action.fetchVehicles_pending;
           Action.fetchVehicles_rejected "Network error";
           Action.fetchVehicles_fulfilled Backend.getAllVehicles]
          BookingState.initialState) = false.
Proof.
  destruct X4_catalogue_fetches as (Hsel & _ & _ & Hlate).
  split.
  - apply Hsel. reflexivity.
  - apply (Hlate BookingState.initialState "Network error" Backend.getAllVehicles).
    discriminate.
Defined.

(** X5. Closing the confirmation dialog (hide, then reset) gives the state a
    reset alone gives: no vehicle, no dates, no selected add-on, flag down,
    the catalogue and its flags untouched.  After it there is no summary, the
    gate is shut and the dialog is not drawn. *)
Theorem X5_close_confirmation : forall (h : JS.Host) (s : BookingState.t),
  let s' := BookingConfirmation.handleClose s in
  s' = Slice.resetBooking s
  /\ Vocabulary.same_selection BookingState.initialState s'
  /\ Vocabulary.same_catalogue s s'
  /\ Selectors.selectBookingSummary h s' = None
  /\ Selectors.selectIsBookingValid h s' = false
  /\ BookingConfirmation.renders h s' = false.
Proof.
  intros h s s'. subst s'. unfold BookingConfirmation.handleClose, Slice.dispatch.
  cbn [Slice.reducer].
  split; [reflexivity|]. split; [repeat split|]. split; [repeat split|].
  split; [reflexivity|]. split; reflexivity.
Qed.

(* ================================================================== *)
(** ** Further facts about dates and the date handlers *)
(* ================================================================== *)

Module HandlerFacts.
Import JS Calendar.

(** Two date strings out of code-unit order are out of calendar order. *)
Lemma leb_key_gt s s' y m d y' m' d' :
  scan_ymd s = Some (y, m, d, "") -> scan_ymd s' = Some (y', m', d', "") ->
  String.leb s s' = false -> key y' m' d' < key y m d.
Proof.
  intros H H'.
  destruct (DateFacts.scan_ymd_inv _ _ _ _ _ H)
    as (y1 & y2 & y3 & y4 & m1 & m2 & d1 & d2 & a & b & c & e & f & g & i & k
        & -> & (Ea & Eb & Ec & Ee) & (Ef & Eg & Ei & Ek) & -> & -> & ->).
  destruct (DateFacts.scan_ymd_inv _ _ _ _ _ H')
    as (y1' & y2' & y3' & y4' & m1' & m2' & d1' & d2' & a' & b' & c' & e' & f' & g' & i' & k'
        & -> & (Ea' & Eb' & Ec' & Ee') & (Ef' & Eg' & Ei' & Ek') & -> & -> & ->).
  pose proof (DateFacts.digit_bounds _ _ Ea). pose proof (DateFacts.digit_bounds _ _ Eb).
  pose proof (DateFacts.digit_bounds _ _ Ec). pose proof (DateFacts.digit_bounds _ _ Ee).
  pose proof (DateFacts.digit_bounds _ _ Ef). pose proof (DateFacts.digit_bounds _ _ Eg).
  pose proof (DateFacts.digit_bounds _ _ Ei). pose proof (DateFacts.digit_bounds _ _ Ek).
  pose proof (DateFacts.digit_bounds _ _ Ea'). pose proof (DateFacts.digit_bounds _ _ Eb').
  pose proof (DateFacts.digit_bounds _ _ Ec'). pose proof (DateFacts.digit_bounds _ _ Ee').
  pose proof (DateFacts.digit_bounds _ _ Ef'). pose proof (DateFacts.digit_bounds _ _ Eg').
  pose proof (DateFacts.digit_bounds _ _ Ei'). pose proof (DateFacts.digit_bounds _ _ Ek').
  unfold String.leb, key. cbn [String.compare].
  rewrite (DateFacts.digit_compare _ _ _ _ Ea Ea'), (DateFacts.digit_compare _ _ _ _ Eb Eb'),
    (DateFacts.digit_compare _ _ _ _ Ec Ec'), (DateFacts.digit_compare _ _ _ _ Ee Ee'),
    (DateFacts.digit_compare _ _ _ _ Ef Ef'), (DateFacts.digit_compare _ _ _ _ Eg Eg'),
    (DateFacts.digit_compare _ _ _ _ Ei Ei'), (DateFacts.digit_compare _ _ _ _ Ek Ek').
  change ("-" ?= "-")%char with Eq. cbv beta iota.
  destruct (Z.compare_spec a a'); cbv beta iota; [|discriminate|intros; lia].
  destruct (Z.compare_spec b b'); cbv beta iota; [|discriminate|intros; lia].
  destruct (Z.compare_spec c c'); cbv beta iota; [|discriminate|intros; lia].
  destruct (Z.compare_spec e e'); cbv beta iota; [|discriminate|intros; lia].
  destruct (Z.compare_spec f f'); cbv beta iota; [|discriminate|intros; lia].
  destruct (Z.compare_spec g g'); cbv beta iota; [|discriminate|intros; lia].
  destruct (Z.compare_spec i i'); cbv beta iota; [|discriminate|intros; lia].
  destruct (Z.compare_spec k k'); cbv beta iota; [|discriminate|intros; lia].
  discriminate.
Qed.

(** [MakeDay] keeps the order by year, month and day strict. *)
Lemma MakeDay_strict y m d y' m' d' :
  valid_ymd y m d = true -> valid_ymd y' m' d' = true ->
  key y' m' d' < key y m d -> MakeDay y' m' d' < MakeDay y m d.
Proof.
  intros H H' Hk.
  pose proof (DateFacts.valid_ymd_bounds _ _ _ H) as [Hm Hd].
  pose proof (DateFacts.valid_ymd_bounds _ _ _ H') as [Hm' Hd'].
  assert (Hd31 : d <= 31 /\ d' <= 31).
  { unfold DaysInMonth in Hd, Hd'.
    destruct (m =? 2), (InLeapYear y), ((m =? 4) || (m =? 6) || (m =? 9) || (m =? 11))%bool,
      (m' =? 2), (InLeapYear y'), ((m' =? 4) || (m' =? 6) || (m' =? 9) || (m' =? 11))%bool; lia. }
  unfold key in Hk. unfold MakeDay.
  destruct (Z_lt_le_dec y' y) as [Hy|Hy].
  - pose proof (DateFacts.day_in_year _ _ _ H). pose proof (DateFacts.day_in_year _ _ _ H').
    pose proof (DateFacts.DayFromYear_next y').
    pose proof (DateFacts.DayFromYear_mono (y' + 1) y ltac:(lia)).
    lia.
  - assert (y = y') by lia. subst y'.
    destruct (Z_lt_le_dec m' m) as [Hmm|Hmm].
    + pose proof (DateFacts.month_order _ _ _ _ _ H' H Hmm). lia.
    + assert (m = m') by lia. subst m'. lia.
Qed.

(** On calendar dates the order of the strings is the order of the days. *)
Lemma calendar_leb_iff s s' k k' :
  calendar_day s = Some k -> calendar_day s' = Some k' ->
  str_le s s' = (k <=? k').
Proof.
  intros H H'. destruct (str_le s s') eqn:L.
  - symmetry. apply Z.leb_le. eapply DateFacts.calendar_leb; eassumption.
  - symmetry. apply Z.leb_gt.
    apply DateFacts.calendar_day_date in H, H'.
    destruct H as (y & m & d & H & ->), H' as (y' & m' & d' & H' & ->).
    apply DateFacts.calendar_date_scan in H, H'. destruct H as [Hs Hv], H' as [Hs' Hv'].
    apply MakeDay_strict; try assumption.
    eapply leb_key_gt; eassumption.
Qed.

Lemma str_le_empty s : truthy s = true -> str_le s "" = false.
Proof. destruct s; [discriminate | reflexivity]. Qed.

(** Emptying the pickup through the reducer leaves the dropoff alone. *)
Lemma setPickupDate_empty s :
  Slice.setPickupDate s "" = 
  {| BookingState.selectedVehicle := BookingState.selectedVehicle s;
     BookingState.pickupDate := "";
     BookingState.dropoffDate := BookingState.dropoffDate s;
     BookingState.selectedAddons := BookingState.selectedAddons s;
     BookingState.vehicles := BookingState.vehicles s;
     BookingState.addons := BookingState.addons s;
     BookingState.loading := BookingState.loading s;
     BookingState.error := BookingState.error s;
     BookingState.showConfirmation := BookingState.showConfirmation s |}.
Proof.
  unfold Slice.setPickupDate.
  destruct (truthy (BookingState.dropoffDate s)) eqn:T.
  - rewrite (str_le_empty _ T). reflexivity.
  - apply SliceFacts.truthy_false_iff in T. rewrite T. reflexivity.
Qed.

(** *** What each handler does to the store *)

Lemma pickup_change_store h e s v :
  snd (DateSelection.handlePickupChange h e s v)
  = if Stated.rejected h v then s
    else if DateSelection.isCompleteDate h v
            && DateSelection.isCompleteDate h (BookingState.dropoffDate s)
            && negb (DateSelection.isValidDropoffDate h (BookingState.dropoffDate s) v)
         then Slice.setDropoffDate (Slice.setPickupDate s v) ""
         else Slice.setPickupDate s v.
Proof.
  unfold DateSelection.handlePickupChange, Stated.rejected.
  rewrite DateFacts.past_check. fold (truthy v).
  destruct (truthy v && DateSelection.isCompleteDate h v && in_the_past h v)%bool;
    [reflexivity|].
  destruct (DateSelection.isCompleteDate h v) eqn:Cv.
  - rewrite (DateFacts.complete_truthy h v Cv). cbn [andb].
    destruct (DateSelection.isCompleteDate h (BookingState.dropoffDate s)) eqn:Cd.
    + rewrite (DateFacts.complete_truthy h _ Cd). cbn [andb].
      destruct (negb (DateSelection.isValidDropoffDate h (BookingState.dropoffDate s) v));
        reflexivity.
    + rewrite !andb_false_r. cbn [andb]. reflexivity.
  - rewrite andb_false_r. reflexivity.
Qed.

Lemma dropoff_change_store h e s v :
  snd (DateSelection.handleDropoffChange h e s v)
  = if Vocabulary.dropoff_rejected h s v then s else Slice.setDropoffDate s v.
Proof.
  unfold DateSelection.handleDropoffChange, Vocabulary.dropoff_rejected.
  rewrite DateFacts.past_check, DateFacts.order_check.
  destruct (DateSelection.isCompleteDate h v) eqn:Ed.
  - rewrite (DateFacts.complete_truthy h v Ed). cbn [andb].
    destruct (in_the_past h v); [reflexivity|]. cbn [orb].
    destruct (DateSelection.isCompleteDate h (BookingState.pickupDate s)) eqn:Ep.
    + rewrite (DateFacts.complete_truthy h _ Ep). cbn [andb].
      destruct (not_after h v (BookingState.pickupDate s)); [reflexivity|].
      repeat match goal with
             | |- context [if ?b then _ else _] => destruct b
             end; reflexivity.
    + rewrite andb_false_r. cbn [andb].
      repeat match goal with
             | |- context [if ?b then _ else _] => destruct b
             end; reflexivity.
  - rewrite !andb_false_r. cbn [andb]. reflexivity.
Qed.

Lemma pickup_blur_store h e s v :
  snd (DateBlur.handlePickupBlur h e s v)
  = if truthy v && negb (DateSelection.isCompleteDate h v && DateSelection.isValidDate h v)
    then Slice.setPickupDate s "" else s.
Proof.
  unfold DateBlur.handlePickupBlur.
  destruct (truthy v), (DateSelection.isCompleteDate h v), (DateSelection.isValidDate h v);
    reflexivity.
Qed.

Lemma dropoff_blur_store h e s v :
  snd (DateBlur.handleDropoffBlur h e s v)
  = if truthy v
       && negb (DateSelection.isCompleteDate h v && DateSelection.isValidDate h v
                && negb (truthy (BookingState.pickupDate s)
                         && negb (DateSelection.isValidDropoffDate h v (BookingState.pickupDate s))))
    then Slice.setDropoffDate s "" else s.
Proof.
  unfold DateBlur.handleDropoffBlur.
  destruct (truthy v), (DateSelection.isCompleteDate h v), (DateSelection.isValidDate h v),
    (truthy (BookingState.pickupDate s)),
    (DateSelection.isValidDropoffDate h v (BookingState.pickupDate s)); reflexivity.
Qed.

(** *** The validators on calendar dates *)

Lemma isValidDate_calendar h s k : calendar_day s = Some k ->
  DateSelection.isValidDate h s = (today h <=? k).
Proof.
  intros H. unfold DateSelection.isValidDate.
  rewrite (DateFacts.calendar_nonempty _ _ H), (DateFacts.calendar_complete h _ _ H).
  cbn [negb]. rewrite DateFacts.not_past_check, (DateFacts.calendar_day_of h _ _ H).
  reflexivity.
Qed.

Lemma isValidDropoffDate_calendar h a b ka kb :
  calendar_day a = Some ka -> calendar_day b = Some kb ->
  DateSelection.isValidDropoffDate h a b = (kb <? ka).
Proof.
  intros Ha Hb. unfold DateSelection.isValidDropoffDate.
  rewrite (DateFacts.calendar_nonempty _ _ Ha), (DateFacts.calendar_nonempty _ _ Hb),
    (DateFacts.calendar_complete h _ _ Ha), (DateFacts.calendar_complete h _ _ Hb).
  cbn [negb orb]. rewrite DateFacts.after_check,
    (DateFacts.calendar_day_of h _ _ Ha), (DateFacts.calendar_day_of h _ _ Hb).
  reflexivity.
Qed.

Lemma rejected_calendar h s k : calendar_day s = Some k ->
  Stated.rejected h s = (k <? today h).
Proof.
  intros H. unfold Stated.rejected. fold (truthy s).
  rewrite (DateFacts.calendar_nonempty _ _ H), (DateFacts.calendar_complete h _ _ H).
  unfold in_the_past. rewrite (DateFacts.calendar_day_of h _ _ H). reflexivity.
Qed.

Lemma not_after_calendar h a b ka kb :
  calendar_day a = Some ka -> calendar_day b = Some kb ->
  not_after h a b = (ka <=? kb).
Proof.
  intros Ha Hb. unfold not_after.
  rewrite (DateFacts.calendar_day_of h _ _ Ha), (DateFacts.calendar_day_of h _ _ Hb).
  reflexivity.
Qed.

Lemma calendar_day_empty : calendar_day "" = None.
Proof. reflexivity. Qed.

End HandlerFacts.

(* ================================================================== *)
(** ** Further properties: the date fields *)
(* ================================================================== *)

(** X6. On calendar dates the two validators do not depend on the host's
    time zone or parser: a dropoff is valid against a pickup exactly when its
    day number is greater, so equal dates are refused and two dates are never
    valid both ways round; a date is valid on its own exactly when it is not
    before the evaluation day. *)
Theorem X6_validators_on_calendar_dates :
  forall (h : JS.Host) (a b : string) (ka kb : Z),
    Calendar.calendar_day a = Some ka ->
    Calendar.calendar_day b = Some kb ->
    DateSelection.isValidDropoffDate h a b = (kb <? ka)
    /\ DateSelection.isValidDate h a = (Calendar.today h <=? ka)
    /\ DateSelection.isValidDropoffDate h a a = false
    /\ (DateSelection.isValidDropoffDate h a b = true ->
        DateSelection.isValidDropoffDate h b a = false).
Proof.
  intros h a b ka kb Ha Hb.
  rewrite (HandlerFacts.isValidDropoffDate_calendar h a b ka kb Ha Hb),
    (HandlerFacts.isValidDropoffDate_calendar h a a ka ka Ha Ha),
    (HandlerFacts.isValidDropoffDate_calendar h b a kb ka Hb Ha),
    (HandlerFacts.isValidDate_calendar h a ka Ha).
  split; [reflexivity|]. split; [reflexivity|]. split; [apply Z.ltb_irrefl|].
  intros H. apply Z.ltb_lt in H. apply Z.ltb_ge. lia.
Qed.

(** An instance of X6: the thirteenth of June is a valid dropoff for a pickup
    on the tenth, and not the other way round. *)
Lemma X6_validators_on_calendar_dates_witness :
  DateSelection.isValidDropoffDate Samples.host "2025-06-13" "2025-06-10" = true
  /\ DateSelection.isValidDropoffDate Samples.host "2025-06-10" "2025-06-13" = false.
Proof.
  destruct (X6_validators_on_calendar_dates Samples.host "2025-06-13" "2025-06-10"
              20252 20249 eq_refl eq_refl) as (H1 & _ & _ & H2).
  split; [rewrite H1; reflexivity | apply H2; rewrite H1; reflexivity].
Defined.

(** X7.  Text still being typed.  On every host, a text that is not ten
    characters long (the empty string, the first characters of a date, a
    date with something after it) is not a complete date.  Neither validator
    finds it invalid, on either side of the comparison, and both change
    handlers store it as it is and clear the message under their field,
    whatever the day and whatever the other date. *)
Theorem X7_incomplete_dates_pass :
  forall (h : JS.Host) (s : string),
    String.length s <> 10%nat ->
    DateSelection.isCompleteDate h s = false
    /\ DateSelection.isValidDate h s = true
    /\ (forall t : string,
          DateSelection.isValidDropoffDate h s t = true
          /\ DateSelection.isValidDropoffDate h t s = true)
    /\ (forall (e : DateSelection.Errors) (st : BookingState.t),
          let r := DateSelection.handlePickupChange h e st s in
          BookingState.pickupDate (snd r) = s
          /\ DateSelection.pickupError (fst r) = None
          /\ DateSelection.dropoffError (fst r) = DateSelection.dropoffError e)
    /\ (forall (e : DateSelection.Errors) (st : BookingState.t),
          let r := DateSelection.handleDropoffChange h e st s in
          snd r = Slice.setDropoffDate st s
          /\ DateSelection.dropoffError (fst r) = None
          /\ DateSelection.pickupError (fst r) = DateSelection.pickupError e).
Proof.
  intros h s Hlen.
  assert (Hc : DateSelection.isCompleteDate h s = false).
  { unfold DateSelection.isCompleteDate.
    destruct (negb (JS.truthy s)); [reflexivity|].
    destruct (JS.dateRegex_test s) eqn:Hre; [|reflexivity].
    exfalso. apply Hlen. unfold JS.dateRegex_test in Hre.
    destruct (JS.scan_ymd s) as [[[[y m] d] rest]|] eqn:Hscan; [|discriminate Hre].
    apply String.eqb_eq in Hre. subst rest.
    apply DateFacts.scan_ymd_inv in Hscan.
    destruct Hscan as (y1 & y2 & y3 & y4 & m1 & m2 & d1 & d2 & Hshape).
    destruct Hshape as (a & b & c & e & f & g & i & k & -> & _). reflexivity. }
  split; [exact Hc|].
  split; [|split; [|split]].
  - unfold DateSelection.isValidDate. rewrite Hc.
    destruct (negb (JS.truthy s)); reflexivity.
  - intros t. unfold DateSelection.isValidDropoffDate. rewrite Hc. cbn [negb orb].
    rewrite orb_true_r.
    split; [destruct (negb (JS.truthy s) || negb (JS.truthy t))%bool; reflexivity|].
    destruct (negb (JS.truthy t) || negb (JS.truthy s))%bool; reflexivity.
  - intros e st. cbv zeta. unfold DateSelection.handlePickupChange.
    rewrite Hc, !andb_false_r. cbn [andb]. split; [|split]; reflexivity.
  - intros e st. cbv zeta. unfold DateSelection.handleDropoffChange.
    rewrite Hc, !andb_false_r. cbn [andb]. split; [|split]; reflexivity.
Qed.

(** An instance of X7: a year and a month alone. *)
Lemma X7_incomplete_dates_pass_witness :
  String.length "2025-06" <> 10%nat
  /\ DateSelection.isCompleteDate Samples.host "2025-06" = false
  /\ DateSelection.isValidDate Samples.host "2025-06" = true
  /\ DateSelection.isValidDropoffDate Samples.host "2025-06" "2025-06-10" = true
  /\ BookingState.pickupDate
       (snd (DateSelection.handlePickupChange Samples.host DateSelection.noErrors
               Samples.sedan_booking "2025-06")) = "2025-06".
Proof.
  assert (Hlen : String.length "2025-06" <> 10%nat) by (cbn; lia).
  destruct (X7_incomplete_dates_pass Samples.host "2025-06" Hlen)
    as (H1 & H2 & H3 & H4 & _).
  split; [exact Hlen|]. split; [exact H1|]. split; [exact H2|].
  split; [exact (proj1 (H3 "2025-06-10"))|].
  exact (proj1 (H4 DateSelection.noErrors Samples.sedan_booking)).
Defined.

(** X8. On calendar dates the reducer and the component agree.  The reducer
    compares the two strings, the component their time values; both find the
    dropoff not after the pickup exactly when its day number is not greater.
    So the [setPickupDate] reducer on its own empties a calendar dropoff
    exactly when the new calendar pickup is on or after it. *)
Theorem X8_reducer_orders_calendar_dates :
  forall (h : JS.Host) (s : BookingState.t) (p : string) (kd kp : Z),
    Calendar.calendar_day (BookingState.dropoffDate s) = Some kd ->
    Calendar.calendar_day p = Some kp ->
    JS.str_le (BookingState.dropoffDate s) p = (kd <=? kp)
    /\ negb (DateSelection.isValidDropoffDate h (BookingState.dropoffDate s) p) = (kd <=? kp)
    /\ BookingState.dropoffDate (Slice.setPickupDate s p)
       = (if kd <=? kp then "" else BookingState.dropoffDate s)
    /\ BookingState.pickupDate (Slice.setPickupDate s p) = p.
Proof.
  intros h s p kd kp Hd Hp.
  pose proof (HandlerFacts.calendar_leb_iff _ _ _ _ Hd Hp) as L.
  split; [exact L|]. split.
  - rewrite (HandlerFacts.isValidDropoffDate_calendar h _ _ _ _ Hd Hp).
    destruct (Z.ltb_spec kp kd), (Z.leb_spec kd kp); try reflexivity; lia.
  - unfold Slice.setPickupDate. cbn.
    rewrite (DateFacts.calendar_nonempty _ _ Hd), L. split; reflexivity.
Qed.

(** An instance of X8: the reducer empties a dropoff on the thirteenth when
    the pickup moves to the fourteenth, and keeps it for the twelfth. *)
Lemma X8_reducer_orders_calendar_dates_witness :
  BookingState.dropoffDate (Slice.setPickupDate Samples.sedan_booking "2025-06-14") = ""
  /\ BookingState.dropoffDate (Slice.setPickupDate Samples.sedan_booking "2025-06-12")
     = "2025-06-13".
Proof.
  split.
  - destruct (X8_reducer_orders_calendar_dates Samples.host Samples.sedan_booking
                "2025-06-14" 20252 20253 eq_refl eq_refl) as (_ & _ & H & _).
    exact H.
  - destruct (X8_reducer_orders_calendar_dates Samples.host Samples.sedan_booking
                "2025-06-12" 20252 20251 eq_refl eq_refl) as (_ & _ & H & _).
    exact H.
Defined.

(** X9. When a date field loses focus, the handler at most empties that
    field: the other date, the vehicle, the add-ons and the catalogue stay.
    An empty value changes nothing; a non-empty value that is not a complete
    date empties the field and puts a message under it; a calendar date
    empties the pickup field exactly when it lies before the evaluation day,
    and the dropoff field exactly when it lies before the evaluation day or,
    against a calendar pickup, is not after it. *)
Theorem X9_blur :
  forall (h : JS.Host) (e : DateSelection.Errors) (s : BookingState.t) (v : string),
    let rp := DateBlur.handlePickupBlur h e s v in
    let rd := DateBlur.handleDropoffBlur h e s v in
    ((snd rp = s \/ snd rp = Slice.setPickupDate s "")
     /\ BookingState.dropoffDate (snd rp) = BookingState.dropoffDate s
     /\ (snd rd = s \/ snd rd = Slice.setDropoffDate s ""))
    /\ (v = "" -> snd rp = s /\ snd rd = s)
    /\ (v <> "" -> DateSelection.isCompleteDate h v = false ->
          BookingState.pickupDate (snd rp) = ""
          /\ DateSelection.pickupError (fst rp) = Some DateSelection.invalidPickupDate
          /\ BookingState.dropoffDate (snd rd) = ""
          /\ DateSelection.dropoffError (fst rd) = Some DateSelection.invalidDropoffDate)
    /\ (forall k, Calendar.calendar_day v = Some k ->
          BookingState.pickupDate (snd rp)
          = (if k <? Calendar.today h then "" else BookingState.pickupDate s)
          /\ (forall j, Calendar.calendar_day (BookingState.pickupDate s) = Some j ->
                BookingState.dropoffDate (snd rd)
                = (if (k <? Calendar.today h) || (k <=? j) then ""
                   else BookingState.dropoffDate s))).
Proof.
  intros h e s v rp rd. subst rp rd.
  pose proof (HandlerFacts.pickup_blur_store h e s v) as Ep.
  pose proof (HandlerFacts.dropoff_blur_store h e s v) as Ed.
  split; [|split; [|split]].
  - split; [|split].
    + rewrite Ep. clear Ep Ed.
      destruct (JS.truthy v
                && negb (DateSelection.isCompleteDate h v && DateSelection.isValidDate h v))%bool;
        [right|left]; reflexivity.
    + rewrite Ep. clear Ep Ed.
      destruct (JS.truthy v
                && negb (DateSelection.isCompleteDate h v && DateSelection.isValidDate h v))%bool;
        [|reflexivity].
      rewrite HandlerFacts.setPickupDate_empty. reflexivity.
    + rewrite Ed. clear Ep Ed.
      match goal with
      | |- context [if ?b then _ else _] => destruct b
      end; [right|left]; reflexivity.
  - intros ->. split; reflexivity.
  - intros Hne Hc. apply SliceFacts.truthy_true_iff in Hne.
    unfold DateBlur.handlePickupBlur, DateBlur.handleDropoffBlur. rewrite Hne, Hc.
    cbn. repeat split.
  - intros k Hk. rewrite Ep, Ed.
    rewrite (DateFacts.calendar_nonempty _ _ Hk), (DateFacts.calendar_complete h _ _ Hk),
      (HandlerFacts.isValidDate_calendar h _ _ Hk).
    cbn [andb]. split.
    + destruct (Z.leb_spec (Calendar.today h) k), (Z.ltb_spec k (Calendar.today h));
        try lia; cbn [negb]; [reflexivity|].
      rewrite HandlerFacts.setPickupDate_empty. reflexivity.
    + intros j Hj.
      rewrite (DateFacts.calendar_nonempty _ _ Hj),
        (HandlerFacts.isValidDropoffDate_calendar h _ _ _ _ Hk Hj).
      destruct (Z.leb_spec (Calendar.today h) k), (Z.ltb_spec k (Calendar.today h)),
        (Z.ltb_spec j k), (Z.leb_spec k j); try lia; reflexivity.
Qed.

(** An instance of X9: text that is no date empties the pickup on blur and
    keeps the dropoff. *)
Lemma X9_blur_witness :
  BookingState.pickupDate
    (snd (DateBlur.handlePickupBlur Samples.host DateSelection.noErrors
            Samples.sedan_booking "2025-06")) = ""
  /\ BookingState.dropoffDate
       (snd (DateBlur.handlePickupBlur Samples.host DateSelection.noErrors
               Samples.sedan_booking "2025-06")) = "2025-06-13".
Proof.
  destruct (X9_blur Samples.host DateSelection.noErrors Samples.sedan_booking "2025-06")
    as ((_ & Hd & _) & _ & H & _).
  split; [|exact Hd].
  apply H; [discriminate | reflexivity].
Defined.

(* ================================================================== *)
(** ** Facts about sessions *)
(* ================================================================== *)

Module SessionFacts.
Import Calendar.

(** A state whose dates are those of a consistent state, or empty, is
    consistent. *)
Lemma consistent_cleared h s s' :
  Session.dates_consistent h s ->
  (BookingState.pickupDate s' = BookingState.pickupDate s \/ BookingState.pickupDate s' = "") ->
  (BookingState.dropoffDate s' = BookingState.dropoffDate s \/ BookingState.dropoffDate s' = "") ->
  Session.dates_consistent h s'.
Proof.
  intros (Hp & Hd & Ho) [Ep|Ep] [Ed|Ed]; unfold Session.dates_consistent;
    rewrite Ep, Ed; repeat split; intros;
    try (rewrite HandlerFacts.calendar_day_empty in *; discriminate); eauto.
Qed.

Lemma consistent_pickup_change h0 h e s v :
  today h0 <= today h ->
  Session.dates_consistent h0 s ->
  Session.dates_consistent h0 (snd (DateSelection.handlePickupChange h e s v)).
Proof.
  intros Hle C. rewrite HandlerFacts.pickup_change_store.
  destruct (Stated.rejected h v) eqn:R; [exact C|].
  destruct C as (Hp & Hd & Ho).
  assert (Pv : forall j, calendar_day v = Some j -> today h0 <= j).
  { intros j Hj. rewrite (HandlerFacts.rejected_calendar h v j Hj) in R.
    apply Z.ltb_ge in R. lia. }
  destruct (DateSelection.isCompleteDate h v
            && DateSelection.isCompleteDate h (BookingState.dropoffDate s)
            && negb (DateSelection.isValidDropoffDate h (BookingState.dropoffDate s) v))%bool
    eqn:Clear.
  - unfold Session.dates_consistent. cbn. repeat split; intros; try discriminate; eauto.
  - unfold Session.dates_consistent. cbn [Slice.setPickupDate BookingState.pickupDate
      BookingState.dropoffDate].
    split; [exact Pv|]. split.
    + destruct (JS.truthy (BookingState.dropoffDate s)
                && JS.str_le (BookingState.dropoffDate s) v)%bool;
        [intros k Hk; discriminate Hk | exact Hd].
    + destruct (JS.truthy (BookingState.dropoffDate s)
                && JS.str_le (BookingState.dropoffDate s) v)%bool;
        [intros j k Hj Hk; discriminate Hk|].
      intros j k Hj Hk.
      rewrite (DateFacts.calendar_complete h _ _ Hj),
        (DateFacts.calendar_complete h _ _ Hk),
        (HandlerFacts.isValidDropoffDate_calendar h _ _ _ _ Hk Hj) in Clear.
      cbn [andb] in Clear. apply negb_false_iff, Z.ltb_lt in Clear. exact Clear.
Qed.

Lemma consistent_dropoff_change h0 h e s v :
  today h0 <= today h ->
  Session.dates_consistent h0 s ->
  Session.dates_consistent h0 (snd (DateSelection.handleDropoffChange h e s v)).
Proof.
  intros Hle C. rewrite HandlerFacts.dropoff_change_store.
  destruct (Vocabulary.dropoff_rejected h s v) eqn:R; [exact C|].
  destruct C as (Hp & Hd & Ho). unfold Vocabulary.dropoff_rejected in R.
  unfold Session.dates_consistent. cbn. split; [exact Hp|]. split.
  - intros k Hk. rewrite (DateFacts.calendar_complete h _ _ Hk) in R. cbn [andb] in R.
    apply orb_false_iff in R. destruct R as [R _]. unfold in_the_past in R.
    rewrite (DateFacts.calendar_day_of h _ _ Hk) in R. apply Z.ltb_ge in R. lia.
  - intros j k Hj Hk. rewrite (DateFacts.calendar_complete h _ _ Hk) in R. cbn [andb] in R.
    apply orb_false_iff in R. destruct R as [_ R].
    rewrite (DateFacts.calendar_complete h _ _ Hj),
      (HandlerFacts.not_after_calendar h _ _ _ _ Hk Hj) in R.
    cbn [andb] in R. apply Z.leb_gt in R. exact R.
Qed.

(** The machine's own steps, taken at the reading of the clock of [h]. *)
Lemma consistent_core h0 h m ev :
  today h0 <= today h ->
  Session.dates_consistent h0 (Machine.store m) ->
  Session.dates_consistent h0 (Machine.store (Machine.step h m ev)).
Proof.
  intros Hle C. destruct ev as [v|d|d|id| | | | |r|k r]; cbn [Machine.step].
  - unfold Machine.handleSelect, Slice.dispatch. cbn [Machine.store Slice.reducer].
    destruct (SliceFacts.fetchAddons_pending_frame
                (Slice.selectVehicle (Machine.store m) v)) as (_ & Ep & Ed & _).
    cbv zeta in Ep, Ed. apply (consistent_cleared h0 (Machine.store m)); [exact C| |].
    + rewrite Ep. unfold Slice.selectVehicle. cbn.
      destruct (match BookingState.selectedVehicle (Machine.store m) with
                | Some old => negb (Vehicle.id old =? Vehicle.id v)
                | None => false end); [right|left]; reflexivity.
    + rewrite Ed. unfold Slice.selectVehicle. cbn.
      destruct (match BookingState.selectedVehicle (Machine.store m) with
                | Some old => negb (Vehicle.id old =? Vehicle.id v)
                | None => false end); [right|left]; reflexivity.
  - pose proof (consistent_pickup_change h0 h (Machine.errors m) (Machine.store m) d Hle C)
      as H.
    destruct (DateSelection.handlePickupChange h (Machine.errors m) (Machine.store m) d).
    exact H.
  - pose proof (consistent_dropoff_change h0 h (Machine.errors m) (Machine.store m) d Hle C)
      as H.
    destruct (DateSelection.handleDropoffChange h (Machine.errors m) (Machine.store m) d).
    exact H.
  - cbn [Machine.store]. unfold Slice.dispatch. cbn [Slice.reducer].
    destruct (MachineFacts.toggleAddon_frame (Machine.store m) id) as (_ & Ep & Ed & _).
    cbv zeta in Ep, Ed.
    apply (consistent_cleared h0 (Machine.store m)); [exact C | left; exact Ep | left; exact Ed].
  - cbn [Machine.store]. unfold Machine.handleBookNow.
    destruct (Selectors.selectIsBookingValid h (Machine.store m)); exact C.
  - exact C.
  - apply (consistent_cleared h0 (Machine.store m)); [exact C | right | right]; reflexivity.
  - exact C.
  - destruct r; exact C.
  - unfold Machine.settle. destruct (nth_error (Machine.inflight m) k); [|exact C].
    destruct r; exact C.
Qed.

Lemma consistent_step h0 h m ev :
  today h0 <= today h ->
  Session.dates_consistent h0 (Machine.store m) ->
  Session.dates_consistent h0 (Machine.store (Session.step h m ev)).
Proof.
  intros Hle C. destruct ev as [ev|v|v|]; cbn [Session.step].
  - apply consistent_core; assumption.
  - pose proof (HandlerFacts.pickup_blur_store h (Machine.errors m) (Machine.store m) v) as E.
    destruct (DateBlur.handlePickupBlur h (Machine.errors m) (Machine.store m) v) as [e s'].
    cbn [snd Machine.store] in *. subst s'.
    destruct (_ && _)%bool; [|exact C].
    rewrite HandlerFacts.setPickupDate_empty.
    apply (consistent_cleared h0 (Machine.store m)); [exact C | right | left]; reflexivity.
  - pose proof (HandlerFacts.dropoff_blur_store h (Machine.errors m) (Machine.store m) v) as E.
    destruct (DateBlur.handleDropoffBlur h (Machine.errors m) (Machine.store m) v) as [e s'].
    cbn [snd Machine.store] in *. subst s'.
    destruct (_ && _)%bool; [|exact C].
    apply (consistent_cleared h0 (Machine.store m)); [exact C | left | right]; reflexivity.
  - apply (consistent_cleared h0 (Machine.store m)); [exact C | right | right]; reflexivity.
Qed.

Lemma consistent_init h : Session.dates_consistent h (Machine.store Machine.init).
Proof.
  unfold Session.dates_consistent. cbn. repeat split; intros; discriminate.
Qed.

(** The day does not go back while the clock does not. *)
Lemma today_at_time h now : JS.clock h <= now -> today h <= today (Session.at_time h now).
Proof.
  intros Hle. unfold today, local_day, JS.Day, JS.LocalTime, Session.at_time.
  cbn [JS.clock JS.LocalTZA].
  apply Z.div_le_mono; [reflexivity | lia].
Qed.

(** Reading the clock where it stands is the host itself. *)
Lemma at_time_clock h : Session.at_time h (JS.clock h) = h.
Proof. destruct h; reflexivity. Qed.

(** A session at readings of the clock that are not before the page was
    opened is a session. *)
Lemma reachable_run_at h m evs :
  Forall (fun timed : Z * Session.Event => JS.clock h <= fst timed) evs ->
  Session.reachable h m -> Session.reachable h (Session.run_at h m evs).
Proof.
  intros Hall. revert m. induction Hall as [|[now ev] evs Hnow _ IH]; intros m R;
    [exact R|].
  unfold Session.run_at. cbn [fold_left fst snd]. apply IH.
  apply Session.reach_step; [exact R | exact Hnow].
Qed.

End SessionFacts.

(** X10. A complete date that the change handler has stored is kept when the
    field loses focus with the same value, and text that is no complete date,
    which the change handler also stores, is emptied.  This is shown for
    calendar dates: the pickup not before the evaluation day; the dropoff
    accepted against a pickup that is a calendar date or not a complete
    date. *)
Theorem X10_change_then_blur :
  forall (h : JS.Host) (e : DateSelection.Errors) (s : BookingState.t) (v : string),
    (forall k, Calendar.calendar_day v = Some k -> Calendar.today h <= k ->
       let r := DateSelection.handlePickupChange h e s v in
       BookingState.pickupDate (snd r) = v
       /\ snd (DateBlur.handlePickupBlur h (fst r) (snd r) v) = snd r)
    /\ (forall k, Calendar.calendar_day v = Some k ->
          Vocabulary.dropoff_rejected h s v = false ->
          (DateSelection.isCompleteDate h (BookingState.pickupDate s) = false
           \/ exists j, Calendar.calendar_day (BookingState.pickupDate s) = Some j) ->
          let r := DateSelection.handleDropoffChange h e s v in
          BookingState.dropoffDate (snd r) = v
          /\ snd (DateBlur.handleDropoffBlur h (fst r) (snd r) v) = snd r)
    /\ (v <> "" -> DateSelection.isCompleteDate h v = false ->
          let rp := DateSelection.handlePickupChange h e s v in
          let rd := DateSelection.handleDropoffChange h e s v in
          BookingState.pickupDate (snd rp) = v
          /\ BookingState.pickupDate (snd (DateBlur.handlePickupBlur h (fst rp) (snd rp) v)) = ""
          /\ BookingState.dropoffDate (snd rd) = v
          /\ BookingState.dropoffDate (snd (DateBlur.handleDropoffBlur h (fst rd) (snd rd) v)) = "").
Proof.
  intros h e s v. split; [|split].
  - intros k Hk Htoday r. subst r.
    assert (R : Stated.rejected h v = false).
    { rewrite (HandlerFacts.rejected_calendar h v k Hk). apply Z.ltb_ge. exact Htoday. }
    split.
    + rewrite HandlerFacts.pickup_change_store, R.
      destruct (_ && _ && _)%bool; reflexivity.
    + rewrite HandlerFacts.pickup_blur_store.
      rewrite (DateFacts.calendar_nonempty _ _ Hk), (DateFacts.calendar_complete h _ _ Hk),
        (HandlerFacts.isValidDate_calendar h _ _ Hk).
      apply Z.leb_le in Htoday. rewrite Htoday. reflexivity.
  - intros k Hk R Hpick r. subst r.
    rewrite HandlerFacts.dropoff_change_store, R. split; [reflexivity|].
    rewrite HandlerFacts.dropoff_blur_store.
    unfold Vocabulary.dropoff_rejected in R.
    rewrite (DateFacts.calendar_complete h _ _ Hk) in R. cbn [andb] in R.
    apply orb_false_iff in R. destruct R as [Rpast Rord].
    unfold Calendar.in_the_past in Rpast.
    rewrite (DateFacts.calendar_day_of h _ _ Hk) in Rpast.
    rewrite (DateFacts.calendar_nonempty _ _ Hk), (DateFacts.calendar_complete h _ _ Hk),
      (HandlerFacts.isValidDate_calendar h _ _ Hk).
    apply Z.ltb_ge, Z.leb_le in Rpast. rewrite Rpast. cbn [andb].
    cbn [Slice.setDropoffDate BookingState.pickupDate].
    destruct Hpick as [Hinc | [j Hj]].
    + unfold DateSelection.isValidDropoffDate. rewrite Hinc. cbn [negb orb].
      rewrite orb_true_r.
      destruct (JS.truthy (BookingState.pickupDate s));
        [destruct (negb (JS.truthy v) || negb true)%bool|]; reflexivity.
    + rewrite (DateFacts.calendar_complete h _ _ Hj),
        (HandlerFacts.not_after_calendar h _ _ _ _ Hk Hj) in Rord.
      cbn [andb] in Rord. apply Z.leb_gt in Rord.
      rewrite (HandlerFacts.isValidDropoffDate_calendar h _ _ _ _ Hk Hj).
      apply Z.ltb_lt in Rord. rewrite Rord, andb_false_r. reflexivity.
  - intros Hne Hinc rp rd. subst rp rd.
    assert (R : Stated.rejected h v = false).
    { unfold Stated.rejected. rewrite Hinc, andb_false_r. reflexivity. }
    assert (R' : Vocabulary.dropoff_rejected h s v = false).
    { unfold Vocabulary.dropoff_rejected. rewrite Hinc. reflexivity. }
    apply SliceFacts.truthy_true_iff in Hne.
    rewrite HandlerFacts.pickup_blur_store, HandlerFacts.dropoff_blur_store,
      HandlerFacts.pickup_change_store, HandlerFacts.dropoff_change_store,
      R, R', Hinc, Hne.
    cbn [andb negb]. repeat split.
Qed.

(** An instance of X10: the twelfth of June is stored as a dropoff for a
    pickup on the tenth and survives the blur. *)
Lemma X10_change_then_blur_witness :
  let r := DateSelection.handleDropoffChange Samples.host DateSelection.noErrors
             Samples.sedan_booking "2025-06-12" in
  BookingState.dropoffDate (snd r) = "2025-06-12"
  /\ snd (DateBlur.handleDropoffBlur Samples.host (fst r) (snd r) "2025-06-12") = snd r.
Proof.
  destruct (X10_change_then_blur Samples.host DateSelection.noErrors
              Samples.sedan_booking "2025-06-12") as (_ & H & _).
  apply (H 20251); [reflexivity | reflexivity |].
  right. exists 20249. reflexivity.
Defined.

(** X11.  Whatever the user does on the page (every handler of the date
    fields, change and blur, vehicle selection, add-on toggles, booking,
    closing the dialog, reset, and the fetches settling in any order), each
    handler reading the clock afresh, the dates in the store stay
    consistent in this sense: a pickup or a dropoff that is a calendar date
    is not before the day on which the page was opened, and when both are
    calendar dates the dropoff is after the pickup, so that the day count,
    on every host, is their positive distance.  Stored dates are not checked
    again: a date can come to lie before the current day. *)
Theorem X11_dates_stay_consistent :
  forall (h : JS.Host) (m : Machine.t),
    Session.reachable h m ->
    Session.dates_consistent h (Machine.store m)
    /\ (forall (h' : JS.Host) j k,
          Calendar.calendar_day (BookingState.pickupDate (Machine.store m)) = Some j ->
          Calendar.calendar_day (BookingState.dropoffDate (Machine.store m)) = Some k ->
          Selectors.selectRentalDays h' (Machine.store m) = k - j
          /\ 0 < Selectors.selectRentalDays h' (Machine.store m)).
Proof.
  intros h m R.
  assert (C : Session.dates_consistent h (Machine.store m)).
  { induction R as [|m ev now R IH Hnow]; [apply SessionFacts.consistent_init|].
    apply SessionFacts.consistent_step; [|exact IH].
    apply SessionFacts.today_at_time. exact Hnow. }
  split; [exact C|]. intros h' j k Hj Hk. destruct C as (_ & _ & Ho).
  specialize (Ho j k Hj Hk).
  assert (E : Selectors.selectRentalDays h' (Machine.store m) = Z.abs (k - j)).
  { unfold Selectors.selectRentalDays.
    rewrite (DateFacts.calendar_nonempty _ _ Hj), (DateFacts.calendar_nonempty _ _ Hk).
    cbn [negb orb].
    apply DateFacts.calendar_day_date in Hj, Hk.
    destruct Hj as (y & mo & d & Hj & ->), Hk as (y' & mo' & d' & Hk & ->).
    rewrite (DateFacts.calendar_parse_utc h' _ _ _ _ Hj),
      (DateFacts.calendar_parse_utc h' _ _ _ _ Hk).
    cbn [JS.getTime].
    replace (JS.MakeDay y' mo' d' * JS.msPerDay - JS.MakeDay y mo d * JS.msPerDay)
      with ((JS.MakeDay y' mo' d' - JS.MakeDay y mo d) * JS.msPerDay) by lia.
    rewrite Z.abs_mul. change (Z.abs JS.msPerDay) with JS.msPerDay.
    apply MoreSliceFacts.ceil_div_mul. apply Z.abs_nonneg. }
  rewrite E. lia.
Qed.

(** An instance of X11, across midnight: the page was opened on the first of
    June and the dropoff field is left on the second.  The range is still the
    first to the second, one day, and the booking is still valid, although
    the pickup now lies before the current day. *)
Lemma X11_dates_stay_consistent_witness :
  let now := JS.clock Samples.host + JS.msPerDay in
  (BookingState.pickupDate (Machine.store Sessions.overnight) = "2025-06-01"
   /\ BookingState.dropoffDate (Machine.store Sessions.overnight) = "2025-06-02")
  /\ Selectors.selectRentalDays (Session.at_time Samples.host now)
       (Machine.store Sessions.overnight) = 1
  /\ Calendar.today Samples.host = 20240
  /\ Calendar.calendar_day (BookingState.pickupDate (Machine.store Sessions.overnight))
     = Some 20240
  /\ Calendar.today (Session.at_time Samples.host now) = 20241
  /\ Selectors.selectIsBookingValid (Session.at_time Samples.host now)
       (Machine.store Sessions.overnight) = true.
Proof.
  cbv zeta. split; [split; reflexivity|].
  assert (R : Session.reachable Samples.host Sessions.overnight).
  { apply SessionFacts.reachable_run_at; [|apply Session.reach_init].
    repeat constructor; cbn; lia. }
  destruct (X11_dates_stay_consistent Samples.host Sessions.overnight R) as [_ H].
  destruct (H (Session.at_time Samples.host (JS.clock Samples.host + JS.msPerDay))
              20240 20241 eq_refl eq_refl) as [E _].
  split; [exact E|]. repeat split.
Defined.

(** X12. Choosing a range: from any state, entering a calendar pickup that is
    not before the evaluation day and then a calendar dropoff after it stores
    both, leaves no message under either field and gives a day count equal
    to the distance between the two days; with a vehicle selected the booking
    is then valid. *)
Theorem X12_choosing_a_range :
  forall (h : JS.Host) (e : DateSelection.Errors) (s : BookingState.t)
         (p d : string) (j k : Z),
    Calendar.calendar_day p = Some j ->
    Calendar.calendar_day d = Some k ->
    Calendar.today h <= j -> j < k ->
    let r1 := DateSelection.handlePickupChange h e s p in
    let r2 := DateSelection.handleDropoffChange h (fst r1) (snd r1) d in
    BookingState.pickupDate (snd r2) = p
    /\ BookingState.dropoffDate (snd r2) = d
    /\ DateSelection.pickupError (fst r2) = None
    /\ DateSelection.dropoffError (fst r2) = None
    /\ Selectors.selectRentalDays h (snd r2) = k - j
    /\ (BookingState.selectedVehicle s <> None ->
        Selectors.selectIsBookingValid h (snd r2) = true).
Proof.
  intros h e s p d j k Hj Hk Htoday Hlt r1 r2.
  pose proof (DateFacts.calendar_nonempty _ _ Hj) as Tp.
  pose proof (DateFacts.calendar_nonempty _ _ Hk) as Td.
  pose proof (DateFacts.calendar_complete h _ _ Hj) as Cp.
  pose proof (DateFacts.calendar_complete h _ _ Hk) as Cd.
  assert (Rp : Stated.rejected h p = false).
  { rewrite (HandlerFacts.rejected_calendar h p j Hj). apply Z.ltb_ge. exact Htoday. }
  (* the first handler *)
  assert (S1 : BookingState.pickupDate (snd r1) = p
               /\ BookingState.selectedVehicle (snd r1) = BookingState.selectedVehicle s).
  { subst r1. rewrite HandlerFacts.pickup_change_store, Rp.
    destruct (_ && _ && _)%bool; split; reflexivity. }
  destruct S1 as [S1 V1].
  assert (E1 : DateSelection.pickupError (fst r1) = None).
  { subst r1. unfold DateSelection.handlePickupChange.
    unfold Stated.rejected in Rp. fold (JS.truthy p) in Rp.
    rewrite DateFacts.past_check, Rp, Tp, Cp. cbn [andb].
    rewrite (HandlerFacts.isValidDate_calendar h p j Hj).
    apply Z.leb_le in Htoday. rewrite Htoday. cbn [negb].
    repeat match goal with
           | |- context [if ?b then _ else _] => destruct b
           end; reflexivity. }
  (* the second handler *)
  assert (Rd : Vocabulary.dropoff_rejected h (snd r1) d = false).
  { unfold Vocabulary.dropoff_rejected. rewrite Cd, S1, Cp. cbn [andb].
    rewrite (HandlerFacts.not_after_calendar h _ _ _ _ Hk Hj).
    unfold Calendar.in_the_past. rewrite (DateFacts.calendar_day_of h _ _ Hk).
    apply orb_false_iff. split; [apply Z.ltb_ge | apply Z.leb_gt]; lia. }
  assert (S2 : snd r2 = Slice.setDropoffDate (snd r1) d).
  { subst r2. rewrite HandlerFacts.dropoff_change_store, Rd. reflexivity. }
  assert (E2 : fst r2 = DateSelection.setDropoffError (fst r1) None).
  { subst r2. unfold DateSelection.handleDropoffChange.
    unfold Vocabulary.dropoff_rejected in Rd.
    rewrite DateFacts.past_check, DateFacts.order_check, Td, Cd, S1, Tp, Cp.
    rewrite Cd, S1, Cp in Rd. cbn [andb] in Rd. apply orb_false_iff in Rd.
    destruct Rd as [Rpast Rord]. rewrite Rpast, Rord. cbn [andb negb].
    rewrite (HandlerFacts.isValidDate_calendar h d k Hk),
      (HandlerFacts.isValidDropoffDate_calendar h d p k j Hk Hj).
    assert (T : (Calendar.today h <=? k) = true) by (apply Z.leb_le; lia).
    assert (L : (j <? k) = true) by (apply Z.ltb_lt; lia).
    rewrite T, L. reflexivity. }
  assert (Days : Selectors.selectRentalDays h (snd r2) = k - j).
  { rewrite S2. unfold Selectors.selectRentalDays.
    cbn [Slice.setDropoffDate BookingState.pickupDate BookingState.dropoffDate].
    rewrite S1, Tp, Td. cbn [negb orb].
    apply DateFacts.calendar_day_date in Hj, Hk.
    destruct Hj as (y & mo & dd & Hj & ->), Hk as (y' & mo' & dd' & Hk & ->).
    rewrite (DateFacts.calendar_parse_utc h _ _ _ _ Hj),
      (DateFacts.calendar_parse_utc h _ _ _ _ Hk).
    cbn [JS.getTime].
    replace (JS.MakeDay y' mo' dd' * JS.msPerDay - JS.MakeDay y mo dd * JS.msPerDay)
      with ((JS.MakeDay y' mo' dd' - JS.MakeDay y mo dd) * JS.msPerDay) by lia.
    rewrite Z.abs_mul. change (Z.abs JS.msPerDay) with JS.msPerDay.
    rewrite MoreSliceFacts.ceil_div_mul by apply Z.abs_nonneg. lia. }
  split; [rewrite S2; exact S1|]. split; [rewrite S2; reflexivity|].
  split; [rewrite E2; exact E1|]. split; [rewrite E2; reflexivity|].
  split; [exact Days|].
  intros Hv. apply MoreSliceFacts.valid_iff. rewrite Days.
  rewrite S2. cbn [Slice.setDropoffDate BookingState.selectedVehicle BookingState.pickupDate
                   BookingState.dropoffDate].
  rewrite V1, S1. repeat split; try assumption.
  - intros ->. discriminate Tp.
  - intros ->. discriminate Td.
  - lia.
Qed.

(** An instance of X12 on the first of June 2025: with the sedan selected,
    the tenth and then the thirteenth give a valid booking of three days. *)
Lemma X12_choosing_a_range_witness :
  let s := Machine.store
             (Machine.handleSelect Machine.init Samples.sedan) in
  let r1 := DateSelection.handlePickupChange Samples.host DateSelection.noErrors s
              "2025-06-10" in
  let r2 := DateSelection.handleDropoffChange Samples.host (fst r1) (snd r1)
              "2025-06-13" in
  Selectors.selectRentalDays Samples.host (snd r2) = 3
  /\ Selectors.selectIsBookingValid Samples.host (snd r2) = true.
Proof.
  cbv zeta.
  destruct (X12_choosing_a_range Samples.host DateSelection.noErrors
              (Machine.store (Machine.handleSelect Machine.init Samples.sedan))
              "2025-06-10" "2025-06-13" 20249 20252 eq_refl eq_refl)
    as (_ & _ & _ & _ & Hdays & Hvalid).
  - cbn. lia.
  - lia.
  - cbv zeta in Hdays, Hvalid. split; [exact Hdays|]. apply Hvalid. discriminate.
Defined.

(* ================================================================== *)
(** ** Facts about orderly sessions *)
(* ================================================================== *)

Module OrderlyFacts.

(** What an orderly session keeps true. *)
Definition Inv (m : Machine.t) : Prop :=
  let s := Machine.store m in
  incl (BookingState.selectedAddons s) (Stated.available_ids s)
  /\ (Machine.inflight m = [] \/ exists o, Machine.inflight m = [o])
  /\ (Machine.inflight m <> [] ->
      BookingState.addons s = [] /\ BookingState.selectedAddons s = [])
  /\ (forall o v, Machine.inflight m = [o] -> BookingState.selectedVehicle s = Some v ->
        Vehicle.id v = o)
  /\ (forall v, BookingState.selectedVehicle s = Some v -> Machine.inflight m = [] ->
        BookingState.addons s = [] \/ BookingState.addons s = Api.getAddons (Vehicle.id v)).

(** The vehicle and the add-ons, chosen and available. *)
Definition same_addons (s s' : BookingState.t) : Prop :=
  BookingState.selectedVehicle s' = BookingState.selectedVehicle s
  /\ BookingState.selectedAddons s' = BookingState.selectedAddons s
  /\ BookingState.addons s' = BookingState.addons s.

Lemma Inv_same_addons m s' e' :
  Inv m -> same_addons (Machine.store m) s' -> Inv (Machine.mk s' e' (Machine.inflight m)).
Proof.
  intros I (Ev & Es & Ea). unfold Inv, Stated.available_ids in *.
  cbn [Machine.store Machine.inflight]. rewrite Ev, Es, Ea. exact I.
Qed.

Lemma same_addons_refl s : same_addons s s.
Proof. repeat split. Qed.

Lemma same_addons_pickup_change h e s v :
  same_addons s (snd (DateSelection.handlePickupChange h e s v)).
Proof.
  rewrite HandlerFacts.pickup_change_store.
  destruct (Stated.rejected h v); [apply same_addons_refl|].
  destruct (_ && _ && _)%bool; repeat split.
Qed.

Lemma same_addons_dropoff_change h e s v :
  same_addons s (snd (DateSelection.handleDropoffChange h e s v)).
Proof.
  rewrite HandlerFacts.dropoff_change_store.
  destruct (Vocabulary.dropoff_rejected h s v); repeat split.
Qed.

Lemma same_addons_pickup_blur h e s v :
  same_addons s (snd (DateBlur.handlePickupBlur h e s v)).
Proof.
  rewrite HandlerFacts.pickup_blur_store. destruct (_ && _)%bool; repeat split.
Qed.

Lemma same_addons_dropoff_blur h e s v :
  same_addons s (snd (DateBlur.handleDropoffBlur h e s v)).
Proof.
  rewrite HandlerFacts.dropoff_blur_store. destruct (_ && _)%bool; repeat split.
Qed.

Lemma Inv_init : Inv Machine.init.
Proof.
  unfold Inv. cbn. split; [intros x []|]. split; [left; reflexivity|].
  split; [intros H; contradiction|]. split; intros; discriminate.
Qed.

Lemma remove_first_incl x l : incl (Stated.remove_first x l) l.
Proof. intros y Hy. eapply MachineFacts.remove_first_In. exact Hy. Qed.

Lemma Inv_step h m ev : Inv m -> Session.orderly m ev -> Inv (Session.step h m ev).
Proof.
  intros I O. destruct ev as [ev|v|v|]; cbn [Session.step].
  - destruct ev as [v|d|d|id| | | | |r|k r]; cbn [Machine.step].
    + (* a vehicle is chosen: nothing was in flight *)
      cbn in O. unfold Machine.handleSelect, Slice.dispatch. cbn [Slice.reducer].
      destruct (SliceFacts.fetchAddons_pending_frame
                  (Slice.selectVehicle (Machine.store m) v)) as (Ev & _ & _ & Es & Ea & _).
      cbv zeta in Ev, Es, Ea. unfold Inv, Stated.available_ids.
      cbn [Machine.store Machine.inflight]. rewrite Ev, Es, Ea, O. cbn.
      split; [intros x []|]. split; [right; eexists; reflexivity|].
      split; [intros _; split; reflexivity|].
      split; [intros o v' [= <-] [= <-]; reflexivity|].
      intros v' _ [=].
    + pose proof (same_addons_pickup_change h (Machine.errors m) (Machine.store m) d) as F.
      destruct (DateSelection.handlePickupChange h (Machine.errors m) (Machine.store m) d).
      apply Inv_same_addons; assumption.
    + pose proof (same_addons_dropoff_change h (Machine.errors m) (Machine.store m) d) as F.
      destruct (DateSelection.handleDropoffChange h (Machine.errors m) (Machine.store m) d).
      apply Inv_same_addons; assumption.
    + (* a box on the page is ticked *)
      cbn in O. unfold AddonsSelection.checkboxes in O.
      destruct I as (Isub & Ione & Ifly & Iorig & Icat).
      destruct (BookingState.selectedVehicle (Machine.store m)) as [v|] eqn:Ev;
        [|contradiction].
      unfold Slice.dispatch. cbn [Slice.reducer].
      destruct (MachineFacts.toggleAddon_frame (Machine.store m) id) as (Ev' & _ & _ & Ea & _).
      pose proof (MachineFacts.toggleAddon_selected (Machine.store m) id) as Es.
      cbv zeta in Ev', Ea.
      assert (Nofly : Machine.inflight m = []).
      { destruct (Machine.inflight m) eqn:El; [reflexivity|].
        destruct Ifly as [Ha _]; [discriminate|]. rewrite Ha in O. contradiction. }
      unfold Inv, Stated.available_ids. cbn [Machine.store Machine.inflight].
      rewrite Ev', Ea, Nofly. split; [|split; [left; reflexivity|split; [contradiction|split]]].
      * rewrite Es. destruct (Selectors.includes _ id).
        -- intros x Hx. apply Isub. apply (remove_first_incl id). exact Hx.
        -- intros x Hx. apply in_app_or in Hx. destruct Hx as [Hx|[<-|[]]];
             [apply Isub; exact Hx | exact O].
      * intros o v' [=].
      * intros v' Hv' _. apply Icat; [rewrite <- Ev; exact Hv' | exact Nofly].
    + cbn [Machine.store]. unfold Machine.handleBookNow.
      destruct (Selectors.selectIsBookingValid h (Machine.store m)).
      * apply Inv_same_addons; [exact I | repeat split].
      * destruct m; exact I.
    + apply Inv_same_addons; [exact I | repeat split].
    + (* reset *)
      destruct I as (Isub & Ione & Ifly & Iorig & Icat).
      unfold Inv, Stated.available_ids. cbn.
      split; [intros x []|]. split; [exact Ione|].
      split; [intros Hfly; destruct (Ifly Hfly) as [Ha _]; split; [exact Ha | reflexivity]|].
      split; intros; discriminate.
    + apply Inv_same_addons; [exact I | repeat split].
    + destruct r; apply Inv_same_addons; try exact I; repeat split.
    + (* a request settles *)
      unfold Machine.settle. destruct (nth_error (Machine.inflight m) k) as [o|] eqn:Ek;
        [|exact I].
      destruct I as (Isub & Ione & Ifly & Iorig & Icat).
      destruct Ione as [Enone | [o' Eone]]; [rewrite Enone in Ek; destruct k; discriminate|].
      assert (k = 0%nat /\ o = o') as [-> ->].
      { rewrite Eone in Ek. destruct k as [|k]; [injection Ek as <-; split; reflexivity|].
        destruct k; discriminate Ek. }
      destruct Ifly as [Ha Hs]; [rewrite Eone; discriminate|].
      unfold Inv, Stated.available_ids. cbn [Machine.store Machine.inflight].
      rewrite Eone. unfold Machine.remove_nth. cbn [firstn skipn app].
      destruct r as [payload|msg]; unfold Slice.dispatch; cbn [Slice.reducer];
        cbn [Slice.fetchAddons_fulfilled Slice.fetchAddons_rejected Slice.with_addons
             BookingState.selectedAddons BookingState.addons BookingState.selectedVehicle];
        rewrite Hs.
      * cbn in O. specialize (O o' Ek). subst payload.
        split; [intros x []|]. split; [left; reflexivity|]. split; [contradiction|].
        split; [intros ? ? [=]|]. intros v Hv _. right.
        rewrite (Iorig o' v Eone Hv). reflexivity.
      * split; [intros x []|]. split; [left; reflexivity|]. split; [contradiction|].
        split; [intros ? ? [=]|]. intros v Hv _. left. reflexivity.
  - pose proof (same_addons_pickup_blur h (Machine.errors m) (Machine.store m) v) as F.
    destruct (DateBlur.handlePickupBlur h (Machine.errors m) (Machine.store m) v).
    apply Inv_same_addons; assumption.
  - pose proof (same_addons_dropoff_blur h (Machine.errors m) (Machine.store m) v) as F.
    destruct (DateBlur.handleDropoffBlur h (Machine.errors m) (Machine.store m) v).
    apply Inv_same_addons; assumption.
  - destruct I as (Isub & Ione & Ifly & Iorig & Icat).
    unfold Inv, Stated.available_ids. cbn.
    split; [intros x []|]. split; [exact Ione|].
    split; [intros Hfly; destruct (Ifly Hfly) as [Ha _]; split; [exact Ha | reflexivity]|].
    split; intros; discriminate.
Qed.

Lemma reachable_Inv h m : Session.reachable_orderly h m -> Inv m.
Proof.
  induction 1 as [|m ev now R IH Hnow O]; [apply Inv_init | apply Inv_step; assumption].
Qed.

(** A step of an orderly session in which the clock stands still. *)
Lemma orderly_step_still h m ev :
  Session.reachable_orderly h m -> Session.orderly m ev ->
  Session.reachable_orderly h (Session.step h m ev).
Proof.
  intros R O. rewrite <- (SessionFacts.at_time_clock h) at 2.
  apply Session.orderly_step; [exact R | lia | exact O].
Qed.

End OrderlyFacts.

(** X13. In an orderly session (boxes are ticked only when they are on the
    page, a vehicle is chosen only while no add-on request is in flight, a
    request is fulfilled with the catalogue's list for its vehicle, or
    rejected) the selected add-on ids are always among the available ones, at
    most one request is in flight, no box is on the page while it is, and
    once it has settled the available add-ons are those of the selected
    vehicle, or none after a rejection. *)
Theorem X13_orderly_sessions :
  forall (h : JS.Host) (m : Machine.t),
    Session.reachable_orderly h m ->
    let s := Machine.store m in
    incl (BookingState.selectedAddons s) (Stated.available_ids s)
    /\ (List.length (Machine.inflight m) <= 1)%nat
    /\ (Machine.inflight m <> [] ->
        BookingState.addons s = [] /\ AddonsSelection.checkboxes s = [])
    /\ (forall v, BookingState.selectedVehicle s = Some v -> Machine.inflight m = [] ->
          BookingState.addons s = []
          \/ BookingState.addons s = Api.getAddons (Vehicle.id v)).
Proof.
  intros h m R s. subst s.
  destruct (OrderlyFacts.reachable_Inv h m R) as (Isub & Ione & Ifly & _ & Icat).
  split; [exact Isub|]. split; [|split; [|exact Icat]].
  - destruct Ione as [-> | [o ->]]; cbn; lia.
  - intros Hfly. destruct (Ifly Hfly) as [Ha _]. split; [exact Ha|].
    unfold AddonsSelection.checkboxes. rewrite Ha.
    destruct (BookingState.selectedVehicle (Machine.store m)); reflexivity.
Qed.

(** An instance of X13: the sedan's add-ons have arrived and two of them are
    ticked. *)
Lemma X13_orderly_sessions_witness :
  BookingState.selectedAddons (Machine.store Sessions.ticked) = [1; 5]
  /\ incl (BookingState.selectedAddons (Machine.store Sessions.ticked))
          (Stated.available_ids (Machine.store Sessions.ticked))
  /\ Machine.inflight Sessions.ticked = [].
Proof.
  split; [reflexivity|]. split; [|reflexivity].
  assert (R : Session.reachable_orderly Samples.host Sessions.ticked).
  { unfold Sessions.ticked, Session.run. cbn [fold_left].
    apply OrderlyFacts.orderly_step_still; [apply OrderlyFacts.orderly_step_still;
      [apply OrderlyFacts.orderly_step_still; [apply OrderlyFacts.orderly_step_still;
        [apply Session.orderly_init|]|]|]|].
    - reflexivity.
    - intros origin E. cbn in E. injection E as <-. reflexivity.
    - cbn. tauto.
    - cbn. tauto. }
  destruct (X13_orderly_sessions Samples.host Sessions.ticked R) as [H _]. exact H.
Defined.

(* ================================================================== *)
(** ** Further properties: the catalogue of add-ons *)
(* ================================================================== *)

Module BackendFacts.

Lemma intValue_period v k : Backend.intValue (v + k * 4294967296) = Backend.intValue v.
Proof.
  unfold Backend.intValue.
  replace (v + k * 4294967296 + 2147483648) with (v + 2147483648 + k * 4294967296) by lia.
  rewrite Z.mod_add by discriminate. reflexivity.
Qed.

(** The three lists the service can answer with. *)
Lemma tiers vehicleId :
  let base := [Backend.GPS_NAVIGATION; Backend.CHILD_SEAT; Backend.INSURANCE;
               Backend.ROADSIDE_ASSISTANCE] in
  Backend.getAddonsByVehicleId vehicleId = base
  \/ Backend.getAddonsByVehicleId vehicleId = (base ++ [Backend.WIFI_HOTSPOT])%list
  \/ Backend.getAddonsByVehicleId vehicleId
     = (base ++ [Backend.WIFI_HOTSPOT; Backend.DRIVER_SERVICE; Backend.PREMIUM_INSURANCE;
                 Backend.CONCIERGE_SERVICE; Backend.CHAUFFEUR_SERVICE;
                 Backend.PREMIUM_SOUND_SYSTEM])%list.
Proof.
  destruct vehicleId as [v|]; cbn; [|left; reflexivity].
  destruct (Backend.intValue v =? 1); [left; reflexivity|].
  destruct ((Backend.intValue v =? 2) || (Backend.intValue v =? 4))%bool;
    [right; left; reflexivity|].
  destruct (Backend.intValue v =? 3); [right; right|left]; reflexivity.
Qed.

End BackendFacts.

(** X14. Whatever vehicle id is asked for, known, unknown or none, the add-on
    service answers with a list that starts with the four basic add-ons, has
    between four and ten entries with no id twice, and is part of the
    complete list [getAllAddons]; the controller passes it on unchanged; so
    the front end never receives an empty list of add-ons.  The answer
    depends on the low 32 bits of the id only. *)
Theorem X14_addon_catalogue : forall vehicleId : option Z,
  let l := Backend.getAddonsByVehicleId vehicleId in
  firstn 4 l = [Backend.GPS_NAVIGATION; Backend.CHILD_SEAT; Backend.INSURANCE;
                Backend.ROADSIDE_ASSISTANCE]
  /\ (4 <= List.length l <= 10)%nat
  /\ NoDup (map Addon.id l)
  /\ incl l AddonController.getAllAddons
  /\ AddonController.getAddons vehicleId = l
  /\ (forall v k, vehicleId = Some v ->
        Backend.getAddonsByVehicleId (Some (v + k * 4294967296)) = l)
  /\ (forall v, Api.getAddons v <> []).
Proof.
  intros vehicleId l. subst l.
  split; [|split; [|split; [|split; [|split; [|split]]]]].
  - destruct (BackendFacts.tiers vehicleId) as [E|[E|E]]; rewrite E; reflexivity.
  - destruct (BackendFacts.tiers vehicleId) as [E|[E|E]]; rewrite E; cbn; lia.
  - destruct (BackendFacts.tiers vehicleId) as [E|[E|E]]; rewrite E; cbn;
      repeat constructor; cbn; intuition discriminate.
  - destruct (BackendFacts.tiers vehicleId) as [E|[E|E]]; rewrite E;
      intros x Hx; cbn in Hx |- *; intuition.
  - destruct vehicleId; reflexivity.
  - intros v k ->. unfold Backend.getAddonsByVehicleId.
    rewrite BackendFacts.intValue_period. reflexivity.
  - intros v. unfold Api.getAddons.
    destruct (BackendFacts.tiers (if v =? 0 then None else Some v)) as [E|[E|E]];
      rewrite E; discriminate.
Qed.

(** An instance of X14: the id 2^32 + 3 is served the luxury car's list. *)
Lemma X14_addon_catalogue_witness :
  Backend.getAddonsByVehicleId (Some 4294967299) = AddonController.getAllAddons.
Proof.
  destruct (X14_addon_catalogue (Some 3)) as (_ & _ & _ & _ & _ & H & _).
  apply (H 3 1). reflexivity.
Defined.

(* ================================================================== *)
(** ** Facts about the fields of a date and their text *)
(* ================================================================== *)

Module FormatFacts.
Import JS JSFormat.

(** The year found is the year of the day. *)
Lemma YearFromDay_spec d :
  DayFromYear (YearFromDay d) <= d < DayFromYear (YearFromDay d + 1).
Proof.
  unfold YearFromDay. cbv zeta.
  assert (Low : DayFromYear (1970 + (400 * d) / 146097 - 1) <= d)
    by (unfold DayFromYear; Z.div_mod_to_equations; lia).
  assert (High : d < DayFromYear (1970 + (400 * d) / 146097 + 2))
    by (unfold DayFromYear; Z.div_mod_to_equations; lia).
  set (y0 := 1970 + (400 * d) / 146097) in *.
  destruct (Z.ltb_spec d (DayFromYear y0)) as [H1|H1].
  - replace (y0 - 1 + 1) with y0 by lia. lia.
  - destruct (Z.leb_spec (DayFromYear (y0 + 1)) d) as [H2|H2].
    + replace (y0 + 1 + 1) with (y0 + 2) by lia. lia.
    + lia.
Qed.

(** A day lies in one year only. *)
Lemma year_unique y d :
  DayFromYear y <= d < DayFromYear (y + 1) -> YearFromDay d = y.
Proof.
  intros [Hlo Hhi]. destruct (YearFromDay_spec d) as [Slo Shi].
  set (Y := YearFromDay d) in *.
  destruct (Z_lt_le_dec Y y) as [L|L].
  - pose proof (DateFacts.DayFromYear_mono (Y + 1) y ltac:(lia)). lia.
  - destruct (Z_lt_le_dec y Y) as [G|G]; [|lia].
    pose proof (DateFacts.DayFromYear_mono (y + 1) Y ltac:(lia)). lia.
Qed.

Lemma DayWithinYear_bounds d :
  0 <= DayWithinYear d < DaysInYear (YearFromDay d).
Proof.
  unfold DayWithinYear. destruct (YearFromDay_spec d) as [Slo Shi].
  rewrite DateFacts.DayFromYear_next in Shi. lia.
Qed.

Ltac split_ltb :=
  repeat match goal with
         | |- context [?a <? ?b] => destruct (Z.ltb_spec a b)
         end.

(** The fields of a day name that day, and are a month and a day that
    exist. *)
Lemma fields_of_day d :
  valid_ymd (YearFromDay d) (MonthFromDay d + 1) (DateFromDay d) = true
  /\ MakeDay (YearFromDay d) (MonthFromDay d + 1) (DateFromDay d) = d.
Proof.
  pose proof (DayWithinYear_bounds d) as B.
  assert (E : d = DayFromYear (YearFromDay d) + DayWithinYear d)
    by (unfold DayWithinYear; lia).
  unfold valid_ymd, MakeDay, DaysInMonth, DateFromDay, MonthFromDay. cbv zeta.
  set (dw := DayWithinYear d) in *. set (Y := YearFromDay d) in *.
  destruct (DateFacts.DaysInYear_cases Y) as [[L D]|[L D]]; rewrite L; rewrite D in B.
  - split_ltb; try lia; cbn [Z.add Pos.add Pos.succ]; cbv [MonthStart Z.eqb Pos.eqb orb];
      (split; [repeat (apply andb_true_intro; split); apply Z.leb_le; lia | lia]).
  - split_ltb; try lia; cbn [Z.add Pos.add Pos.succ]; cbv [MonthStart Z.eqb Pos.eqb orb];
      (split; [repeat (apply andb_true_intro; split); apply Z.leb_le; lia | lia]).
Qed.

(** *** Numbers as text *)

Lemma digit_of_char v : 0 <= v <= 9 -> digit (digit_char v) = Some v.
Proof.
  intros H.
  assert (C : v = 0 \/ v = 1 \/ v = 2 \/ v = 3 \/ v = 4 \/ v = 5 \/ v = 6 \/ v = 7
              \/ v = 8 \/ v = 9) by lia.
  destruct C as [->|[->|[->|[->|[->|[->|[->|[->|[->| ->]]]]]]]]]; reflexivity.
Qed.

Lemma toString_four n : 1000 <= n <= 9999 ->
  Number_toString (Some n)
  = String (digit_char (n / 10 / 10 / 10 mod 10))
      (String (digit_char (n / 10 / 10 mod 10))
         (String (digit_char (n / 10 mod 10))
            (String (digit_char (n mod 10)) ""))).
Proof.
  intros H. unfold Number_toString.
  destruct (Z.ltb_spec n 0); [lia|].
  pose proof (Z.log2_le_mono 1000 n ltac:(lia)) as L.
  change (Z.log2 1000) with 9 in L.
  destruct (Z.to_nat (Z.log2 n)) as [|[|[|f]]] eqn:F; try lia.
  cbn [digits].
  destruct (Z.eqb_spec (n / 10) 0) as [E|_]; [Z.div_mod_to_equations; lia|].
  destruct (Z.eqb_spec (n / 10 / 10) 0) as [E|_]; [Z.div_mod_to_equations; lia|].
  destruct (Z.eqb_spec (n / 10 / 10 / 10) 0) as [E|_]; [Z.div_mod_to_equations; lia|].
  destruct (Z.eqb_spec (n / 10 / 10 / 10 / 10) 0) as [_|E];
    [reflexivity | exfalso; apply E; Z.div_mod_to_equations; lia].
Qed.

Lemma padded_two n : 0 <= n <= 99 ->
  padStart 2 "0" (Number_toString (Some n))
  = String (digit_char (n / 10)) (String (digit_char (n mod 10)) "").
Proof.
  intros H. unfold Number_toString.
  destruct (Z.ltb_spec n 0); [lia|].
  destruct (Z_lt_le_dec n 10) as [Small|Big].
  - cbn [digits]. rewrite (Z.div_small n 10) by lia. cbn [Z.eqb]. reflexivity.
  - pose proof (Z.log2_le_mono 10 n ltac:(lia)) as L.
    change (Z.log2 10) with 3 in L.
    destruct (Z.to_nat (Z.log2 n)) as [|f] eqn:F; try lia.
    cbn [digits].
    destruct (Z.eqb_spec (n / 10) 0) as [E|_]; [Z.div_mod_to_equations; lia|].
    destruct (Z.eqb_spec (n / 10 / 10) 0) as [_|E];
      [|exfalso; apply E; Z.div_mod_to_equations; lia].
    rewrite (Z.mod_small (n / 10) 10) by (Z.div_mod_to_equations; lia).
    reflexivity.
Qed.

(** The text built from a year of four digits, a month and a day reads back
    as these three numbers. *)
Lemma scan_formatted y m d :
  1000 <= y <= 9999 -> 0 <= m <= 99 -> 0 <= d <= 99 ->
  scan_ymd (Number_toString (Some y) ++ "-"
            ++ padStart 2 "0" (Number_toString (Some m)) ++ "-"
            ++ padStart 2 "0" (Number_toString (Some d)))
  = Some (y, m, d, "").
Proof.
  intros Hy Hm Hd.
  rewrite (toString_four y Hy), (padded_two m Hm), (padded_two d Hd).
  cbn [append]. unfold scan_ymd.
  rewrite !digit_of_char by (Z.div_mod_to_equations; lia).
  change (is_dash "-") with true. cbn [andb].
  assert (Ey : 1000 * (y / 10 / 10 / 10 mod 10) + 100 * (y / 10 / 10 mod 10)
               + 10 * (y / 10 mod 10) + y mod 10 = y)
    by (Z.div_mod_to_equations; lia).
  assert (Em : 10 * (m / 10) + m mod 10 = m) by (Z.div_mod_to_equations; lia).
  assert (Ed : 10 * (d / 10) + d mod 10 = d) by (Z.div_mod_to_equations; lia).
  rewrite Ey, Em, Ed. reflexivity.
Qed.

(** The text of a date in a year of four digits is the calendar date of its
    local day. *)
Lemma format_calendar h t :
  1000 <= YearFromDay (Day (LocalTime h t)) <= 9999 ->
  Calendar.calendar_day (DateLimits.format h (Some t)) = Some (Day (LocalTime h t)).
Proof.
  intros Hy. set (d := Day (LocalTime h t)) in *.
  destruct (fields_of_day d) as [V M].
  pose proof (DateFacts.valid_ymd_bounds _ _ _ V) as [Bm Bd].
  assert (Bd' : DateFromDay d <= 31).
  { unfold DaysInMonth in Bd.
    destruct (MonthFromDay d + 1 =? 2), (InLeapYear (YearFromDay d)),
      ((MonthFromDay d + 1 =? 4) || (MonthFromDay d + 1 =? 6) || (MonthFromDay d + 1 =? 9)
       || (MonthFromDay d + 1 =? 11))%bool; lia. }
  unfold Calendar.calendar_day, Calendar.calendar_date, DateLimits.format.
  unfold getFullYear, getMonth, getDate, succ. cbn [option_map]. fold d.
  rewrite scan_formatted by lia.
  cbn [String.eqb andb]. rewrite V, M. reflexivity.
Qed.

(** One day after local midnight of day [j] is local midnight of the next
    day. *)
Lemma setDate_next h j :
  setDate h (Some (j * msPerDay - LocalTZA h))
    (succ (getDate h (Some (j * msPerDay - LocalTZA h))))
  = Some ((j + 1) * msPerDay - LocalTZA h).
Proof.
  unfold setDate, getDate, succ. cbn [option_map].
  pose proof (DateFacts.local_day_midnight h j) as D. unfold Calendar.local_day in D.
  rewrite D. unfold LocalTime, UTC, MakeDate.
  replace (j * msPerDay - LocalTZA h + LocalTZA h) with (j * msPerDay) by lia.
  rewrite Z.mod_mul by discriminate. f_equal. lia.
Qed.

End FormatFacts.

(* ================================================================== *)
(** ** Further properties: the limits given to the date pickers *)
(* ================================================================== *)

(** X15. In a year of four digits, [todayString] is today's calendar date in
    local time, whatever the time of day and the time zone.  It is the [min]
    of the pickup field, and it agrees with the handlers: a calendar date is
    at or after it, as the strings are ordered, exactly when [isValidDate]
    accepts it and exactly when SetPickupDate does not turn it down. *)
Theorem X15_today_string : forall h : JS.Host,
  1000 <= JSFormat.YearFromDay (Calendar.today h) <= 9999 ->
  Calendar.calendar_day (DateLimits.todayString h) = Some (Calendar.today h)
  /\ (forall d k, Calendar.calendar_day d = Some k ->
        JS.str_le (DateLimits.todayString h) d = DateSelection.isValidDate h d
        /\ JS.str_le (DateLimits.todayString h) d = negb (Stated.rejected h d)).
Proof.
  intros h Hy.
  assert (T : Calendar.calendar_day (DateLimits.todayString h) = Some (Calendar.today h)).
  { unfold DateLimits.todayString.
    pose proof (DateFacts.todayLocal_spec h) as E. unfold DateSelection.todayLocal in E.
    rewrite E, FormatFacts.format_calendar;
      pose proof (DateFacts.local_day_midnight h (Calendar.today h)) as D;
      unfold Calendar.local_day in D; rewrite D; [reflexivity | exact Hy]. }
  split; [exact T|]. intros d k Hk.
  rewrite (HandlerFacts.calendar_leb_iff _ _ _ _ T Hk),
    (HandlerFacts.isValidDate_calendar h d k Hk), (HandlerFacts.rejected_calendar h d k Hk).
  split; [reflexivity|].
  destruct (Z.leb_spec (Calendar.today h) k), (Z.ltb_spec k (Calendar.today h));
    try reflexivity; lia.
Qed.

(** An instance of X15: half past five in the morning of the first of June
    2025, five and a half hours ahead of UTC. *)
Lemma X15_today_string_witness :
  DateLimits.todayString Samples.host = "2025-06-01"
  /\ Calendar.calendar_day (DateLimits.todayString Samples.host) = Some 20240.
Proof.
  split; [reflexivity|].
  destruct (X15_today_string Samples.host) as [H _]; [|exact H].
  vm_compute. split; discriminate.
Defined.

(** X16. [getMinDropoffDate] is the [min] of the dropoff field.  With no
    pickup it is [todayString]; with a pickup the host cannot read it is the
    text NaN-NaN-NaN; with a calendar pickup it is the calendar date of the
    next day (across the ends of months and years, in years of four
    digits), and a calendar dropoff is at or after it, as the strings are
    ordered, exactly when [isValidDropoffDate] accepts it against that
    pickup. *)
Theorem X16_min_dropoff_date : forall (h : JS.Host) (pickup : string),
  (pickup = "" -> DateLimits.getMinDropoffDate h pickup = DateLimits.todayString h)
  /\ (pickup <> "" -> JS.Date_of_string h (pickup ++ "T00:00:00") = None ->
        DateLimits.getMinDropoffDate h pickup = "NaN-NaN-NaN")
  /\ (forall j, Calendar.calendar_day pickup = Some j ->
        1000 <= JSFormat.YearFromDay (j + 1) <= 9999 ->
        Calendar.calendar_day (DateLimits.getMinDropoffDate h pickup) = Some (j + 1)
        /\ (forall d k, Calendar.calendar_day d = Some k ->
              JS.str_le (DateLimits.getMinDropoffDate h pickup) d
              = DateSelection.isValidDropoffDate h d pickup)).
Proof.
  intros h pickup. split; [|split].
  - intros ->. reflexivity.
  - intros Hne Hnone. apply SliceFacts.truthy_true_iff in Hne.
    unfold DateLimits.getMinDropoffDate. rewrite Hne, Hnone. reflexivity.
  - intros j Hj Hy.
    assert (M : Calendar.calendar_day (DateLimits.getMinDropoffDate h pickup) = Some (j + 1)).
    { unfold DateLimits.getMinDropoffDate.
      rewrite (DateFacts.calendar_nonempty _ _ Hj). cbn [negb].
      pose proof Hj as Hd. apply DateFacts.calendar_day_date in Hd.
      destruct Hd as (y & m & d & Hd & ->).
      rewrite (DateFacts.calendar_parse_local h _ _ _ _ Hd), FormatFacts.setDate_next.
      pose proof (DateFacts.local_day_midnight h (JS.MakeDay y m d + 1)) as D.
      unfold Calendar.local_day in D.
      rewrite FormatFacts.format_calendar; rewrite D; [reflexivity | exact Hy]. }
    split; [exact M|]. intros d k Hk.
    rewrite (HandlerFacts.calendar_leb_iff _ _ _ _ M Hk),
      (HandlerFacts.isValidDropoffDate_calendar h d pickup k j Hk Hj).
    destruct (Z.leb_spec (j + 1) k), (Z.ltb_spec j k); try reflexivity; lia.
Qed.

(** An instance of X16: the day after the last day of 2025, and the day
    after the 28th of February of a leap year. *)
Lemma X16_min_dropoff_date_witness :
  DateLimits.getMinDropoffDate Samples.host "2025-12-31" = "2026-01-01"
  /\ DateLimits.getMinDropoffDate Samples.host "2024-02-28" = "2024-02-29"
  /\ Calendar.calendar_day (DateLimits.getMinDropoffDate Samples.host "2025-12-31")
     = Some 20454.
Proof.
  split; [reflexivity|]. split; [reflexivity|].
  destruct (X16_min_dropoff_date Samples.host "2025-12-31") as (_ & _ & H).
  destruct (H 20453) as [E _]; [reflexivity | vm_compute; split; discriminate | exact E].
Defined.

(* ================================================================== *)
(** ** Further properties: the error handling of the back end *)
(* ================================================================== *)

Module ErrorFacts.
Import GlobalExceptionHandler.

Lemma prefix_app w q : String.prefix w (w ++ q) = true.
Proof.
  induction w as [|c w IH]; [destruct q; reflexivity|]. cbn.
  destruct (ascii_dec c c) as [_|N]; [exact IH | contradiction].
Qed.

(** A string contains what it was built around. *)
Lemma contains_middle p w q : contains (p ++ w ++ q) w = true.
Proof.
  induction p as [|c p IH].
  - cbn [append].
    assert (U : forall s sub, String.prefix sub s = true -> contains s sub = true)
      by (intros s sub H; destruct s; cbn [contains]; rewrite H; reflexivity).
    apply U, prefix_app.
  - cbn [append contains]. rewrite IH. apply orb_true_r.
Qed.

(** What the loop of [sanitizeParameters] puts for an entry. *)
Definition put_entry (lower : string -> string) (sanitized : JavaMap.t (list string))
    (entry : string * list string) : JavaMap.t (list string) :=
  if isSensitive lower (fst entry)
  then JavaMap.put sanitized (fst entry) ["[REDACTED]"]
  else JavaMap.put sanitized (fst entry) (snd entry).

Lemma sanitize_some lower entries :
  sanitizeParameters lower (Some entries)
  = Some (fold_left (put_entry lower) entries JavaMap.empty).
Proof. destruct entries; reflexivity. Qed.

(** A name that is not among the entries is left as the map had it. *)
Lemma loop_absent lower entries acc name :
  ~ In name (map fst entries) ->
  JavaMap.get (fold_left (put_entry lower) entries acc) name = JavaMap.get acc name.
Proof.
  revert acc. induction entries as [|[k v] rest IH]; intros acc Hnot; [reflexivity|].
  cbn [fold_left]. rewrite IH by (intros Hin; apply Hnot; right; exact Hin).
  assert (Hk : (name =? k)%string = false).
  { apply String.eqb_neq. intros ->. apply Hnot. left. reflexivity. }
  unfold put_entry, JavaMap.put, JavaMap.get. cbn [fst snd].
  destruct (isSensitive lower k); rewrite Hk; reflexivity.
Qed.

(** The name of an entry gets the value of the entry, or the mark. *)
Lemma loop_present lower entries acc name value :
  NoDup (map fst entries) ->
  In (name, value) entries ->
  JavaMap.get (fold_left (put_entry lower) entries acc) name
  = Some (if isSensitive lower name then ["[REDACTED]"] else value).
Proof.
  revert acc. induction entries as [|[k v] rest IH]; intros acc Hnd Hin; [destruct Hin|].
  cbn [map fst] in Hnd. apply NoDup_cons_iff in Hnd. destruct Hnd as [Hfresh Hnd].
  cbn [fold_left]. destruct Hin as [E|Hin].
  - injection E as -> ->. rewrite loop_absent by exact Hfresh.
    unfold put_entry, JavaMap.put, JavaMap.get. cbn [fst snd].
    destruct (isSensitive lower name); rewrite String.eqb_refl; reflexivity.
  - apply IH; assumption.
Qed.

End ErrorFacts.

(** X17.  [sanitizeParameters] answers with a map that has the names of
    the map it was given and no other, in whatever order the entries of
    that map are gone through.  The value of a name that contains one of
    the sensitive words, letter case aside, is the single text [REDACTED];
    the value of every other name is the one it had.  Sanitising the result
    again, its entries gone through in any order, changes nothing; [null]
    comes back as [null].  This holds for every lower-casing function. *)
Theorem X17_sanitize_parameters :
  forall (lower : string -> string) (entries : list (string * list string)),
    NoDup (map fst entries) ->
    exists out,
      GlobalExceptionHandler.sanitizeParameters lower (Some entries) = Some out
      /\ (forall name, JavaMap.containsKey out name = true <-> In name (map fst entries))
      /\ (forall name value, In (name, value) entries ->
            JavaMap.get out name
            = Some (if GlobalExceptionHandler.isSensitive lower name
                    then ["[REDACTED]"] else value))
      /\ (forall name value p q word,
            JavaMap.get out name = Some value ->
            In word GlobalExceptionHandler.SENSITIVE_PARAM_NAMES ->
            lower name = p ++ lower word ++ q ->
            value = ["[REDACTED]"])
      /\ (forall entries' : list (string * list string),
            NoDup (map fst entries') ->
            (forall name value,
               In (name, value) entries' <-> JavaMap.get out name = Some value) ->
            exists out',
              GlobalExceptionHandler.sanitizeParameters lower (Some entries') = Some out'
              /\ forall name, JavaMap.get out' name = JavaMap.get out name)
      /\ GlobalExceptionHandler.sanitizeParameters lower None = None.
Proof.
  intros lower entries Hnd. rewrite ErrorFacts.sanitize_some. eexists.
  split; [reflexivity|].
  set (out := fold_left (ErrorFacts.put_entry lower) entries JavaMap.empty).
  assert (Present : forall name value, In (name, value) entries ->
            JavaMap.get out name
            = Some (if GlobalExceptionHandler.isSensitive lower name
                    then ["[REDACTED]"] else value))
    by (intros name value Hin; apply ErrorFacts.loop_present; assumption).
  assert (Absent : forall name, ~ In name (map fst entries) -> JavaMap.get out name = None)
    by (intros name Hnot; unfold out; rewrite ErrorFacts.loop_absent by exact Hnot;
        reflexivity).
  assert (Marked : forall name value,
            JavaMap.get out name = Some value ->
            GlobalExceptionHandler.isSensitive lower name = true ->
            value = ["[REDACTED]"]).
  { intros name value Hget Hs.
    destruct (in_dec string_dec name (map fst entries)) as [Hin|Hnot].
    - apply in_map_iff in Hin. destruct Hin as ([k v] & <- & Hin). cbn [fst] in *.
      rewrite (Present k v Hin), Hs in Hget. injection Hget as <-. reflexivity.
    - rewrite (Absent name Hnot) in Hget. discriminate Hget. }
  split; [|split; [exact Present|split; [|split; [|reflexivity]]]].
  - intros name. unfold JavaMap.containsKey. fold (JavaMap.get out name). split.
    + intros Hc. destruct (in_dec string_dec name (map fst entries)) as [Hin|Hnot];
        [exact Hin|]. rewrite (Absent name Hnot) in Hc. discriminate Hc.
    + intros Hin. apply in_map_iff in Hin. destruct Hin as ([k v] & <- & Hin).
      cbn [fst]. rewrite (Present k v Hin). reflexivity.
  - intros name value p q word Hget Hword Hname.
    apply (Marked name value Hget).
    unfold GlobalExceptionHandler.isSensitive. cbv zeta.
    apply existsb_exists. exists word. split; [exact Hword|].
    rewrite Hname. apply ErrorFacts.contains_middle.
  - intros entries' Hnd' Hsame. rewrite ErrorFacts.sanitize_some. eexists.
    split; [reflexivity|]. intros name.
    destruct (JavaMap.get out name) as [value|] eqn:Hget.
    + rewrite (ErrorFacts.loop_present lower entries' JavaMap.empty name value Hnd')
        by (apply Hsame; exact Hget).
      destruct (GlobalExceptionHandler.isSensitive lower name) eqn:Hs; [|reflexivity].
      rewrite (Marked name value Hget Hs). reflexivity.
    + rewrite ErrorFacts.loop_absent; [reflexivity|].
      intros Hin. apply in_map_iff in Hin. destruct Hin as ([k v] & <- & Hin).
      cbn [fst] in Hget. apply Hsame in Hin. rewrite Hin in Hget. discriminate Hget.
Qed.

(** An instance of X17: an API key and a keyword are both blanked (the word
    "key" is on the list), the vehicle id is kept, and no other name is in
    the result. *)
Lemma X17_sanitize_parameters_witness :
  exists out,
    GlobalExceptionHandler.sanitizeParameters GlobalExceptionHandler.lower_ascii
      (Some [("vehicleId", ["3"]); ("X-API-KEY", ["s3cr3t"]); ("keyword", ["suv"])])
    = Some out
    /\ JavaMap.get out "X-API-KEY" = Some ["[REDACTED]"]
    /\ JavaMap.get out "keyword" = Some ["[REDACTED]"]
    /\ JavaMap.get out "vehicleId" = Some ["3"]
    /\ JavaMap.containsKey out "page" = false.
Proof.
  assert (Hnd : NoDup (map fst [("vehicleId", ["3"]); ("X-API-KEY", ["s3cr3t"]);
                                ("keyword", ["suv"])]))
    by (cbn; repeat constructor; cbn; intuition discriminate).
  destruct (X17_sanitize_parameters GlobalExceptionHandler.lower_ascii _ Hnd)
    as (out & E & Hkeys & Hval & _).
  exists out. split; [exact E|].
  split; [exact (Hval "X-API-KEY" ["s3cr3t"] (or_intror (or_introl eq_refl)))|].
  split; [exact (Hval "keyword" ["suv"] (or_intror (or_intror (or_introl eq_refl))))|].
  split; [exact (Hval "vehicleId" ["3"] (or_introl eq_refl))|].
  destruct (JavaMap.containsKey out "page") eqn:C; [|reflexivity].
  apply Hkeys in C. cbn in C. intuition discriminate.
Defined.

(** X18. The message of an error response.  The handler of unexpected
    exceptions and the handler of null pointers never answer with an empty
    message, and in production always with the same generic one, so the
    exception's text is not shown; the handler of illegal arguments shows
    the exception's text in every environment.  Whenever the security
    configuration takes the deployment for production, so does the exception
    handler; but with no active profile and no default profile named dev,
    the exception handler takes it for production and the security
    configuration does not. *)
Theorem X18_error_messages :
  forall (environment : Environment.t) (exMessage : option string) (now : Z) (uri : string),
    (GlobalExceptionHandler.message
       (GlobalExceptionHandler.handleException environment exMessage now uri) <> ""
     /\ GlobalExceptionHandler.message
          (GlobalExceptionHandler.handleNullPointerException now uri)
        = GlobalExceptionHandler.generic)
    /\ (GlobalExceptionHandler.isProduction environment = true ->
          GlobalExceptionHandler.message
            (GlobalExceptionHandler.handleException environment exMessage now uri)
          = GlobalExceptionHandler.generic)
    /\ (forall text, exMessage = Some text ->
          GlobalExceptionHandler.message
            (GlobalExceptionHandler.handleIllegalArgumentException exMessage now uri) = text
          /\ (GlobalExceptionHandler.isProduction environment = false -> text <> "" ->
              GlobalExceptionHandler.message
                (GlobalExceptionHandler.handleException environment exMessage now uri) = text))
    /\ (SecurityConfig.isProduction environment = true ->
          GlobalExceptionHandler.isProduction environment = true)
    /\ (Environment.getActiveProfiles environment = [] ->
          asList_contains (Environment.getDefaultProfiles environment) "dev" = false ->
          GlobalExceptionHandler.isProduction environment = true
          /\ SecurityConfig.isProduction environment = false).
Proof.
  intros environment exMessage now uri.
  unfold GlobalExceptionHandler.handleException,
    GlobalExceptionHandler.handleNullPointerException,
    GlobalExceptionHandler.handleIllegalArgumentException,
    GlobalExceptionHandler.sanitizeErrorMessage. cbn [GlobalExceptionHandler.message].
  split; [split; [|reflexivity]|split; [|split; [|split]]].
  - destruct (GlobalExceptionHandler.isProduction environment); [discriminate|].
    destruct exMessage as [m|]; [|discriminate].
    destruct (String.eqb_spec m ""); cbn [negb]; [discriminate | assumption].
  - intros ->. reflexivity.
  - intros text ->. split; [reflexivity|]. intros -> Hne.
    apply String.eqb_neq in Hne. rewrite Hne. reflexivity.
  - unfold SecurityConfig.isProduction, GlobalExceptionHandler.isProduction.
    intros ->. reflexivity.
  - unfold SecurityConfig.isProduction, GlobalExceptionHandler.isProduction.
    intros -> ->. split; reflexivity.
Qed.

(** An instance of X18: Spring's own default profile and no active one. *)
Lemma X18_error_messages_witness :
  GlobalExceptionHandler.isProduction (Environment.mk [] ["default"]) = true
  /\ SecurityConfig.isProduction (Environment.mk [] ["default"]) = false
  /\ GlobalExceptionHandler.message
       (GlobalExceptionHandler.handleException (Environment.mk [] ["default"])
          (Some "Connection refused: db:5432") 0 "/api/v1/addons")
     = GlobalExceptionHandler.generic.
Proof.
  destruct (X18_error_messages (Environment.mk [] ["default"])
              (Some "Connection refused: db:5432") 0 "/api/v1/addons")
    as (_ & Hprod & _ & _ & Hdiff).
  destruct (Hdiff eq_refl eq_refl) as [P S].
  split; [exact P|]. split; [exact S|]. apply Hprod. exact P.
Defined.

(* ================================================================== *)
(** ** Facts about the response cache *)
(* ================================================================== *)

Module CacheFacts.
Import ApiService.

(** The key a call looks up is its url after [GET_]. *)
Lemma key_url (q : Request) : cacheKey q = "GET_" ++ url q.
Proof.
  destruct q as [|v]; [reflexivity|].
  unfold cacheKey, url, addonsKey, addonsUrl.
  destruct (given v); reflexivity.
Qed.

(** A stored key is a looked-up key only for the method [GET]. *)
Lemma method_of_key (m u u' : string) :
  no_underscore m = true -> m ++ "_" ++ u = "GET_" ++ u' -> m = "GET".
Proof.
  intros Hn H.
  destruct m as [|a1 m]; simpl in H; [discriminate H|].
  injection H as H1 H. subst a1.
  destruct m as [|a2 m]; simpl in H; [discriminate H|].
  injection H as H2 H. subst a2.
  destruct m as [|a3 m]; simpl in H; [discriminate H|].
  injection H as H3 H. subst a3.
  destruct m as [|a4 m]; [reflexivity|].
  simpl in H. injection H as H4 H. subst a4.
  simpl in Hn. discriminate Hn.
Qed.

(** Every key of the cache was stored by the response interceptor. *)
Definition stored (method : string) (c : Cache) : Prop :=
  forall k e, In (k, e) c -> exists u, k = method ++ "_" ++ u.

Lemma In_delete (c : Cache) (key k : string) (e : CacheEntry) :
  In (k, e) (delete c key) -> In (k, e) c.
Proof.
  induction c as [|[k0 e0] c IH]; simpl; [tauto|].
  destruct (k0 =? key)%string; simpl; intuition.
Qed.

Lemma stored_delete (method : string) (c : Cache) (key : string) :
  stored method c -> stored method (delete c key).
Proof. intros H k e Hin. apply (H k e). eapply In_delete. exact Hin. Qed.

Lemma reachable_stored (method : string) (c : Cache) :
  reachable method c -> stored method c.
Proof.
  induction 1 as [|c ev _ IH].
  - intros k e [].
  - destruct ev as [now q|q d t|]; simpl.
    + unfold getCached. destruct (get c (cacheKey q)) as [entry|]; simpl.
      * destruct (now - timestamp entry <? CACHE_DURATION); simpl;
          [exact IH | apply stored_delete; exact IH].
      * apply stored_delete; exact IH.
    + unfold onResponse, set. intros k e [Heq|Hin].
      * injection Heq as Hk _. exists (url q). symmetry. exact Hk.
      * eapply stored_delete; [exact IH | exact Hin].
    + intros k e [].
Qed.

Lemma get_stored (method : string) (c : Cache) (q : Request) :
  no_underscore method = true -> (method =? "GET")%string = false ->
  stored method c -> get c (cacheKey q) = None.
Proof.
  intros Hn Hne. induction c as [|[k e] c IH]; intros Hs; simpl; [reflexivity|].
  destruct (k =? cacheKey q)%string eqn:E.
  - exfalso. apply String.eqb_eq in E.
    destruct (Hs k e (or_introl eq_refl)) as [u Hu].
    rewrite Hu, key_url in E.
    apply method_of_key in E; [|exact Hn].
    subst method. discriminate Hne.
  - apply IH. intros k' e' Hin. apply (Hs k' e'). right. exact Hin.
Qed.

End CacheFacts.

(** X20.  The response interceptor stores a response under the method the
    client reports, the calls look up keys that begin with [GET_].  With
    a client that reports the method in any other spelling (one without
    an underscore, such as the lower case [get]), no cache the service can
    come to hold, however calls, responses and clearings follow each
    other, has an entry for any call: every call asks the network and
    returns what it replies. *)
Theorem X20_cache_needs_the_method_in_capitals (method : string) (c : ApiService.Cache)
    (Hword : ApiService.no_underscore method = true)
    (Hother : (method =? "GET")%string = false)
    (Hc : ApiService.reachable method c) :
  forall now q reply,
    fst (ApiService.getCached c now (ApiService.cacheKey q)) = None /\
    fst (ApiService.call method c now q reply) = ApiService.replied reply.
Proof.
  intros now q reply.
  pose proof (CacheFacts.get_stored method c q Hword Hother
                (CacheFacts.reachable_stored method c Hc)) as Hget.
  unfold ApiService.call, ApiService.getCached. rewrite Hget. simpl.
  split; [reflexivity|]. destruct reply; reflexivity.
Qed.

Lemma X20_cache_needs_the_method_in_capitals_witness :
  ApiService.no_underscore "get" = true /\
  ("get" =? "GET")%string = false /\
  ApiService.reachable "get"
    (ApiService.after "get" []
       (ApiService.Answered ApiService.ForVehicles (ApiService.Vehicles Backend.getAllVehicles) 40)) /\
  fst (ApiService.call "get"
         (ApiService.after "get" []
            (ApiService.Answered ApiService.ForVehicles
               (ApiService.Vehicles Backend.getAllVehicles) 40))
         50 ApiService.ForVehicles (ApiService.Failure "Network error. Please check your connection."))
  = inr "Network error. Please check your connection.".
Proof.
  split; [reflexivity|]. split; [reflexivity|]. split.
  - apply ApiService.reach_event. apply ApiService.reach_empty.
  - apply (X20_cache_needs_the_method_in_capitals "get" _ eq_refl eq_refl
             (ApiService.reach_event "get" [] _ (ApiService.reach_empty "get"))).
Defined.
